(** * TheSimple/Ecofactor thermostat client: a shallow embedding

    The development follows [custom_components/simple/thesimple.py] and its
    older sibling [custom_components/nvenergy/thesimple.py].  The two files
    hold the same two classes, [TheSimpleClient] and [TheSimpleThermostat];
    they differ in two places only (an unsupported HTTP method, and whether
    [set_mode] accepts [HVACMode.AUTO]), so one embedding serves both and
    takes the package as a parameter [pkg].

    Python objects are mutable and exceptions do not roll mutations back.
    Methods are therefore functions from a [World] to an [outcome] and the
    world the call leaves behind, whether it returned or raised. *)

From Stdlib Require Import String Ascii List ZArith QArith Bool Lia.
Import ListNotations.

Set Warnings "-register-all".

Local Open Scope string_scope.
Local Open Scope Z_scope.

(** ** Python values *)

(** What [json.loads] can produce, which is also all the values the two
    classes store in their attributes.  Floats are read as exact rationals:
    infinities and NaN are outside the model. *)
Inductive pyval : Type :=
| PNone
| PBool (b : bool)
| PInt (z : Z)
| PFloat (q : Q)
| PStr (s : string)
| PList (l : list pyval)
| PDict (d : list (string * pyval)).

(** An f-string, kept as its literal and interpolated parts so that no
    [str()] of a number has to be invented. *)
Inductive piece : Type :=
| Lit (s : string)
| Fmt (v : pyval).

Definition fstr : Type := list piece.

(** ** Exceptions *)

Inductive exn : Type :=
| TheSimpleError (msg : fstr)
| APIError (msg : fstr)
| AuthError (msg : fstr)
| KeyError (key : string)
| TypeError
| ValueError
| JSONDecodeError
| UnboundLocalError (name : string)
| RecursionError
| ConnectionError.

(** [class APIError(TheSimpleError)], [class AuthError(TheSimpleError)]. *)
Definition isinstance_TheSimpleError (e : exn) : bool :=
  match e with
  | TheSimpleError _ | APIError _ | AuthError _ => true
  | _ => false
  end.

Definition isinstance_AuthError (e : exn) : bool :=
  match e with AuthError _ => true | _ => false end.

Definition isinstance_APIError (e : exn) : bool :=
  match e with APIError _ => true | _ => false end.

Inductive outcome (A : Type) : Type :=
| Return (a : A)
| Raise (e : exn).

Arguments Return {A} a.
Arguments Raise {A} e.

(** ** Operations of the language on values *)

(** [v == s] for a string constant [s]; [HVACMode] is a [StrEnum], so its
    members compare as their string values. *)
Definition py_eq_str (v : pyval) (s : string) : bool :=
  match v with
  | PStr s' => String.eqb s' s
  | _ => false
  end.

Fixpoint dict_get (d : list (string * pyval)) (k : string) : option pyval :=
  match d with
  | [] => None
  | (k', v) :: d' => if String.eqb k' k then Some v else dict_get d' k
  end.

(** [v[k]] for a string key [k]. *)
Definition py_getitem (v : pyval) (k : string) : outcome pyval :=
  match v with
  | PDict d =>
      match dict_get d k with
      | Some x => Return x
      | None => Raise (KeyError k)
      end
  | _ => Raise TypeError
  end.

(** [k in v] for a string key [k]. *)
Definition py_contains (k : string) (v : pyval) : outcome bool :=
  match v with
  | PDict d =>
      Return (match dict_get d k with Some _ => true | None => false end)
  | PList l => Return (existsb (fun x => py_eq_str x k) l)
  | PStr s => Return (match index 0 k s with Some _ => true | None => false end)
  | _ => Raise TypeError
  end.

(** [len(v)]. *)
Definition py_len (v : pyval) : outcome nat :=
  match v with
  | PStr s => Return (String.length s)
  | PList l => Return (List.length l)
  | PDict d => Return (List.length d)
  | _ => Raise TypeError
  end.

(** [s + v] for a string [s]. *)
Definition py_str_add (s : string) (v : pyval) : outcome string :=
  match v with
  | PStr s' => Return (s ++ s')
  | _ => Raise TypeError
  end.

(** [int(temp)] truncates toward zero. *)
Definition py_int (temp : Q) : Z :=
  let (n, d) := temp in Z.quot n (Zpos d).

Definition Qltb (x y : Q) : bool := negb (Qle_bool y x).

(** ** [hashlib.sha1] *)

(** SHA-1 (FIPS 180-4) on 32-bit words held in [Z], with the wrap-around
    written out. *)
Module SHA1.

Definition w32 (x : Z) : Z := x mod 2 ^ 32.

Definition add32 (x y : Z) : Z := w32 (x + y).

Definition rotl (n x : Z) : Z :=
  w32 (Z.lor (Z.shiftl x n) (Z.shiftr x (32 - n))).

Definition not32 (x : Z) : Z := 2 ^ 32 - 1 - x.

(** [s.encode("utf-8")]: a [string] is already its sequence of bytes. *)
Fixpoint bytes_of_string (s : string) : list Z :=
  match s with
  | EmptyString => []
  | String a s' => Z.of_nat (nat_of_ascii a) :: bytes_of_string s'
  end.

(** The [k] low bytes of [x], most significant first. *)
Fixpoint be_bytes (k : nat) (x : Z) : list Z :=
  match k with
  | O => []
  | S k' => (Z.shiftr x (8 * Z.of_nat k')) mod 256 :: be_bytes k' x
  end.

(** The message, a 1 bit, zeros up to 56 modulo 64, the bit length. *)
Definition pad (msg : list Z) : list Z :=
  let len := Z.of_nat (List.length msg) in
  let zeros := Z.to_nat ((55 - len) mod 64) in
  msg ++ [128] ++ repeat 0 zeros ++ be_bytes 8 (8 * len).

Fixpoint words (fuel : nat) (bs : list Z) : list Z :=
  match fuel, bs with
  | S f, a :: b :: c :: d :: rest =>
      (((a * 256 + b) * 256 + c) * 256 + d) :: words f rest
  | _, _ => []
  end.

(** The message schedule, newest word first: [rev] holds W[t-1] .. W[0]. *)
Fixpoint schedule (n : nat) (rev : list Z) : list Z :=
  match n with
  | O => rev
  | S n' =>
      let w := rotl 1 (Z.lxor (Z.lxor (nth 2 rev 0) (nth 7 rev 0))
                               (Z.lxor (nth 13 rev 0) (nth 15 rev 0))) in
      schedule n' (w :: rev)
  end.

Definition f_k (t : nat) (b c d : Z) : Z * Z :=
  if (t <? 20)%nat then
    (Z.lor (Z.land b c) (Z.land (not32 b) d), 1518500249)
  else if (t <? 40)%nat then
    (Z.lxor (Z.lxor b c) d, 1859775393)
  else if (t <? 60)%nat then
    (Z.lor (Z.lor (Z.land b c) (Z.land b d)) (Z.land c d), 2400959708)
  else
    (Z.lxor (Z.lxor b c) d, 3395469782).

Definition state : Type := (Z * Z * Z * Z * Z)%type.

Fixpoint rounds (t : nat) (ws : list Z) (s : state) : state :=
  match ws with
  | [] => s
  | w :: ws' =>
      let '(a, b, c, d, e) := s in
      let (f, k) := f_k t b c d in
      let temp := add32 (add32 (add32 (add32 (rotl 5 a) f) e) k) w in
      rounds (S t) ws' (temp, a, rotl 30 b, c, d)
  end.

Definition block (s : state) (ws16 : list Z) : state :=
  let ws := List.rev (schedule 64 (List.rev ws16)) in
  let '(a, b, c, d, e) := rounds 0 ws s in
  let '(h0, h1, h2, h3, h4) := s in
  (add32 h0 a, add32 h1 b, add32 h2 c, add32 h3 d, add32 h4 e).

Fixpoint blocks (fuel : nat) (ws : list Z) (s : state) : state :=
  match fuel, ws with
  | S f, _ :: _ => blocks f (skipn 16 ws) (block s (firstn 16 ws))
  | _, _ => s
  end.

Definition init : state :=
  (1732584193, 4023233417, 2562383102, 271733878, 3285377520).

(** The 20 bytes of the digest. *)
Definition digest (msg : list Z) : list Z :=
  let bs := pad msg in
  let ws := words (List.length bs) bs in
  let '(h0, h1, h2, h3, h4) := blocks (List.length ws) ws init in
  be_bytes 4 h0 ++ be_bytes 4 h1 ++ be_bytes 4 h2 ++ be_bytes 4 h3
    ++ be_bytes 4 h4.

Definition hex_digit (x : Z) : ascii :=
  if x <? 10 then ascii_of_nat (48 + Z.to_nat x)
  else ascii_of_nat (87 + Z.to_nat x).

(** [.hexdigest()]: two lower-case digits a byte. *)
Fixpoint hex (bs : list Z) : string :=
  match bs with
  | [] => EmptyString
  | b :: bs' =>
      String (hex_digit (b / 16)) (String (hex_digit (b mod 16)) (hex bs'))
  end.

End SHA1.

(** [hashlib.sha1(s.encode("utf-8")).hexdigest()]. *)
Definition sha1_hexdigest (s : string) : string :=
  SHA1.hex (SHA1.digest (SHA1.bytes_of_string s)).

(** ** Objects *)

(** A [requests.Session].  [sess_id] is the identity of the object: two
    sessions made by two calls of [requests.Session()] differ in it. *)
Record Session : Type := mkSession {
  sess_id : nat;
  sess_headers : list (string * string)
}.

(** The dictionary [self._authinfo]. *)
Record AuthInfo : Type := mkAuthInfo {
  ai_nonce : string;
  ai_response : string;
  ai_opaque : string;
  ai_encryptedpass : string
}.

(** One HTTP operation as it leaves the process. *)
Record Request : Type := mkRequest {
  rq_method : string;
  rq_url : fstr;
  rq_headers : list (string * string);
  rq_json : pyval;
  rq_session : nat
}.

(** A [requests.Response]: [r.status_code], [r.text] and what [r.json()]
    gives, [None] when the body is not JSON. *)
Record Response : Type := mkResponse {
  status_code : Z;
  text : string;
  json : option pyval
}.

(** A record handed to [_LOGGER]: level, format string, arguments. *)
Record LogRecord : Type := mkLogRecord {
  levelname : string;
  log_msg : string;
  log_args : list fstr
}.

(** Attributes of [TheSimpleClient].  [_publicKey] and [_noCacheNum] are
    left out: no method modelled here reads them. *)
Record TheSimpleClient : Type := mkTheSimpleClient {
  _base_url : string;
  _token : pyval;
  _authinfo : AuthInfo;
  _username : string;
  _http_sess : option Session;
  _userid : pyval;
  _location_id : pyval;
  _refreshToken : pyval;
  _realm : string;
  _nonce : string;
  _opaque : string
}.

Definition upd_token (x : pyval) (c : TheSimpleClient) : TheSimpleClient :=
  {| _base_url := _base_url c; _token := x; _authinfo := _authinfo c;
     _username := _username c; _http_sess := _http_sess c;
     _userid := _userid c; _location_id := _location_id c;
     _refreshToken := _refreshToken c; _realm := _realm c;
     _nonce := _nonce c; _opaque := _opaque c |}.

Definition upd_http_sess (x : option Session)
    (c : TheSimpleClient) : TheSimpleClient :=
  {| _base_url := _base_url c; _token := _token c; _authinfo := _authinfo c;
     _username := _username c; _http_sess := x; _userid := _userid c;
     _location_id := _location_id c; _refreshToken := _refreshToken c;
     _realm := _realm c; _nonce := _nonce c; _opaque := _opaque c |}.

Definition upd_userid (x : pyval) (c : TheSimpleClient) : TheSimpleClient :=
  {| _base_url := _base_url c; _token := _token c; _authinfo := _authinfo c;
     _username := _username c; _http_sess := _http_sess c; _userid := x;
     _location_id := _location_id c; _refreshToken := _refreshToken c;
     _realm := _realm c; _nonce := _nonce c; _opaque := _opaque c |}.

Definition upd_location_id (x : pyval)
    (c : TheSimpleClient) : TheSimpleClient :=
  {| _base_url := _base_url c; _token := _token c; _authinfo := _authinfo c;
     _username := _username c; _http_sess := _http_sess c;
     _userid := _userid c; _location_id := x;
     _refreshToken := _refreshToken c; _realm := _realm c;
     _nonce := _nonce c; _opaque := _opaque c |}.

Definition upd_refreshToken (x : pyval)
    (c : TheSimpleClient) : TheSimpleClient :=
  {| _base_url := _base_url c; _token := _token c; _authinfo := _authinfo c;
     _username := _username c; _http_sess := _http_sess c;
     _userid := _userid c; _location_id := _location_id c;
     _refreshToken := x; _realm := _realm c; _nonce := _nonce c;
     _opaque := _opaque c |}.
(** Attributes of [TheSimpleThermostat].  [self._client] is the client of
    the surrounding [World]; [_t_location_id] is the thermostat's own
    [_location_id]. *)
Record TheSimpleThermostat : Type := mkTheSimpleThermostat {
  _thermostat_id : pyval;
  _fan_mode : pyval;
  _fan_state : pyval;
  _hvac_mode : pyval;
  _hvac_state : pyval;
  _hold_mode : pyval;
  _cool_setpoint : pyval;
  _heat_setpoint : pyval;
  _setpoint_reason : pyval;
  _current_temp : pyval;
  _last_update : pyval;
  _connected : pyval;
  _name : pyval;
  _max_temp : Q;
  _min_temp : Q;
  _schedule_mode : pyval;
  _supported_modes : pyval;
  _away_details : pyval;
  _preset_mode : pyval;
  _t_location_id : pyval;
  _away_cool_setpoint : Q;
  _away_heat_setpoint : Q
}.

Definition upd_fan_mode (x : pyval)
    (t : TheSimpleThermostat) : TheSimpleThermostat :=
  {| _thermostat_id := _thermostat_id t; _fan_mode := x;
     _fan_state := _fan_state t; _hvac_mode := _hvac_mode t;
     _hvac_state := _hvac_state t; _hold_mode := _hold_mode t;
     _cool_setpoint := _cool_setpoint t; _heat_setpoint := _heat_setpoint t;
     _setpoint_reason := _setpoint_reason t;
     _current_temp := _current_temp t; _last_update := _last_update t;
     _connected := _connected t; _name := _name t; _max_temp := _max_temp t;
     _min_temp := _min_temp t; _schedule_mode := _schedule_mode t;
     _supported_modes := _supported_modes t;
     _away_details := _away_details t; _preset_mode := _preset_mode t;
     _t_location_id := _t_location_id t;
     _away_cool_setpoint := _away_cool_setpoint t;
     _away_heat_setpoint := _away_heat_setpoint t |}.

Definition upd_fan_state (x : pyval)
    (t : TheSimpleThermostat) : TheSimpleThermostat :=
  {| _thermostat_id := _thermostat_id t; _fan_mode := _fan_mode t;
     _fan_state := x; _hvac_mode := _hvac_mode t;
     _hvac_state := _hvac_state t; _hold_mode := _hold_mode t;
     _cool_setpoint := _cool_setpoint t; _heat_setpoint := _heat_setpoint t;
     _setpoint_reason := _setpoint_reason t;
     _current_temp := _current_temp t; _last_update := _last_update t;
     _connected := _connected t; _name := _name t; _max_temp := _max_temp t;
     _min_temp := _min_temp t; _schedule_mode := _schedule_mode t;
     _supported_modes := _supported_modes t;
     _away_details := _away_details t; _preset_mode := _preset_mode t;
     _t_location_id := _t_location_id t;
     _away_cool_setpoint := _away_cool_setpoint t;
     _away_heat_setpoint := _away_heat_setpoint t |}.

Definition upd_hvac_mode (x : pyval)
    (t : TheSimpleThermostat) : TheSimpleThermostat :=
  {| _thermostat_id := _thermostat_id t; _fan_mode := _fan_mode t;
     _fan_state := _fan_state t; _hvac_mode := x;
     _hvac_state := _hvac_state t; _hold_mode := _hold_mode t;
     _cool_setpoint := _cool_setpoint t; _heat_setpoint := _heat_setpoint t;
     _setpoint_reason := _setpoint_reason t;
     _current_temp := _current_temp t; _last_update := _last_update t;
     _connected := _connected t; _name := _name t; _max_temp := _max_temp t;
     _min_temp := _min_temp t; _schedule_mode := _schedule_mode t;
     _supported_modes := _supported_modes t;
     _away_details := _away_details t; _preset_mode := _preset_mode t;
     _t_location_id := _t_location_id t;
     _away_cool_setpoint := _away_cool_setpoint t;
     _away_heat_setpoint := _away_heat_setpoint t |}.

Definition upd_hvac_state (x : pyval)
    (t : TheSimpleThermostat) : TheSimpleThermostat :=
  {| _thermostat_id := _thermostat_id t; _fan_mode := _fan_mode t;
     _fan_state := _fan_state t; _hvac_mode := _hvac_mode t;
     _hvac_state := x; _hold_mode := _hold_mode t;
     _cool_setpoint := _cool_setpoint t; _heat_setpoint := _heat_setpoint t;
     _setpoint_reason := _setpoint_reason t;
     _current_temp := _current_temp t; _last_update := _last_update t;
     _connected := _connected t; _name := _name t; _max_temp := _max_temp t;
     _min_temp := _min_temp t; _schedule_mode := _schedule_mode t;
     _supported_modes := _supported_modes t;
     _away_details := _away_details t; _preset_mode := _preset_mode t;
     _t_location_id := _t_location_id t;
     _away_cool_setpoint := _away_cool_setpoint t;
     _away_heat_setpoint := _away_heat_setpoint t |}.

Definition upd_hold_mode (x : pyval)
    (t : TheSimpleThermostat) : TheSimpleThermostat :=
  {| _thermostat_id := _thermostat_id t; _fan_mode := _fan_mode t;
     _fan_state := _fan_state t; _hvac_mode := _hvac_mode t;
     _hvac_state := _hvac_state t; _hold_mode := x;
     _cool_setpoint := _cool_setpoint t; _heat_setpoint := _heat_setpoint t;
     _setpoint_reason := _setpoint_reason t;
     _current_temp := _current_temp t; _last_update := _last_update t;
     _connected := _connected t; _name := _name t; _max_temp := _max_temp t;
     _min_temp := _min_temp t; _schedule_mode := _schedule_mode t;
     _supported_modes := _supported_modes t;
     _away_details := _away_details t; _preset_mode := _preset_mode t;
     _t_location_id := _t_location_id t;
     _away_cool_setpoint := _away_cool_setpoint t;
     _away_heat_setpoint := _away_heat_setpoint t |}.

Definition upd_cool_setpoint (x : pyval)
    (t : TheSimpleThermostat) : TheSimpleThermostat :=
  {| _thermostat_id := _thermostat_id t; _fan_mode := _fan_mode t;
     _fan_state := _fan_state t; _hvac_mode := _hvac_mode t;
     _hvac_state := _hvac_state t; _hold_mode := _hold_mode t;
     _cool_setpoint := x; _heat_setpoint := _heat_setpoint t;
     _setpoint_reason := _setpoint_reason t;
     _current_temp := _current_temp t; _last_update := _last_update t;
     _connected := _connected t; _name := _name t; _max_temp := _max_temp t;
     _min_temp := _min_temp t; _schedule_mode := _schedule_mode t;
     _supported_modes := _supported_modes t;
     _away_details := _away_details t; _preset_mode := _preset_mode t;
     _t_location_id := _t_location_id t;
     _away_cool_setpoint := _away_cool_setpoint t;
     _away_heat_setpoint := _away_heat_setpoint t |}.

Definition upd_heat_setpoint (x : pyval)
    (t : TheSimpleThermostat) : TheSimpleThermostat :=
  {| _thermostat_id := _thermostat_id t; _fan_mode := _fan_mode t;
     _fan_state := _fan_state t; _hvac_mode := _hvac_mode t;
     _hvac_state := _hvac_state t; _hold_mode := _hold_mode t;
     _cool_setpoint := _cool_setpoint t; _heat_setpoint := x;
     _setpoint_reason := _setpoint_reason t;
     _current_temp := _current_temp t; _last_update := _last_update t;
     _connected := _connected t; _name := _name t; _max_temp := _max_temp t;
     _min_temp := _min_temp t; _schedule_mode := _schedule_mode t;
     _supported_modes := _supported_modes t;
     _away_details := _away_details t; _preset_mode := _preset_mode t;
     _t_location_id := _t_location_id t;
     _away_cool_setpoint := _away_cool_setpoint t;
     _away_heat_setpoint := _away_heat_setpoint t |}.

Definition upd_setpoint_reason (x : pyval)
    (t : TheSimpleThermostat) : TheSimpleThermostat :=
  {| _thermostat_id := _thermostat_id t; _fan_mode := _fan_mode t;
     _fan_state := _fan_state t; _hvac_mode := _hvac_mode t;
     _hvac_state := _hvac_state t; _hold_mode := _hold_mode t;
     _cool_setpoint := _cool_setpoint t; _heat_setpoint := _heat_setpoint t;
     _setpoint_reason := x; _current_temp := _current_temp t;
     _last_update := _last_update t; _connected := _connected t;
     _name := _name t; _max_temp := _max_temp t; _min_temp := _min_temp t;
     _schedule_mode := _schedule_mode t;
     _supported_modes := _supported_modes t;
     _away_details := _away_details t; _preset_mode := _preset_mode t;
     _t_location_id := _t_location_id t;
     _away_cool_setpoint := _away_cool_setpoint t;
     _away_heat_setpoint := _away_heat_setpoint t |}.

Definition upd_current_temp (x : pyval)
    (t : TheSimpleThermostat) : TheSimpleThermostat :=
  {| _thermostat_id := _thermostat_id t; _fan_mode := _fan_mode t;
     _fan_state := _fan_state t; _hvac_mode := _hvac_mode t;
     _hvac_state := _hvac_state t; _hold_mode := _hold_mode t;
     _cool_setpoint := _cool_setpoint t; _heat_setpoint := _heat_setpoint t;
     _setpoint_reason := _setpoint_reason t; _current_temp := x;
     _last_update := _last_update t; _connected := _connected t;
     _name := _name t; _max_temp := _max_temp t; _min_temp := _min_temp t;
     _schedule_mode := _schedule_mode t;
     _supported_modes := _supported_modes t;
     _away_details := _away_details t; _preset_mode := _preset_mode t;
     _t_location_id := _t_location_id t;
     _away_cool_setpoint := _away_cool_setpoint t;
     _away_heat_setpoint := _away_heat_setpoint t |}.

Definition upd_last_update (x : pyval)
    (t : TheSimpleThermostat) : TheSimpleThermostat :=
  {| _thermostat_id := _thermostat_id t; _fan_mode := _fan_mode t;
     _fan_state := _fan_state t; _hvac_mode := _hvac_mode t;
     _hvac_state := _hvac_state t; _hold_mode := _hold_mode t;
     _cool_setpoint := _cool_setpoint t; _heat_setpoint := _heat_setpoint t;
     _setpoint_reason := _setpoint_reason t;
     _current_temp := _current_temp t; _last_update := x;
     _connected := _connected t; _name := _name t; _max_temp := _max_temp t;
     _min_temp := _min_temp t; _schedule_mode := _schedule_mode t;
     _supported_modes := _supported_modes t;
     _away_details := _away_details t; _preset_mode := _preset_mode t;
     _t_location_id := _t_location_id t;
     _away_cool_setpoint := _away_cool_setpoint t;
     _away_heat_setpoint := _away_heat_setpoint t |}.

Definition upd_connected (x : pyval)
    (t : TheSimpleThermostat) : TheSimpleThermostat :=
  {| _thermostat_id := _thermostat_id t; _fan_mode := _fan_mode t;
     _fan_state := _fan_state t; _hvac_mode := _hvac_mode t;
     _hvac_state := _hvac_state t; _hold_mode := _hold_mode t;
     _cool_setpoint := _cool_setpoint t; _heat_setpoint := _heat_setpoint t;
     _setpoint_reason := _setpoint_reason t;
     _current_temp := _current_temp t; _last_update := _last_update t;
     _connected := x; _name := _name t; _max_temp := _max_temp t;
     _min_temp := _min_temp t; _schedule_mode := _schedule_mode t;
     _supported_modes := _supported_modes t;
     _away_details := _away_details t; _preset_mode := _preset_mode t;
     _t_location_id := _t_location_id t;
     _away_cool_setpoint := _away_cool_setpoint t;
     _away_heat_setpoint := _away_heat_setpoint t |}.

Definition upd_name (x : pyval)
    (t : TheSimpleThermostat) : TheSimpleThermostat :=
  {| _thermostat_id := _thermostat_id t; _fan_mode := _fan_mode t;
     _fan_state := _fan_state t; _hvac_mode := _hvac_mode t;
     _hvac_state := _hvac_state t; _hold_mode := _hold_mode t;
     _cool_setpoint := _cool_setpoint t; _heat_setpoint := _heat_setpoint t;
     _setpoint_reason := _setpoint_reason t;
     _current_temp := _current_temp t; _last_update := _last_update t;
     _connected := _connected t; _name := x; _max_temp := _max_temp t;
     _min_temp := _min_temp t; _schedule_mode := _schedule_mode t;
     _supported_modes := _supported_modes t;
     _away_details := _away_details t; _preset_mode := _preset_mode t;
     _t_location_id := _t_location_id t;
     _away_cool_setpoint := _away_cool_setpoint t;
     _away_heat_setpoint := _away_heat_setpoint t |}.

Definition upd_max_temp (x : Q)
    (t : TheSimpleThermostat) : TheSimpleThermostat :=
  {| _thermostat_id := _thermostat_id t; _fan_mode := _fan_mode t;
     _fan_state := _fan_state t; _hvac_mode := _hvac_mode t;
     _hvac_state := _hvac_state t; _hold_mode := _hold_mode t;
     _cool_setpoint := _cool_setpoint t; _heat_setpoint := _heat_setpoint t;
     _setpoint_reason := _setpoint_reason t;
     _current_temp := _current_temp t; _last_update := _last_update t;
     _connected := _connected t; _name := _name t; _max_temp := x;
     _min_temp := _min_temp t; _schedule_mode := _schedule_mode t;
     _supported_modes := _supported_modes t;
     _away_details := _away_details t; _preset_mode := _preset_mode t;
     _t_location_id := _t_location_id t;
     _away_cool_setpoint := _away_cool_setpoint t;
     _away_heat_setpoint := _away_heat_setpoint t |}.

Definition upd_min_temp (x : Q)
    (t : TheSimpleThermostat) : TheSimpleThermostat :=
  {| _thermostat_id := _thermostat_id t; _fan_mode := _fan_mode t;
     _fan_state := _fan_state t; _hvac_mode := _hvac_mode t;
     _hvac_state := _hvac_state t; _hold_mode := _hold_mode t;
     _cool_setpoint := _cool_setpoint t; _heat_setpoint := _heat_setpoint t;
     _setpoint_reason := _setpoint_reason t;
     _current_temp := _current_temp t; _last_update := _last_update t;
     _connected := _connected t; _name := _name t; _max_temp := _max_temp t;
     _min_temp := x; _schedule_mode := _schedule_mode t;
     _supported_modes := _supported_modes t;
     _away_details := _away_details t; _preset_mode := _preset_mode t;
     _t_location_id := _t_location_id t;
     _away_cool_setpoint := _away_cool_setpoint t;
     _away_heat_setpoint := _away_heat_setpoint t |}.

Definition upd_schedule_mode (x : pyval)
    (t : TheSimpleThermostat) : TheSimpleThermostat :=
  {| _thermostat_id := _thermostat_id t; _fan_mode := _fan_mode t;
     _fan_state := _fan_state t; _hvac_mode := _hvac_mode t;
     _hvac_state := _hvac_state t; _hold_mode := _hold_mode t;
     _cool_setpoint := _cool_setpoint t; _heat_setpoint := _heat_setpoint t;
     _setpoint_reason := _setpoint_reason t;
     _current_temp := _current_temp t; _last_update := _last_update t;
     _connected := _connected t; _name := _name t; _max_temp := _max_temp t;
     _min_temp := _min_temp t; _schedule_mode := x;
     _supported_modes := _supported_modes t;
     _away_details := _away_details t; _preset_mode := _preset_mode t;
     _t_location_id := _t_location_id t;
     _away_cool_setpoint := _away_cool_setpoint t;
     _away_heat_setpoint := _away_heat_setpoint t |}.

Definition upd_supported_modes (x : pyval)
    (t : TheSimpleThermostat) : TheSimpleThermostat :=
  {| _thermostat_id := _thermostat_id t; _fan_mode := _fan_mode t;
     _fan_state := _fan_state t; _hvac_mode := _hvac_mode t;
     _hvac_state := _hvac_state t; _hold_mode := _hold_mode t;
     _cool_setpoint := _cool_setpoint t; _heat_setpoint := _heat_setpoint t;
     _setpoint_reason := _setpoint_reason t;
     _current_temp := _current_temp t; _last_update := _last_update t;
     _connected := _connected t; _name := _name t; _max_temp := _max_temp t;
     _min_temp := _min_temp t; _schedule_mode := _schedule_mode t;
     _supported_modes := x; _away_details := _away_details t;
     _preset_mode := _preset_mode t; _t_location_id := _t_location_id t;
     _away_cool_setpoint := _away_cool_setpoint t;
     _away_heat_setpoint := _away_heat_setpoint t |}.

Definition upd_away_details (x : pyval)
    (t : TheSimpleThermostat) : TheSimpleThermostat :=
  {| _thermostat_id := _thermostat_id t; _fan_mode := _fan_mode t;
     _fan_state := _fan_state t; _hvac_mode := _hvac_mode t;
     _hvac_state := _hvac_state t; _hold_mode := _hold_mode t;
     _cool_setpoint := _cool_setpoint t; _heat_setpoint := _heat_setpoint t;
     _setpoint_reason := _setpoint_reason t;
     _current_temp := _current_temp t; _last_update := _last_update t;
     _connected := _connected t; _name := _name t; _max_temp := _max_temp t;
     _min_temp := _min_temp t; _schedule_mode := _schedule_mode t;
     _supported_modes := _supported_modes t; _away_details := x;
     _preset_mode := _preset_mode t; _t_location_id := _t_location_id t;
     _away_cool_setpoint := _away_cool_setpoint t;
     _away_heat_setpoint := _away_heat_setpoint t |}.

Definition upd_preset_mode (x : pyval)
    (t : TheSimpleThermostat) : TheSimpleThermostat :=
  {| _thermostat_id := _thermostat_id t; _fan_mode := _fan_mode t;
     _fan_state := _fan_state t; _hvac_mode := _hvac_mode t;
     _hvac_state := _hvac_state t; _hold_mode := _hold_mode t;
     _cool_setpoint := _cool_setpoint t; _heat_setpoint := _heat_setpoint t;
     _setpoint_reason := _setpoint_reason t;
     _current_temp := _current_temp t; _last_update := _last_update t;
     _connected := _connected t; _name := _name t; _max_temp := _max_temp t;
     _min_temp := _min_temp t; _schedule_mode := _schedule_mode t;
     _supported_modes := _supported_modes t;
     _away_details := _away_details t; _preset_mode := x;
     _t_location_id := _t_location_id t;
     _away_cool_setpoint := _away_cool_setpoint t;
     _away_heat_setpoint := _away_heat_setpoint t |}.

Definition upd_away_cool_setpoint (x : Q)
    (t : TheSimpleThermostat) : TheSimpleThermostat :=
  {| _thermostat_id := _thermostat_id t; _fan_mode := _fan_mode t;
     _fan_state := _fan_state t; _hvac_mode := _hvac_mode t;
     _hvac_state := _hvac_state t; _hold_mode := _hold_mode t;
     _cool_setpoint := _cool_setpoint t; _heat_setpoint := _heat_setpoint t;
     _setpoint_reason := _setpoint_reason t;
     _current_temp := _current_temp t; _last_update := _last_update t;
     _connected := _connected t; _name := _name t; _max_temp := _max_temp t;
     _min_temp := _min_temp t; _schedule_mode := _schedule_mode t;
     _supported_modes := _supported_modes t;
     _away_details := _away_details t; _preset_mode := _preset_mode t;
     _t_location_id := _t_location_id t; _away_cool_setpoint := x;
     _away_heat_setpoint := _away_heat_setpoint t |}.

Definition upd_away_heat_setpoint (x : Q)
    (t : TheSimpleThermostat) : TheSimpleThermostat :=
  {| _thermostat_id := _thermostat_id t; _fan_mode := _fan_mode t;
     _fan_state := _fan_state t; _hvac_mode := _hvac_mode t;
     _hvac_state := _hvac_state t; _hold_mode := _hold_mode t;
     _cool_setpoint := _cool_setpoint t; _heat_setpoint := _heat_setpoint t;
     _setpoint_reason := _setpoint_reason t;
     _current_temp := _current_temp t; _last_update := _last_update t;
     _connected := _connected t; _name := _name t; _max_temp := _max_temp t;
     _min_temp := _min_temp t; _schedule_mode := _schedule_mode t;
     _supported_modes := _supported_modes t;
     _away_details := _away_details t; _preset_mode := _preset_mode t;
     _t_location_id := _t_location_id t;
     _away_cool_setpoint := _away_cool_setpoint t;
     _away_heat_setpoint := x |}.
(** ** The world a method runs in *)

(** One client, one thermostat bound to it, the HTTP operations performed
    so far (oldest first), the answers the server will give to the next
    ones, the number of [requests.Session] objects made so far, the log
    and the clock. *)
Record World : Type := mkWorld {
  w_client : TheSimpleClient;
  w_thermostat : TheSimpleThermostat;
  w_requests : list Request;
  w_replies : list Response;
  w_sessions : nat;
  w_log : list LogRecord;
  w_time : Q
}.

Definition with_client (x : TheSimpleClient) (w : World) : World :=
  {| w_client := x; w_thermostat := w_thermostat w;
     w_requests := w_requests w; w_replies := w_replies w;
     w_sessions := w_sessions w; w_log := w_log w; w_time := w_time w |}.

Definition with_thermostat (x : TheSimpleThermostat) (w : World) : World :=
  {| w_client := w_client w; w_thermostat := x; w_requests := w_requests w;
     w_replies := w_replies w; w_sessions := w_sessions w; w_log := w_log w;
     w_time := w_time w |}.

Definition with_requests (x : list Request) (w : World) : World :=
  {| w_client := w_client w; w_thermostat := w_thermostat w; w_requests := x;
     w_replies := w_replies w; w_sessions := w_sessions w; w_log := w_log w;
     w_time := w_time w |}.

Definition with_replies (x : list Response) (w : World) : World :=
  {| w_client := w_client w; w_thermostat := w_thermostat w;
     w_requests := w_requests w; w_replies := x; w_sessions := w_sessions w;
     w_log := w_log w; w_time := w_time w |}.

Definition with_sessions (x : nat) (w : World) : World :=
  {| w_client := w_client w; w_thermostat := w_thermostat w;
     w_requests := w_requests w; w_replies := w_replies w; w_sessions := x;
     w_log := w_log w; w_time := w_time w |}.

Definition with_log (x : list LogRecord) (w : World) : World :=
  {| w_client := w_client w; w_thermostat := w_thermostat w;
     w_requests := w_requests w; w_replies := w_replies w;
     w_sessions := w_sessions w; w_log := x; w_time := w_time w |}.
Definition M (A : Type) : Type := World -> outcome A * World.

Definition ret {A : Type} (a : A) : M A := fun w => (Return a, w).

Definition raise {A : Type} (e : exn) : M A := fun w => (Raise e, w).

Definition bind {A B : Type} (m : M A) (k : A -> M B) : M B :=
  fun w =>
    match m w with
    | (Return a, w') => k a w'
    | (Raise e, w') => (Raise e, w')
    end.

Definition lift {A : Type} (o : outcome A) : M A := fun w => (o, w).

Declare Scope py_scope.
Delimit Scope py_scope with py.

Notation "x <- m ;; k" := (bind m (fun x => k))
  (at level 61, m at next level, right associativity) : py_scope.
Notation "m ;; k" := (bind m (fun _ => k))
  (at level 61, right associativity) : py_scope.

Local Open Scope py_scope.

Definition self_client : M TheSimpleClient := fun w => (Return (w_client w), w).

Definition self : M TheSimpleThermostat :=
  fun w => (Return (w_thermostat w), w).

(** [self.x = v] on the client and on the thermostat. *)
Definition assign_client (f : TheSimpleClient -> TheSimpleClient) : M unit :=
  fun w => (Return tt, with_client (f (w_client w)) w).

Definition assign (f : TheSimpleThermostat -> TheSimpleThermostat) : M unit :=
  fun w => (Return tt, with_thermostat (f (w_thermostat w)) w).

Definition emit (level msg : string) (args : list fstr) : M unit :=
  fun w => (Return tt, with_log (w_log w ++ [mkLogRecord level msg args]) w).

Definition _LOGGER_debug := emit "DEBUG".
Definition _LOGGER_warning := emit "WARNING".

(** [time.time()]. *)
Definition time_time : M Q := fun w => (Return (w_time w), w).

(** [requests.Session()]: a new object each time. *)
Definition requests_Session : M Session :=
  fun w => (Return (mkSession (w_sessions w) []),
            with_sessions (S (w_sessions w)) w).

(** [sess.get(url, json=.., headers=..)] and its siblings [patch], [put],
    [delete], [post]: the operation is recorded, and the next answer of the
    server is the response; when the server gives none, [requests] raises. *)
Definition session_send (sess : Session) (method : string) (url : fstr)
    (body : pyval) (headers : list (string * string)) : M Response :=
  fun w =>
    let rq := mkRequest method url (sess_headers sess ++ headers) body
                (sess_id sess) in
    let w' := with_requests (w_requests w ++ [rq]) w in
    match w_replies w with
    | [] => (Raise ConnectionError, w')
    | r :: rest => (Return r, with_replies rest w')
    end.

(** [r.json()]. *)
Definition r_json_of (r : Response) : outcome pyval :=
  match json r with
  | Some v => Return v
  | None => Raise JSONDecodeError
  end.

(** ** Constants *)

Definition HTTP_SUCCESS_START : Z := 200.
Definition HTTP_SUCCESS_END : Z := 299.
Definition HTTP_FORBIDDEN_START : Z := 401.
Definition HTTP_FORBIDDEN_END : Z := 401.

Definition MAX_TEMP_DEFAULT : Q := 89 # 1.
Definition MIN_TEMP_DEFAULT : Q := 50 # 1.

(** The constants imported from [homeassistant.components.climate]. *)
Definition FAN_AUTO : string := "auto".
Definition FAN_ON : string := "on".
Definition PRESET_AWAY : string := "away".
Definition PRESET_NONE : string := "none".
Definition HVACMode_COOL : string := "cool".
Definition HVACMode_HEAT : string := "heat".
Definition HVACMode_AUTO : string := "auto".
Definition HVACMode_OFF : string := "off".

(** The two packages that carry [thesimple.py]. *)
Inductive package : Type := simple | nvenergy.

Definition dquote : string := String (ascii_of_nat 34) EmptyString.

(** [round(x, 1)] on exact rationals: the nearest tenth, ties to even. *)
Definition py_round1 (x : Q) : Q :=
  let (n, d) := x in
  let n10 := 10 * n in
  let f := n10 / Zpos d in
  let r := n10 mod Zpos d in
  let up :=
    match 2 * r ?= Zpos d with
    | Lt => false
    | Gt => true
    | Eq => Z.odd f
    end in
  ((if up then f + 1 else f) # 10).

Definition status_is (lo hi : Z) (r : Response) : bool :=
  (lo <=? status_code r) && (status_code r <=? hi).

Section TheSimple.

(** Which of the two files is being read. *)
Variable pkg : package.

(** [float(s)] on a string, the parser of numeric literals of the
    interpreter; [None] when it raises [ValueError]. *)
Variable float_of_str : string -> option Q.

(** [float(v)]. *)
Definition py_float (v : pyval) : outcome Q :=
  match v with
  | PInt z => Return (inject_Z z)
  | PFloat q => Return q
  | PBool b => Return (if b then 1 # 1 else 0 # 1)
  | PStr s =>
      match float_of_str s with
      | Some q => Return q
      | None => Raise ValueError
      end
  | _ => Raise TypeError
  end.

(** *** class TheSimpleClient *)

Definition get_location_id : M pyval :=
  c <- self_client ;;
  ret (_location_id c).

(** The property [httpSess]: the session is made on first use. *)
Definition httpSess : M Session :=
  c <- self_client ;;
  match _http_sess c with
  | None =>
      s <- requests_Session ;;
      let s' :=
        mkSession (sess_id s)
          (sess_headers s ++ [("X-Requested-With", "XMLHttpRequest")]) in
      assign_client (upd_http_sess (Some s')) ;;
      ret s'
  | Some s => ret s
  end.

Definition buildResponse (username password realm nonce : string) : string :=
  let pwhash := sha1_hexdigest password in
  let step2 := sha1_hexdigest (username ++ ":" ++ realm ++ ":" ++ pwhash) in
  sha1_hexdigest (step2 ++ ":" ++ nonce).

Definition clearToken : M unit :=
  assign_client (upd_token (PStr EmptyString)) ;;
  assign_client (upd_refreshToken (PStr EmptyString)) ;;
  assign_client (upd_http_sess None).

Definition error_msg (what : string) (r : Response) : fstr :=
  [Lit (what ++ " (code: "); Fmt (PInt (status_code r));
   Lit ") (response: "; Fmt (PStr (text r)); Lit ")"].

Definition getToken : M unit :=
  _LOGGER_debug "getToken" [] ;;
  clearToken ;;
  c <- self_client ;;
  let authstr :=
    "DigestE username=" ++ dquote ++ _username c ++ dquote ++ ", "
    ++ "realm=" ++ dquote ++ "Consumer" ++ dquote
    ++ ", nonce=" ++ dquote ++ ai_nonce (_authinfo c) ++ dquote ++ ", "
    ++ "response=" ++ dquote ++ ai_response (_authinfo c) ++ dquote ++ ", "
    ++ "opaque=" ++ dquote ++ ai_opaque (_authinfo c) ++ dquote in
  let url := [Lit (_base_url c ++ "authenticate")] in
  sess <- httpSess ;;
  r <- session_send sess "POST" url
         (PDict [("username", PStr (_username c));
                 ("password", PStr (ai_encryptedpass (_authinfo c)))])
         [("Authorization", authstr)] ;;
  _LOGGER_debug "response code: %s, response text: %s"
    [[Fmt (PInt (status_code r))]; [Fmt (PStr (text r))]] ;;
  if status_is HTTP_SUCCESS_START HTTP_SUCCESS_END r then
    r_json <- lift (r_json_of r) ;;
    v <- lift (py_getitem r_json "access_token") ;;
    assign_client (upd_token v) ;;
    v <- lift (py_getitem r_json "user_id") ;;
    assign_client (upd_userid v) ;;
    v <- lift (py_getitem r_json "refresh_token") ;;
    assign_client (upd_refreshToken v)
  else if status_is HTTP_FORBIDDEN_START HTTP_FORBIDDEN_END r then
    raise (AuthError (error_msg "Authentication Error" r))
  else
    raise (APIError (error_msg "Invalid HTTP response" r)).

Definition http_request (method : string) (req_url : fstr)
    (json_req_body : pyval) (authenticated : bool) : M Response :=
  _LOGGER_debug
    "HTTP request (method: %s, url: %s, json: %s, authenticated: %s)"
    [[Fmt (PStr method)]; req_url; [Fmt json_req_body];
     [Fmt (PBool authenticated)]] ;;
  c <- self_client ;;
  no_token <- (if authenticated
               then n <- lift (py_len (_token c)) ;; ret (Nat.eqb n 0)
               else ret false) ;;
  if (no_token : bool) then
    raise (AuthError [Lit "No token, authentication required"])
  else
    let url := Lit (_base_url c) :: req_url in
    reqheaders <- (if authenticated
                   then s <- lift (py_str_add "Bearer " (_token c)) ;;
                        ret [("Authorization", s)]
                   else ret []) ;;
    r <- (if String.eqb method "GET" then
            sess <- httpSess ;;
            session_send sess "GET" url json_req_body reqheaders
          else if String.eqb method "PATCH" then
            sess <- httpSess ;;
            session_send sess "PATCH" url json_req_body reqheaders
          else if String.eqb method "PUT" then
            sess <- httpSess ;;
            session_send sess "PUT" url json_req_body reqheaders
          else if String.eqb method "DELETE" then
            sess <- httpSess ;;
            session_send sess "DELETE" url json_req_body reqheaders
          else
            match pkg with
            | simple =>
                raise (APIError [Lit "Unsupported HTTP method: ";
                                 Fmt (PStr method)])
            | nvenergy =>
                (* no [else]: [r] is read while unbound *)
                raise (UnboundLocalError "r")
            end) ;;
    _LOGGER_debug "HTTP Response (status code: %s, response: %s)"
      [[Fmt (PInt (status_code r))]; [Fmt (PStr (text r))]] ;;
    if status_is HTTP_SUCCESS_START HTTP_SUCCESS_END r then
      ret r
    else if status_is HTTP_FORBIDDEN_START HTTP_FORBIDDEN_END r then
      clearToken ;;
      raise (APIError (error_msg "HTTP response forbidden" r))
    else
      raise (APIError (error_msg "Invalid HTTP response" r)).

(** *** class TheSimpleThermostat *)

(** The read-only properties.  Each is a function of the object. *)
Definition connected (t : TheSimpleThermostat) : pyval := _connected t.
Definition cool_setpoint (t : TheSimpleThermostat) : pyval := _cool_setpoint t.
Definition current_temp (t : TheSimpleThermostat) : pyval := _current_temp t.
Definition preset_mode (t : TheSimpleThermostat) : pyval := _preset_mode t.
Definition fan_mode (t : TheSimpleThermostat) : pyval := _fan_mode t.
Definition heat_setpoint (t : TheSimpleThermostat) : pyval := _heat_setpoint t.
Definition hvacMode (t : TheSimpleThermostat) : pyval := _hvac_mode t.
Definition hvacState (t : TheSimpleThermostat) : pyval := _hvac_state t.
Definition location_id (t : TheSimpleThermostat) : pyval := _t_location_id t.
Definition last_update (t : TheSimpleThermostat) : pyval := _last_update t.
Definition maxTemp (t : TheSimpleThermostat) : Q := _max_temp t.
Definition minTemp (t : TheSimpleThermostat) : Q := _min_temp t.
Definition name (t : TheSimpleThermostat) : pyval := _name t.
Definition setpoint_reason (t : TheSimpleThermostat) : pyval :=
  _setpoint_reason t.
Definition supportedModes (t : TheSimpleThermostat) : pyval :=
  _supported_modes t.
Definition thermostat_id (t : TheSimpleThermostat) : pyval := _thermostat_id t.

(** The property [fan_state] is [return self.fan_state]: it reads itself,
    not [self._fan_state].  [frames] is the number of stack frames the
    interpreter still grants (its recursion limit); each read takes one. *)
Fixpoint fan_state (frames : nat) (t : TheSimpleThermostat) : outcome pyval :=
  match frames with
  | O => Raise RecursionError
  | S frames' => fan_state frames' t
  end.

Definition state_url (t : TheSimpleThermostat) : fstr :=
  [Lit "thermostat/"; Fmt (_thermostat_id t); Lit "/state"].

Definition get_metadata : M unit :=
  t <- self ;;
  let url := [Lit "thermostat/"; Fmt (_thermostat_id t)] in
  r <- http_request "GET" url PNone true ;;
  r_json <- lift (r_json_of r) ;;
  _LOGGER_debug "get_metadata: Received JSON response: %s" [[Fmt r_json]] ;;
  v <- lift (py_getitem r_json "name") ;;
  assign (upd_name v) ;;
  v <- lift (py_getitem r_json "schedule_mode") ;;
  assign (upd_schedule_mode v) ;;
  m <- lift (py_getitem r_json "model") ;;
  v <- lift (py_getitem m "min_temperature") ;;
  x <- lift (py_float v) ;;
  assign (upd_min_temp x) ;;
  m <- lift (py_getitem r_json "model") ;;
  v <- lift (py_getitem m "max_temperature") ;;
  x <- lift (py_float v) ;;
  assign (upd_max_temp x) ;;
  v <- lift (py_getitem r_json "hvac_control") ;;
  assign (upd_supported_modes v).

Definition get_away_settings : M unit :=
  t <- self ;;
  let url := [Lit "location/"; Fmt (_t_location_id t); Lit "/away_settings"] in
  r <- http_request "GET" url PNone true ;;
  r_json <- lift (r_json_of r) ;;
  v <- lift (py_getitem r_json "cool_setpoint") ;;
  x <- lift (py_float v) ;;
  assign (upd_away_cool_setpoint x) ;;
  v <- lift (py_getitem r_json "heat_setpoint") ;;
  x <- lift (py_float v) ;;
  assign (upd_away_heat_setpoint x).

Definition set_fan_mode (fan_mode : string) : M unit :=
  set_fan_mode <-
    (if String.eqb fan_mode FAN_ON then ret "on"
     else if String.eqb fan_mode FAN_AUTO then ret "auto"
     else raise (TheSimpleError [Lit "Invalid fan mode: ";
                                 Fmt (PStr fan_mode)])) ;;
  t <- self ;;
  let url := state_url t in
  let json_req := PDict [("fan_mode", PStr set_fan_mode)] in
  http_request "PATCH" url json_req true ;;
  assign (upd_fan_mode (PStr fan_mode)).

Definition set_mode (mode : string) : M unit :=
  set_mode <-
    (if String.eqb mode HVACMode_COOL then ret "cool"
     else if String.eqb mode HVACMode_HEAT then ret "heat"
     else if match pkg with
             | simple => String.eqb mode HVACMode_AUTO
             | nvenergy => false (* no [elif] for AUTO in this file *)
             end then ret "auto"
     else if String.eqb mode HVACMode_OFF then ret "off"
     else raise (TheSimpleError [Lit "Invalid HVAC mode: ";
                                 Fmt (PStr mode)])) ;;
  t <- self ;;
  let url := state_url t in
  let json_req := PDict [("hvac_mode", PStr set_mode)] in
  http_request "PATCH" url json_req true ;;
  ret tt.

Definition set_temp (temp : Q) : M unit :=
  t <- self ;;
  if Qltb temp (_min_temp t) || Qltb (_max_temp t) temp then
    ret tt
  else
    let url := state_url t in
    (* what follows the [if]/[elif] chain, for the branches that reach it *)
    let after (json_req : list (string * pyval)) : M unit :=
      http_request "PATCH" url (PDict json_req) true ;;
      t' <- self ;;
      if py_eq_str (hvacMode t') HVACMode_COOL then
        assign (upd_cool_setpoint (PInt (py_int temp)))
      else if py_eq_str (hvacMode t') HVACMode_HEAT then
        assign (upd_heat_setpoint (PInt (py_int temp)))
      else
        ret tt in
    if py_eq_str (hvacMode t) HVACMode_COOL then
      assign (upd_cool_setpoint (PInt (py_int temp))) ;;
      after [("cool_setpoint", PInt (py_int temp))]
    else if py_eq_str (hvacMode t) HVACMode_HEAT then
      assign (upd_heat_setpoint (PInt (py_int temp))) ;;
      after [("heat_setpoint", PInt (py_int temp))]
    else if py_eq_str (hvacMode t) HVACMode_OFF then
      ret tt
    else
      raise (TheSimpleError
               [Lit "set_temp: Unable to determine current HVAC Mode: ";
                Fmt (hvacMode t)]).

Definition set_preset_mode (preset : string) : M unit :=
  if negb (String.eqb preset PRESET_AWAY || String.eqb preset PRESET_NONE)
  then
    raise (TheSimpleError [Lit "Invalid HVAC mode: "; Fmt (PStr preset)])
  else
    t <- self ;;
    if py_eq_str (_hvac_mode t) "off" then
      _LOGGER_warning
        "Cannot set preset mode to %s because thermostat is off"
        [[Fmt (PStr preset)]] ;;
      assign (upd_preset_mode (PStr PRESET_NONE))
    else
      get_away_settings ;;
      t <- self ;;
      let url := [Lit "thermostat/"; Fmt (_thermostat_id t); Lit "/away"] in
      if String.eqb preset PRESET_AWAY then
        let json_req :=
          PDict [("cool_setpoint", PFloat (_away_cool_setpoint t));
                 ("heat_setpoint", PFloat (_away_heat_setpoint t));
                 ("end_ts", PStr "2050-12-31T00:00:00+00:00")] in
        http_request "PUT" url json_req true ;;
        assign (upd_preset_mode (PStr PRESET_AWAY))
      else if String.eqb preset PRESET_NONE then
        http_request "DELETE" url PNone true ;;
        assign (upd_preset_mode (PStr PRESET_NONE))
      else
        ret tt.

Definition thermostat_info : string :=
  "best_known_current_state_thermostat_data".

Definition refresh : M unit :=
  t <- self ;;
  let url := state_url t in
  r <- http_request "GET" url PNone true ;;
  r_json <- lift (r_json_of r) ;;
  _LOGGER_debug "refresh: Received JSON response: %s" [[Fmt r_json]] ;;
  v <- lift (py_getitem r_json "connected") ;;
  assign (upd_connected v) ;;
  v <- lift (py_getitem r_json "setpoint_reason") ;;
  assign (upd_setpoint_reason v) ;;
  d <- lift (py_getitem r_json thermostat_info) ;;
  v <- lift (py_getitem d "temperature") ;;
  x <- lift (py_float v) ;;
  assign (upd_current_temp (PFloat (py_round1 x))) ;;
  d <- lift (py_getitem r_json thermostat_info) ;;
  v <- lift (py_getitem d "hold_mode") ;;
  assign (upd_hold_mode v) ;;
  d <- lift (py_getitem r_json thermostat_info) ;;
  v <- lift (py_getitem d "fan_mode") ;;
  assign (upd_fan_mode v) ;;
  d <- lift (py_getitem r_json thermostat_info) ;;
  v <- lift (py_getitem d "fan_state") ;;
  assign (upd_fan_state v) ;;
  d <- lift (py_getitem r_json thermostat_info) ;;
  v <- lift (py_getitem d "hvac_mode") ;;
  assign (upd_hvac_mode v) ;;
  d <- lift (py_getitem r_json thermostat_info) ;;
  v <- lift (py_getitem d "hvac_state") ;;
  assign (upd_hvac_state v) ;;
  d <- lift (py_getitem r_json thermostat_info) ;;
  v <- lift (py_getitem d "cool_setpoint") ;;
  assign (upd_cool_setpoint v) ;;
  d <- lift (py_getitem r_json thermostat_info) ;;
  v <- lift (py_getitem d "heat_setpoint") ;;
  assign (upd_heat_setpoint v) ;;
  now <- time_time ;;
  assign (upd_last_update (PFloat now)) ;;
  a <- lift (py_getitem r_json "away_details") ;;
  has_end <- lift (py_contains "end_ts" a) ;;
  if (has_end : bool) then
    a <- lift (py_getitem r_json "away_details") ;;
    v <- lift (py_getitem a "end_ts") ;;
    assign (upd_away_details v) ;;
    assign (upd_preset_mode (PStr PRESET_AWAY))
  else
    assign (upd_away_details PNone) ;;
    assign (upd_preset_mode (PStr PRESET_NONE)).

(** [TheSimpleThermostat.__init__], reached through
    [TheSimpleClient.createThermostat]. *)
Definition createThermostat (thermostat_id : pyval) : M unit :=
  loc <- get_location_id ;;
  (fun w =>
     (Return tt,
      with_thermostat
        {| _thermostat_id := thermostat_id; _fan_mode := PNone;
           _fan_state := PNone; _hvac_mode := PNone; _hvac_state := PNone;
           _hold_mode := PNone; _cool_setpoint := PNone;
           _heat_setpoint := PNone; _setpoint_reason := PNone;
           _current_temp := PNone; _last_update := PNone;
           _connected := PNone; _name := PNone;
           _max_temp := MAX_TEMP_DEFAULT; _min_temp := MIN_TEMP_DEFAULT;
           _schedule_mode := PNone; _supported_modes := PList [];
           _away_details := PNone; _preset_mode := PNone;
           _t_location_id := loc;
           _away_cool_setpoint := MAX_TEMP_DEFAULT;
           _away_heat_setpoint := MIN_TEMP_DEFAULT |} w)) ;;
  get_metadata ;;
  refresh.

End TheSimple.

(** ** More setters of the client *)

Definition upd_authinfo (x : AuthInfo)
    (c : TheSimpleClient) : TheSimpleClient :=
  {| _base_url := _base_url c; _token := _token c; _authinfo := x;
     _username := _username c; _http_sess := _http_sess c;
     _userid := _userid c; _location_id := _location_id c;
     _refreshToken := _refreshToken c; _realm := _realm c;
     _nonce := _nonce c; _opaque := _opaque c |}.

Definition upd_username (x : string) (c : TheSimpleClient) : TheSimpleClient :=
  {| _base_url := _base_url c; _token := _token c; _authinfo := _authinfo c;
     _username := x; _http_sess := _http_sess c; _userid := _userid c;
     _location_id := _location_id c; _refreshToken := _refreshToken c;
     _realm := _realm c; _nonce := _nonce c; _opaque := _opaque c |}.

Definition upd_realm (x : string) (c : TheSimpleClient) : TheSimpleClient :=
  {| _base_url := _base_url c; _token := _token c; _authinfo := _authinfo c;
     _username := _username c; _http_sess := _http_sess c;
     _userid := _userid c; _location_id := _location_id c;
     _refreshToken := _refreshToken c; _realm := x; _nonce := _nonce c;
     _opaque := _opaque c |}.

Definition upd_nonce (x : string) (c : TheSimpleClient) : TheSimpleClient :=
  {| _base_url := _base_url c; _token := _token c; _authinfo := _authinfo c;
     _username := _username c; _http_sess := _http_sess c;
     _userid := _userid c; _location_id := _location_id c;
     _refreshToken := _refreshToken c; _realm := _realm c; _nonce := x;
     _opaque := _opaque c |}.

Definition upd_opaque (x : string) (c : TheSimpleClient) : TheSimpleClient :=
  {| _base_url := _base_url c; _token := _token c; _authinfo := _authinfo c;
     _username := _username c; _http_sess := _http_sess c;
     _userid := _userid c; _location_id := _location_id c;
     _refreshToken := _refreshToken c; _realm := _realm c;
     _nonce := _nonce c; _opaque := x |}.

(** ** More of class TheSimpleClient *)

Definition authwithdetails (user encpass nonce resp opaque : string)
  : M unit :=
  assign_client (fun c =>
    upd_authinfo (mkAuthInfo nonce (ai_response (_authinfo c))
                    (ai_opaque (_authinfo c))
                    (ai_encryptedpass (_authinfo c))) c) ;;
  assign_client (fun c =>
    upd_authinfo (mkAuthInfo (ai_nonce (_authinfo c)) resp
                    (ai_opaque (_authinfo c))
                    (ai_encryptedpass (_authinfo c))) c) ;;
  assign_client (fun c =>
    upd_authinfo (mkAuthInfo (ai_nonce (_authinfo c))
                    (ai_response (_authinfo c)) opaque
                    (ai_encryptedpass (_authinfo c))) c) ;;
  assign_client (fun c =>
    upd_authinfo (mkAuthInfo (ai_nonce (_authinfo c))
                    (ai_response (_authinfo c))
                    (ai_opaque (_authinfo c)) encpass) c) ;;
  assign_client (upd_username user) ;;
  getToken.

(** ** The entity of [climate.py] *)

(** The exceptions of the two [climate.py] files, and the exceptions of
    [thesimple.py] that pass through them. *)
Inductive climate_exn : Type :=
| SimpleThermostatError (msg : string)
| NVEThermostatError (msg : string)
| Passed (e : exn).

Inductive climate_outcome : Type :=
| Done
| Failed (e : climate_exn).

(** How one pass of the retry loop ends: [break] with the value of
    [success], or on to [retries -= 1]. *)
Inductive loop_step : Type :=
| Break (success : bool)
| Next.

Definition _LOGGER_error := emit "ERROR".

Section Climate.

Variable pkg : package.
Variable float_of_str : string -> option Q.

(** [str(ex)]. *)
Variable str : exn -> fstr.

(** One pass of the [while] loop of [SimpleThermostat.async_update], up to
    [retries -= 1].  The clauses are tried in the order written; what
    [getToken] raises inside the first handler, other than [AuthError],
    leaves the method. *)
Definition simple_pass : M loop_step :=
  fun w =>
    match refresh pkg float_of_str w with
    | (Return _, w1) =>
        (_LOGGER_debug "Thermostat data successfully refreshed" [] ;;
         ret (Break true)) w1
    | (Raise ex, w1) =>
        if isinstance_AuthError ex then
          (_LOGGER_warning "Authentication error during refresh: %s"
             [str ex] ;;
           _LOGGER_debug "Attempting to refresh token" [] ;;
           (fun w2 =>
              match getToken w2 with
              | (Return _, w3) => (Return Next, w3)
              | (Raise token_ex, w3) =>
                  if isinstance_AuthError token_ex then
                    (_LOGGER_error
                       "Failed to refresh authentication token: %s"
                       [str token_ex] ;;
                     ret (Break false)) w3
                  else (Raise token_ex, w3)
              end)) w1
        else if isinstance_APIError ex then
          (_LOGGER_warning "API error during refresh: %s" [str ex] ;;
           ret Next) w1
        else if isinstance_TheSimpleError ex then
          (_LOGGER_error "TheSimple error: %s" [str ex] ;;
           ret (Break false)) w1
        else
          (_LOGGER_error "Unexpected exception during refresh: %s"
             [str ex] ;;
           ret (Break false)) w1
    end.

(** One pass of the loop of [NVEThermostat.async_update]: every exception
    of [refresh] is answered by [getToken], whose own exceptions leave the
    method. *)
Definition nve_pass : M loop_step :=
  fun w =>
    match refresh pkg float_of_str w with
    | (Return _, w1) => (Return (Break true), w1)
    | (Raise ex, w1) =>
        (_LOGGER_warning "Refresh exception: %s" [str ex] ;;
         _LOGGER_debug "Attempting refresh token" [] ;;
         getToken ;;
         ret Next) w1
    end.

(** [while retries > 0: ...], returning [success]. *)
Fixpoint update_loop (retries : nat) : M bool :=
  match retries with
  | O => ret false
  | S retries' =>
      step <- match pkg with
              | simple => simple_pass
              | nvenergy => nve_pass
              end ;;
      match step with
      | Break success => ret success
      | Next =>
          match pkg with
          | simple =>
              _LOGGER_debug "Retrying... (%d attempts left)"
                [[Fmt (PInt (Z.of_nat retries'))]]
          | nvenergy => ret tt
          end ;;
          update_loop retries'
      end
  end.

(** [async_update] of the entity.  The calls handed to the executor are
    awaited one after the other; nothing else is taken to touch the client
    or the thermostat in between. *)
Definition async_update (w : World) : climate_outcome * World :=
  match (_LOGGER_debug "Refreshing thermostat" [] ;; update_loop 3) w with
  | (Return true, w') => (Done, w')
  | (Return false, w') =>
      (Failed (match pkg with
               | simple =>
                   SimpleThermostatError "Refresh failed after three attempts."
               | nvenergy =>
                   NVEThermostatError "Refresh failed after three attempts."
               end), w')
  | (Raise e, w') => (Failed (Passed e), w')
  end.

End Climate.

(** ** [getNonce] and its pattern *)

(** The pattern of [getNonce] is
    [DigestE realm="(\w+)", nonce="(\w+)", opaque="(\w+)"], applied with
    [match]: anchored at the start, free at the end.  A [string] holds the
    UTF-8 bytes of the Python string, so [\w] is decided code point by code
    point. *)

Definition byte_of (a : ascii) : Z := Z.of_nat (nat_of_ascii a).

(** [0-9A-Za-z_]. *)
Definition ascii_word (b : Z) : bool :=
  ((48 <=? b) && (b <=? 57)) || ((65 <=? b) && (b <=? 90))
  || ((97 <=? b) && (b <=? 122)) || (b =? 95).

(** The code point at the head of a string and the number of bytes it
    takes; [None] at the end of the string and on bytes that start no
    character. *)
Definition code_point (s : string) : option (Z * nat) :=
  match s with
  | EmptyString => None
  | String a0 s0 =>
      let b0 := byte_of a0 in
      if b0 <? 128 then Some (b0, 1%nat)
      else if b0 <? 192 then None
      else if b0 <? 224 then
        match s0 with
        | String a1 _ => Some ((b0 - 192) * 64 + (byte_of a1 - 128), 2%nat)
        | _ => None
        end
      else if b0 <? 240 then
        match s0 with
        | String a1 (String a2 _) =>
            Some (((b0 - 224) * 64 + (byte_of a1 - 128)) * 64
                  + (byte_of a2 - 128), 3%nat)
        | _ => None
        end
      else if b0 <? 248 then
        match s0 with
        | String a1 (String a2 (String a3 _)) =>
            Some ((((b0 - 240) * 64 + (byte_of a1 - 128)) * 64
                   + (byte_of a2 - 128)) * 64 + (byte_of a3 - 128), 4%nat)
        | _ => None
        end
      else None
  end.

Fixpoint drop (n : nat) (s : string) : string :=
  match n, s with
  | S n', String _ s' => drop n' s'
  | _, _ => s
  end.

Fixpoint take (n : nat) (s : string) : string :=
  match n, s with
  | S n', String a s' => String a (take n' s')
  | _, _ => EmptyString
  end.

(** A literal piece of the pattern: what follows it in [s]. *)
Definition literal (lit s : string) : option string :=
  if prefix lit s then Some (drop (String.length lit) s) else None.

Definition lit_realm : string := "DigestE realm=" ++ dquote.
Definition lit_nonce : string := dquote ++ ", nonce=" ++ dquote.
Definition lit_opaque : string := dquote ++ ", opaque=" ++ dquote.

Section Nonce.

Variable pkg : package.

(** [str.isalnum] on the code points from 128 on, which is what [\w]
    consults there. *)
Variable unicode_alnum : Z -> bool.

Definition word_char (cp : Z) : bool :=
  if cp <? 128 then ascii_word cp else unicode_alnum cp.

(** The number of bytes of the longest run of word characters at the head
    of [s]. *)
Fixpoint word_run (fuel : nat) (s : string) : nat :=
  match fuel with
  | O => O
  | S fuel' =>
      match code_point s with
      | Some (cp, n) =>
          if word_char cp then (n + word_run fuel' (drop n s))%nat else O
      | None => O
      end
  end.

(** A group [(\w+)] followed by a quote.  The group is greedy, and giving
    characters back cannot help it, the quote being no word character: the
    longest run is the only candidate. *)
Definition group (s : string) : option (string * string) :=
  let n := word_run (String.length s) s in
  if Nat.eqb n 0 then None else Some (take n s, drop n s).

(** [p.match(www_auth)], as the three groups. *)
Definition match_challenge (www_auth : string)
  : option (string * string * string) :=
  match literal lit_realm www_auth with
  | None => None
  | Some s1 =>
      match group s1 with
      | None => None
      | Some (g1, s2) =>
          match literal lit_nonce s2 with
          | None => None
          | Some s3 =>
              match group s3 with
              | None => None
              | Some (g2, s4) =>
                  match literal lit_opaque s4 with
                  | None => None
                  | Some s5 =>
                      match group s5 with
                      | None => None
                      | Some (g3, s6) =>
                          match literal dquote s6 with
                          | None => None
                          | Some _ => Some (g1, g2, g3)
                          end
                      end
                  end
              end
          end
      end
  end.

Definition getNonce : M unit :=
  let url := [Lit "authenticate/nonce"] in
  r <- http_request pkg "GET" url PNone false ;;
  r_json <- lift (r_json_of r) ;;
  www_auth <- lift (py_getitem r_json "WWW-Authenticate") ;;
  m <- lift (match www_auth with
             | PStr s => Return (match_challenge s)
             | _ => Raise TypeError
             end) ;;
  match m with
  | Some (g1, g2, g3) =>
      assign_client (upd_realm g1) ;;
      assign_client (upd_nonce g2) ;;
      assign_client (upd_opaque g3)
  | None =>
      raise (TheSimpleError [Lit "Unable to parse nonce response: ";
                             Fmt www_auth])
  end.

End Nonce.

(** ** Concrete objects used to run the methods *)

Definition demo_session : Session :=
  mkSession 0 [("X-Requested-With", "XMLHttpRequest")].

Definition demo_client : TheSimpleClient :=
  {| _base_url := "https://nve.ecofactor.com/ws/v1.0/";
     _token := PStr "tok-1";
     _authinfo := mkAuthInfo "abc123" "2087402ed6500bee7d3ee59ae1e63f4753f09055"
                    "xyz789" "cGFzcw==";
     _username := "alice";
     _http_sess := Some demo_session;
     _userid := PStr "u-1";
     _location_id := PStr "locA";
     _refreshToken := PStr "ref-1";
     _realm := "Consumer";
     _nonce := "abc123";
     _opaque := "xyz789" |}.

(** A thermostat in Cool mode holding 72/68, as a refresh would leave it. *)
Definition demo_thermostat : TheSimpleThermostat :=
  {| _thermostat_id := PStr "t1"; _fan_mode := PStr "auto";
     _fan_state := PStr "off"; _hvac_mode := PStr "cool";
     _hvac_state := PStr "off"; _hold_mode := PStr "off";
     _cool_setpoint := PInt 72; _heat_setpoint := PInt 68;
     _setpoint_reason := PStr "schedule"; _current_temp := PFloat (713 # 10);
     _last_update := PFloat (1000 # 1); _connected := PBool false;
     _name := PStr "Hall"; _max_temp := 89 # 1; _min_temp := 50 # 1;
     _schedule_mode := PStr "on";
     _supported_modes := PList [PStr "COOL"; PStr "HEAT"];
     _away_details := PNone; _preset_mode := PStr "none";
     _t_location_id := PStr "locA";
     _away_cool_setpoint := 89 # 1; _away_heat_setpoint := 50 # 1 |}.

Definition demo_world (replies : list Response) : World :=
  {| w_client := demo_client; w_thermostat := demo_thermostat;
     w_requests := []; w_replies := replies; w_sessions := 1;
     w_log := []; w_time := 2000 # 1 |}.

(** No string is a number: the strictest [float]. *)
Definition no_float_of_str (_ : string) : option Q := None.

Definition reply (code : Z) (body : string) (payload : option pyval)
  : Response :=
  mkResponse code body payload.

(** ** Notions the statements below are written in *)

(** [m] leaves the part [proj] of the world as it found it, whether it
    returns or raises. *)
Definition preserves {X A : Type} (proj : World -> X) (m : M A) : Prop :=
  forall w, proj (snd (m w)) = proj w.

(** The thermostat switched off while its preset reads Away. *)
Definition off_thermostat : TheSimpleThermostat :=
  upd_preset_mode (PStr "away") (upd_hvac_mode (PStr "off") demo_thermostat).

(** Server answers used in the runs below. *)
Definition ok_reply : Response := reply 200 "{}" (Some (PDict [])).

(** The methods [http_request] knows how to send. *)
Definition supported_method (method : string) : Prop :=
  method = "GET" \/ method = "PATCH" \/ method = "PUT" \/ method = "DELETE".

(** The access token is a non-empty string. *)
Definition holds_token (c : TheSimpleClient) : Prop :=
  exists a s, _token c = PStr (String a s).

Definition reply_401 : Response := reply 401 "denied" None.

(** The session [httpSess] makes when the client holds none. *)
Definition fresh_session (w : World) : Session :=
  mkSession (w_sessions w) [("X-Requested-With", "XMLHttpRequest")].

(** The exceptions of the language are not those of this library. *)
Definition builtin_exn (e : exn) : Prop :=
  isinstance_AuthError e = false /\ isinstance_APIError e = false.

(** Sequencing of two reads, the first exception winning. *)
Definition then_ {A B : Type} (o : outcome A) (k : A -> outcome B)
  : outcome B :=
  match o with
  | Return a => k a
  | Raise e => Raise e
  end.

(** One assignment of [refresh]: where its value is read in the decoded
    response, and the attribute that receives it. *)
Record field_step : Type := mkStep {
  extract : pyval -> outcome pyval;
  store : pyval -> TheSimpleThermostat -> TheSimpleThermostat
}.

(** [r_json[thermostat_info][k]]. *)
Definition nested (k : string) (r_json : pyval) : outcome pyval :=
  then_ (py_getitem r_json thermostat_info) (fun d => py_getitem d k).

(** [r_json["away_details"]["end_ts"]] when [end_ts] is there, else [None]. *)
Definition away_end (r_json : pyval) : outcome pyval :=
  then_ (py_getitem r_json "away_details") (fun a =>
  then_ (py_contains "end_ts" a) (fun has_end =>
  if (has_end : bool) then py_getitem a "end_ts" else Return PNone)).

(** Away when [end_ts] is there, else None. *)
Definition away_preset (r_json : pyval) : outcome pyval :=
  then_ (py_getitem r_json "away_details") (fun a =>
  then_ (py_contains "end_ts" a) (fun has_end =>
  Return (PStr (if (has_end : bool) then PRESET_AWAY else PRESET_NONE)))).

(** The live-state fields in the order [refresh] assigns them. *)
Definition live_state (float_of_str : string -> option Q) (now : Q)
  : list field_step :=
  [ mkStep (fun j => py_getitem j "connected") upd_connected;
    mkStep (fun j => py_getitem j "setpoint_reason") upd_setpoint_reason;
    mkStep (fun j => then_ (nested "temperature" j) (fun v =>
                     then_ (py_float float_of_str v) (fun x =>
                     Return (PFloat (py_round1 x)))))
           upd_current_temp;
    mkStep (nested "hold_mode") upd_hold_mode;
    mkStep (nested "fan_mode") upd_fan_mode;
    mkStep (nested "fan_state") upd_fan_state;
    mkStep (nested "hvac_mode") upd_hvac_mode;
    mkStep (nested "hvac_state") upd_hvac_state;
    mkStep (nested "cool_setpoint") upd_cool_setpoint;
    mkStep (nested "heat_setpoint") upd_heat_setpoint;
    mkStep (fun _ => Return (PFloat now)) upd_last_update;
    mkStep away_end upd_away_details;
    mkStep away_preset upd_preset_mode ].

(** Assign field after field; stop at the first whose value cannot be
    read, keeping what was assigned so far. *)
Fixpoint overwrite (steps : list field_step) (r_json : pyval)
    (t : TheSimpleThermostat) : outcome unit * TheSimpleThermostat :=
  match steps with
  | [] => (Return tt, t)
  | s :: rest =>
      match extract s r_json with
      | Return v => overwrite rest r_json (store s v t)
      | Raise e => (Raise e, t)
      end
  end.

Definition partial_reply : Response :=
  reply 200 "{...}" (Some (PDict [("connected", PBool true)])).

Definition full_reply : Response :=
  reply 200 "{...}"
    (Some (PDict
       [("connected", PBool true);
        ("setpoint_reason", PStr "hold");
        ("away_details", PDict [("end_ts", PStr "2050-12-31T00:00:00+00:00")]);
        ("best_known_current_state_thermostat_data",
         PDict [("temperature", PFloat (7126 # 100));
                ("hold_mode", PStr "on");
                ("fan_mode", PStr "on");
                ("fan_state", PStr "on");
                ("hvac_mode", PStr "heat");
                ("hvac_state", PStr "heat");
                ("cool_setpoint", PInt 75);
                ("heat_setpoint", PInt 70)])])).

Definition reply_500 : Response := reply 500 "oops" None.

(** ** Notions for the statements on requests *)

(** The session the next request of [w] goes out on: the one the client
    holds, or the one [httpSess] is about to make. *)
Definition session_in_use (w : World) : Session :=
  match _http_sess (w_client w) with
  | Some s => s
  | None => fresh_session w
  end.

(** The headers [http_request] adds to those of the session. *)
Definition bearer_headers (authenticated : bool) (c : TheSimpleClient)
  : list (string * string) :=
  if authenticated then
    match _token c with
    | PStr s => [("Authorization", "Bearer " ++ s)]
    | _ => []
    end
  else [].

(** The operation [http_request] performs in [w]. *)
Definition request_sent (method : string) (req_url : fstr) (body : pyval)
    (authenticated : bool) (w : World) : Request :=
  mkRequest method (Lit (_base_url (w_client w)) :: req_url)
    (sess_headers (session_in_use w)
     ++ bearer_headers authenticated (w_client w))
    body (sess_id (session_in_use w)).

(** The world once [http_request] has sent its request, read the answer
    [r] and logged both, before it looks at the status. *)
Definition exchanged (method : string) (req_url : fstr) (body : pyval)
    (authenticated : bool) (r : Response) (rest : list Response)
    (w : World) : World :=
  {| w_client :=
       match _http_sess (w_client w) with
       | Some _ => w_client w
       | None => upd_http_sess (Some (fresh_session w)) (w_client w)
       end;
     w_thermostat := w_thermostat w;
     w_requests :=
       w_requests w ++ [request_sent method req_url body authenticated w];
     w_replies := rest;
     w_sessions :=
       match _http_sess (w_client w) with
       | Some _ => w_sessions w
       | None => S (w_sessions w)
       end;
     w_log :=
       w_log w
       ++ [mkLogRecord "DEBUG"
             "HTTP request (method: %s, url: %s, json: %s, authenticated: %s)"
             [[Fmt (PStr method)]; req_url; [Fmt body];
              [Fmt (PBool authenticated)]];
           mkLogRecord "DEBUG"
             "HTTP Response (status code: %s, response: %s)"
             [[Fmt (PInt (status_code r))]; [Fmt (PStr (text r))]]];
     w_time := w_time w |}.

(** What [clearToken] makes of a world. *)
Definition cleared (w : World) : World :=
  with_client
    (upd_http_sess None
       (upd_refreshToken (PStr EmptyString)
          (upd_token (PStr EmptyString) (w_client w)))) w.


(** The value of the [Authorization] header of the token request. *)
Definition digest_header (username nonce response opaque : string) : string :=
  "DigestE username=" ++ dquote ++ username ++ dquote ++ ", "
  ++ "realm=" ++ dquote ++ "Consumer" ++ dquote
  ++ ", nonce=" ++ dquote ++ nonce ++ dquote ++ ", "
  ++ "response=" ++ dquote ++ response ++ dquote ++ ", "
  ++ "opaque=" ++ dquote ++ opaque ++ dquote.

(** The operation [getToken] performs in [w]. *)
Definition token_request (w : World) : Request :=
  let c := w_client w in
  mkRequest "POST" [Lit (_base_url c ++ "authenticate")]
    [("X-Requested-With", "XMLHttpRequest");
     ("Authorization",
      digest_header (_username c) (ai_nonce (_authinfo c))
        (ai_response (_authinfo c)) (ai_opaque (_authinfo c)))]
    (PDict [("username", PStr (_username c));
            ("password", PStr (ai_encryptedpass (_authinfo c)))])
    (w_sessions w).

Definition token_reply : Response :=
  reply 200 "{...}"
    (Some (PDict [("access_token", PStr "tok-2"); ("user_id", PStr "u-2");
                  ("refresh_token", PStr "ref-2")])).

(** ** Notions for the statements on the thermostat *)

(** The modes [set_mode] of a package knows. *)
Definition accepted_mode (pkg : package) (mode : string) : bool :=
  String.eqb mode HVACMode_COOL || String.eqb mode HVACMode_HEAT
  || match pkg with
     | simple => String.eqb mode HVACMode_AUTO
     | nvenergy => false
     end
  || String.eqb mode HVACMode_OFF.

(** [temp] is within the range of the device. *)
Definition in_range (temp : Q) (t : TheSimpleThermostat) : Prop :=
  (minTemp t <= temp /\ temp <= maxTemp t)%Q.

(** The thermostat with the setpoint of its mode replaced. *)
Definition with_setpoint (cool : bool) (n : Z) (t : TheSimpleThermostat)
  : TheSimpleThermostat :=
  if cool then upd_cool_setpoint (PInt n) t else upd_heat_setpoint (PInt n) t.

(** The debug line [http_request] writes on entry. *)
Definition request_logged (method : string) (req_url : fstr) (body : pyval)
    (authenticated : bool) : LogRecord :=
  mkLogRecord "DEBUG"
    "HTTP request (method: %s, url: %s, json: %s, authenticated: %s)"
    [[Fmt (PStr method)]; req_url; [Fmt body]; [Fmt (PBool authenticated)]].

Definition no_token : exn :=
  AuthError [Lit "No token, authentication required"].

(** The fields [refresh] does not own: identity, capabilities and away
    settings. *)
Definition static_fields (w : World) :=
  let t := w_thermostat w in
  (_thermostat_id t, _t_location_id t, _name t, _schedule_mode t,
   _min_temp t, _max_temp t, _supported_modes t,
   _away_cool_setpoint t, _away_heat_setpoint t).

(** The fields [get_metadata] does not own: identity, live state and away
    settings. *)
Definition non_metadata_fields (w : World) :=
  let t := w_thermostat w in
  (_thermostat_id t, _t_location_id t,
   (_connected t, _setpoint_reason t, _current_temp t, _hold_mode t,
    _fan_mode t, _fan_state t, _hvac_mode t, _hvac_state t),
   (_cool_setpoint t, _heat_setpoint t, _last_update t, _away_details t,
    _preset_mode t),
   _away_cool_setpoint t, _away_heat_setpoint t).

(** The fields [get_away_settings] does not own: all but the two away
    setpoints. *)
Definition non_away_fields (w : World) :=
  let t := w_thermostat w in
  (_thermostat_id t, _t_location_id t,
   (_connected t, _setpoint_reason t, _current_temp t, _hold_mode t,
    _fan_mode t, _fan_state t, _hvac_mode t, _hvac_state t),
   (_cool_setpoint t, _heat_setpoint t, _last_update t, _away_details t,
    _preset_mode t),
   (_name t, _schedule_mode t, _min_temp t, _max_temp t,
    _supported_modes t)).



Definition away_settings_reply : Response :=
  reply 200 "{...}"
    (Some (PDict [("cool_setpoint", PInt 85); ("heat_setpoint", PInt 60)])).

(** ** Notions for the statements on the retry loop *)

(** An answer that is neither a success nor a 401. *)
Definition refused (r : Response) : Prop :=
  status_is HTTP_SUCCESS_START HTTP_SUCCESS_END r = false
  /\ status_is HTTP_FORBIDDEN_START HTTP_FORBIDDEN_END r = false.

(** The state read [refresh] sends in [w]. *)
Definition state_read (w : World) : Request :=
  request_sent "GET" (state_url (w_thermostat w)) PNone true w.

(** [w1] is [w] a few exchanges later: same thermostat, clock, base URL and
    token, and the client holding the session [w] was about to use. *)
Definition carries_on (w w1 : World) : Prop :=
  w_thermostat w1 = w_thermostat w
  /\ w_time w1 = w_time w
  /\ _base_url (w_client w1) = _base_url (w_client w)
  /\ _token (w_client w1) = _token (w_client w)
  /\ _http_sess (w_client w1) = Some (session_in_use w).

(** A rendering of exceptions for the runs below. *)
Definition str_demo (e : exn) : fstr :=
  match e with
  | TheSimpleError msg | APIError msg | AuthError msg => msg
  | KeyError key => [Lit key]
  | _ => [Lit "error"]
  end.

(** [m] performs at most [n] HTTP operations, whatever the world and the
    outcome, and takes none back. *)
Definition sends_at_most {A : Type} (n : nat) (m : M A) : Prop :=
  forall w, exists sent,
    w_requests (snd (m w)) = (w_requests w ++ sent)%list
    /\ (List.length sent <= n)%nat.

(** ** Notions for the statements on the challenge *)

(** A non-empty string of the characters [0-9A-Za-z_]. *)
Fixpoint ascii_words (s : string) : bool :=
  match s with
  | EmptyString => true
  | String a s' => ascii_word (byte_of a) && ascii_words s'
  end.

Definition word (s : string) : Prop :=
  s <> EmptyString /\ ascii_words s = true.

(** The challenge as the server writes it, followed by [tail]. *)
Definition challenge (realm nonce opaque tail : string) : string :=
  lit_realm ++ realm ++ lit_nonce ++ nonce ++ lit_opaque ++ opaque
  ++ dquote ++ tail.

Definition lower_hex (a : ascii) : Prop :=
  In a (list_ascii_of_string "0123456789abcdef").

(** No code point outside ASCII counts as a word character: the choice
    does not matter for the runs below. *)
Definition no_unicode_alnum (_ : Z) : bool := false.

Definition nonce_reply (www_auth : string) : Response :=
  reply 200 "{...}" (Some (PDict [("WWW-Authenticate", PStr www_auth)])).

(** * Properties *)

(** ** SHA-1 against published test vectors *)

Example sha1_abc :
  sha1_hexdigest "abc" = "a9993e364706816aba3e25717850c26c9cd0d89d".
Proof. vm_compute. reflexivity. Qed.

Example sha1_empty :
  sha1_hexdigest EmptyString = "da39a3ee5e6b4b0d3255bfef95601890afd80709".
Proof. vm_compute. reflexivity. Qed.

Example sha1_two_blocks :
  sha1_hexdigest "abcdbcdecdefdefgefghfghighijhijkijkljklmklmnlmnomnopnopq"
  = "84983e441c3bd26ebaae4aa1f95129e5e54670f1".
Proof. vm_compute. reflexivity. Qed.

(** The handshake of user alice, password secret, realm Consumer and
    nonce abc123. *)
Example buildResponse_alice :
  buildResponse "alice" "secret" "Consumer" "abc123"
  = "2087402ed6500bee7d3ee59ae1e63f4753f09055".
Proof. vm_compute. reflexivity. Qed.

(** ** C6: the challenge response *)

(** C6. For every username, password, realm and nonce, [buildResponse] is
    the hex SHA-1 of [h2_hex ++ ":" ++ nonce], where [h2_hex] is the hex
    SHA-1 of [username ++ ":" ++ realm ++ ":" ++ h1_hex] and [h1_hex] is the
    hex SHA-1 of the password, each string taken as its UTF-8 bytes. *)
Theorem buildResponse_spec (username password realm nonce : string) :
  let h1_hex := SHA1.hex (SHA1.digest (SHA1.bytes_of_string password)) in
  let h2_hex :=
    SHA1.hex
      (SHA1.digest
         (SHA1.bytes_of_string
            (username ++ ":" ++ realm ++ ":" ++ h1_hex))) in
  buildResponse username password realm nonce
  = SHA1.hex (SHA1.digest (SHA1.bytes_of_string (h2_hex ++ ":" ++ nonce))).
Proof.
  intros h1_hex h2_hex.
  unfold buildResponse, sha1_hexdigest.
  subst h1_hex h2_hex.
  reflexivity.
Qed.

(** ** C4: the property accessors *)

(** C4 does not hold of the code.  Reading [fan_state] never returns the
    cached fan state: whatever the recursion limit and whatever [refresh]
    stored, the read ends in [RecursionError]. *)
Theorem fan_state_never_returns (frames : nat) (t : TheSimpleThermostat) :
  fan_state frames t = Raise RecursionError.
Proof.
  induction frames as [|frames IH]; simpl.
  - reflexivity.
  - exact IH.
Qed.

(** ** What a computation leaves alone *)

Section Frames.

Context {X : Type} (proj : World -> X).

Lemma preserves_ret {A : Type} (a : A) : preserves proj (ret a).
Proof. intros w. reflexivity. Qed.

Lemma preserves_raise {A : Type} (e : exn) : preserves proj (@raise A e).
Proof. intros w. reflexivity. Qed.

Lemma preserves_lift {A : Type} (o : outcome A) : preserves proj (lift o).
Proof. intros w. reflexivity. Qed.

Lemma preserves_self_client : preserves proj self_client.
Proof. intros w. reflexivity. Qed.

Lemma preserves_self : preserves proj self.
Proof. intros w. reflexivity. Qed.

Lemma preserves_time_time : preserves proj time_time.
Proof. intros w. reflexivity. Qed.

Lemma preserves_bind {A B : Type} (m : M A) (k : A -> M B) :
  preserves proj m -> (forall a, preserves proj (k a)) ->
  preserves proj (bind m k).
Proof.
  intros Hm Hk w. unfold bind.
  specialize (Hm w). destruct (m w) as [[a|e] w1]; simpl in *.
  - rewrite Hk. exact Hm.
  - exact Hm.
Qed.

End Frames.

Create HintDb frame.

#[export] Hint Resolve preserves_ret preserves_raise preserves_lift
  preserves_self_client preserves_self preserves_time_time : frame.

Ltac frame_step :=
  match goal with
  | |- preserves _ (bind _ _) => apply preserves_bind; [| intros ?]
  | |- preserves _ (if ?b then _ else _) => destruct b
  | |- preserves _ (match ?x with _ => _ end) => destruct x
  | |- preserves _ _ => solve [auto with frame]
  end.

Ltac frame := repeat frame_step.

(** *** The thermostat is touched by [assign] only *)

Lemma assign_client_thermostat f : preserves w_thermostat (assign_client f).
Proof. intros w. reflexivity. Qed.

Lemma emit_thermostat level msg args :
  preserves w_thermostat (emit level msg args).
Proof. intros w. reflexivity. Qed.

Lemma requests_Session_thermostat : preserves w_thermostat requests_Session.
Proof. intros w. reflexivity. Qed.

Lemma session_send_thermostat sess method url body headers :
  preserves w_thermostat (session_send sess method url body headers).
Proof. intros w. unfold session_send. destruct (w_replies w); reflexivity. Qed.

#[export] Hint Resolve assign_client_thermostat emit_thermostat
  requests_Session_thermostat session_send_thermostat : frame.

Lemma httpSess_thermostat : preserves w_thermostat httpSess.
Proof. unfold httpSess. frame. Qed.

Lemma clearToken_thermostat : preserves w_thermostat clearToken.
Proof. unfold clearToken. frame. Qed.

#[export] Hint Resolve httpSess_thermostat clearToken_thermostat : frame.

Lemma http_request_thermostat pkg method req_url body authenticated :
  preserves w_thermostat (http_request pkg method req_url body authenticated).
Proof. unfold http_request, _LOGGER_debug. frame. Qed.

Lemma getToken_thermostat : preserves w_thermostat getToken.
Proof. unfold getToken, _LOGGER_debug. frame. Qed.

#[export] Hint Resolve http_request_thermostat getToken_thermostat : frame.

(** ** C5: an authenticated request without a token *)

(** C5. For every method, path and body, [http_request] with
    [authenticated = True] while the stored access token is the empty
    string raises [AuthError]; no HTTP operation is attempted, no session
    is made, and the client (tokens and session handle), the pending
    server answers and the thermostat are as before.  Only the debug line
    written on entry is new. *)
Theorem http_request_no_token (pkg : package) (method : string)
    (req_url : fstr) (json_req_body : pyval) (w : World) :
  _token (w_client w) = PStr EmptyString ->
  exists w',
    http_request pkg method req_url json_req_body true w
    = (Raise (AuthError [Lit "No token, authentication required"]), w')
    /\ w_requests w' = w_requests w
    /\ w_client w' = w_client w
    /\ w_sessions w' = w_sessions w
    /\ w_replies w' = w_replies w
    /\ w_thermostat w' = w_thermostat w.
Proof.
  intros Htok.
  unfold http_request, bind, _LOGGER_debug, emit, self_client, lift, ret,
    raise.
  cbn [w_client with_log]. rewrite Htok. cbn.
  eexists. split; [reflexivity|]. cbn. repeat split.
Qed.

Lemma http_request_no_token_witness :
  let w := with_client (upd_token (PStr EmptyString) demo_client)
             (demo_world []) in
  _token (w_client w) = PStr EmptyString
  /\ exists w',
       http_request simple "GET" [Lit "user"] PNone true w
       = (Raise (AuthError [Lit "No token, authentication required"]), w')
       /\ w_requests w' = w_requests w
       /\ w_client w' = w_client w
       /\ w_sessions w' = w_sessions w
       /\ w_replies w' = w_replies w
       /\ w_thermostat w' = w_thermostat w.
Proof.
  intros w. split.
  - reflexivity.
  - apply (http_request_no_token simple "GET" [Lit "user"] PNone w).
    reflexivity.
Defined.

(** ** C7: a temperature outside the range of the device *)

Lemma Qltb_lt (x y : Q) : Qltb x y = true <-> (x < y)%Q.
Proof.
  unfold Qltb. rewrite negb_true_iff. split; intros H.
  - apply Qnot_le_lt. intros Hle. apply Qle_bool_iff in Hle. congruence.
  - destruct (Qle_bool y x) eqn:E; [|reflexivity].
    apply Qle_bool_iff in E. exfalso. exact (Qlt_not_le _ _ H E).
Qed.

(** C7. For every thermostat and every [temp] below [minTemp] or above
    [maxTemp], [set_temp temp] returns without raising and leaves the whole
    world as it was: no HTTP request, no cached field changed. *)
Theorem set_temp_out_of_range (pkg : package) (temp : Q) (w : World) :
  (temp < minTemp (w_thermostat w) \/ maxTemp (w_thermostat w) < temp)%Q ->
  set_temp pkg temp w = (Return tt, w).
Proof.
  intros H.
  assert (Hb : Qltb temp (_min_temp (w_thermostat w))
               || Qltb (_max_temp (w_thermostat w)) temp = true).
  { apply orb_true_iff. destruct H as [H|H]; [left|right];
      apply Qltb_lt; exact H. }
  unfold set_temp, bind, self. rewrite Hb. reflexivity.
Qed.

Lemma set_temp_out_of_range_witness :
  ((95 # 1) < minTemp (w_thermostat (demo_world []))
   \/ maxTemp (w_thermostat (demo_world [])) < (95 # 1))%Q
  /\ set_temp simple (95 # 1) (demo_world []) = (Return tt, demo_world []).
Proof.
  assert (H : ((95 # 1) < minTemp (w_thermostat (demo_world []))
               \/ maxTemp (w_thermostat (demo_world [])) < (95 # 1))%Q).
  { right. reflexivity. }
  split.
  - exact H.
  - exact (set_temp_out_of_range simple (95 # 1) (demo_world []) H).
Defined.

(** ** C8: a preset while the device is off *)

(** C8. For every thermostat whose cached HVAC mode is Off and every
    preset among Away and None, [set_preset_mode preset] returns without
    raising, issues no HTTP request (the client, the pending answers and the
    sessions are untouched), sets the cached preset to None and logs one
    warning. *)
Theorem set_preset_mode_when_off (pkg : package)
    (float_of_str : string -> option Q) (preset : string) (w : World) :
  py_eq_str (hvacMode (w_thermostat w)) HVACMode_OFF = true ->
  preset = PRESET_AWAY \/ preset = PRESET_NONE ->
  exists w',
    set_preset_mode pkg float_of_str preset w = (Return tt, w')
    /\ w_requests w' = w_requests w
    /\ w_replies w' = w_replies w
    /\ w_client w' = w_client w
    /\ w_sessions w' = w_sessions w
    /\ preset_mode (w_thermostat w') = PStr PRESET_NONE
    /\ w_log w'
       = (w_log w
          ++ [mkLogRecord "WARNING"
                "Cannot set preset mode to %s because thermostat is off"
                [[Fmt (PStr preset)]]])%list.
Proof.
  intros Hoff Hpreset.
  assert (Hin : negb (String.eqb preset PRESET_AWAY
                      || String.eqb preset PRESET_NONE) = false).
  { destruct Hpreset; subst preset; reflexivity. }
  unfold set_preset_mode. rewrite Hin.
  unfold hvacMode, HVACMode_OFF in Hoff.
  unfold bind, self, _LOGGER_warning, emit, assign. cbn [w_thermostat with_log].
  rewrite Hoff. cbn.
  eexists. split; [reflexivity|]. cbn. repeat split.
Qed.

Lemma set_preset_mode_when_off_witness :
  let w := with_thermostat off_thermostat (demo_world []) in
  py_eq_str (hvacMode (w_thermostat w)) HVACMode_OFF = true
  /\ (PRESET_AWAY = PRESET_AWAY \/ PRESET_AWAY = PRESET_NONE)
  /\ exists w',
       set_preset_mode simple no_float_of_str PRESET_AWAY w = (Return tt, w')
       /\ w_requests w' = w_requests w
       /\ w_replies w' = w_replies w
       /\ w_client w' = w_client w
       /\ w_sessions w' = w_sessions w
       /\ preset_mode (w_thermostat w') = PStr PRESET_NONE
       /\ w_log w'
          = (w_log w
             ++ [mkLogRecord "WARNING"
                   "Cannot set preset mode to %s because thermostat is off"
                   [[Fmt (PStr PRESET_AWAY)]]])%list.
Proof.
  intros w.
  assert (H1 : py_eq_str (hvacMode (w_thermostat w)) HVACMode_OFF = true)
    by reflexivity.
  assert (H2 : PRESET_AWAY = PRESET_AWAY \/ PRESET_AWAY = PRESET_NONE)
    by (left; reflexivity).
  split; [exact H1|]. split; [exact H2|].
  exact (set_preset_mode_when_off simple no_float_of_str PRESET_AWAY w H1 H2).
Defined.

(** ** C9: the mode is not updated optimistically *)

(** C9. A successful [set_mode mode] leaves every cached field of the
    thermostat, the HVAC mode among them, as it was: the cache shows the old
    mode until the next [refresh]. *)
Theorem set_mode_keeps_cache (pkg : package) (mode : string) (w w' : World) :
  set_mode pkg mode w = (Return tt, w') ->
  w_thermostat w' = w_thermostat w
  /\ hvacMode (w_thermostat w') = hvacMode (w_thermostat w).
Proof.
  intros Hrun.
  assert (Hframe : preserves w_thermostat (set_mode pkg mode)).
  { unfold set_mode. frame. }
  specialize (Hframe w). rewrite Hrun in Hframe. simpl in Hframe.
  rewrite Hframe. split; reflexivity.
Qed.

Lemma set_mode_keeps_cache_witness :
  let w := demo_world [ok_reply] in
  let w' := snd (set_mode simple HVACMode_HEAT w) in
  set_mode simple HVACMode_HEAT w = (Return tt, w')
  /\ w_requests w' <> w_requests w
  /\ w_thermostat w' = w_thermostat w
  /\ hvacMode (w_thermostat w') = PStr HVACMode_COOL.
Proof.
  intros w w'.
  assert (Hrun : set_mode simple HVACMode_HEAT w = (Return tt, w'))
    by reflexivity.
  split; [exact Hrun|]. split; [discriminate|].
  destruct (set_mode_keeps_cache simple HVACMode_HEAT w w' Hrun) as [Ht Hm].
  split; [exact Ht|]. rewrite Hm. reflexivity.
Defined.

(** ** C1: how [http_request] classifies a response *)

Lemma status_is_forbidden (r : Response) :
  status_is HTTP_FORBIDDEN_START HTTP_FORBIDDEN_END r = (status_code r =? 401).
Proof.
  unfold status_is, HTTP_FORBIDDEN_START, HTTP_FORBIDDEN_END.
  destruct (Z.eqb_spec (status_code r) 401) as [E|E].
  - rewrite E. reflexivity.
  - apply andb_false_iff.
    destruct (Z.leb_spec 401 (status_code r)); [right|left; reflexivity].
    apply Z.leb_gt. lia.
Qed.

(** Against C1 as first stated: a 401 answer to an authenticated GET.  The
    exception is an [APIError], and it is [AuthError] for no message. *)
Lemma http_request_401_not_AuthError :
  let run := http_request simple "GET" [Lit "user"] PNone true
               (demo_world [reply_401]) in
  status_code reply_401 = 401
  /\ fst run = Raise (APIError (error_msg "HTTP response forbidden" reply_401))
  /\ forall msg, fst run <> Raise (AuthError msg).
Proof.
  cbv zeta. split; [reflexivity|]. split; [reflexivity|].
  intros msg. vm_compute. discriminate.
Qed.

(** C1, amended. Whenever [http_request] sends a supported request
    (authenticated with a token held, or unauthenticated) and the answer is
    not a 2xx, it raises [APIError] carrying the raw status and body, never
    [AuthError].  When the status is exactly 401 the message is
    HTTP response forbidden, and the access token, the refresh token and the
    session handle have been cleared; for every other status the message is
    Invalid HTTP response and both tokens are as before. *)
Theorem http_request_non_2xx (pkg : package) (method : string)
    (req_url : fstr) (json_req_body : pyval) (authenticated : bool)
    (w : World) (r : Response) (rest : list Response) :
  supported_method method ->
  (authenticated = true -> holds_token (w_client w)) ->
  w_replies w = r :: rest ->
  status_is HTTP_SUCCESS_START HTTP_SUCCESS_END r = false ->
  exists w',
    http_request pkg method req_url json_req_body authenticated w
    = (Raise (APIError
                (error_msg (if status_code r =? 401
                            then "HTTP response forbidden"
                            else "Invalid HTTP response") r)), w')
    /\ if status_code r =? 401
       then _token (w_client w') = PStr EmptyString
            /\ _refreshToken (w_client w') = PStr EmptyString
            /\ _http_sess (w_client w') = None
       else _token (w_client w') = _token (w_client w)
            /\ _refreshToken (w_client w') = _refreshToken (w_client w).
Proof.
  intros Hmethod Htok Hrep H2xx.
  pose proof (status_is_forbidden r) as H401.
  destruct w as [c t rq rp n lg tm]. simpl in Htok, Hrep. subst rp.
  assert (Hgate :
            (if authenticated
             then bind (lift (py_len (_token c)))
                    (fun n0 => ret (Nat.eqb n0 0))
             else ret false)
            = ret false).
  { destruct authenticated; [|reflexivity].
    destruct (Htok eq_refl) as (a & s & Ha). rewrite Ha. reflexivity. }
  assert (Hhdr : exists hs,
            (if authenticated
             then bind (lift (py_str_add "Bearer " (_token c)))
                    (fun s => ret [("Authorization", s)])
             else ret [])
            = ret hs).
  { destruct authenticated; [|eexists; reflexivity].
    destruct (Htok eq_refl) as (a & s & Ha). rewrite Ha.
    eexists. reflexivity. }
  destruct Hhdr as [hs Hhdr].
  unfold http_request.
  unfold bind at 1. unfold _LOGGER_debug at 1, emit at 1.
  unfold bind at 1. unfold self_client at 1. cbn [w_client with_log].
  unfold bind at 1. rewrite Hgate. unfold ret at 1.
  unfold bind at 1. rewrite Hhdr. unfold ret at 1.
  destruct Hmethod as [-> | [-> | [-> | ->]]];
    unfold bind, httpSess, self_client, session_send, _LOGGER_debug, emit,
      requests_Session, assign_client, clearToken, ret, raise;
    cbn -[error_msg status_is HTTP_SUCCESS_START HTTP_SUCCESS_END
          HTTP_FORBIDDEN_START HTTP_FORBIDDEN_END];
    destruct (_http_sess c) as [s0|];
    cbn -[error_msg status_is HTTP_SUCCESS_START HTTP_SUCCESS_END
          HTTP_FORBIDDEN_START HTTP_FORBIDDEN_END];
    rewrite H2xx, H401;
    destruct (status_code r =? 401);
    cbn -[error_msg];
    (eexists; split; [reflexivity | cbn; repeat split]).
Qed.

Lemma http_request_non_2xx_witness :
  let w := demo_world [reply_401] in
  supported_method "GET"
  /\ holds_token (w_client w)
  /\ status_is HTTP_SUCCESS_START HTTP_SUCCESS_END reply_401 = false
  /\ exists w',
       http_request simple "GET" [Lit "user"] PNone true w
       = (Raise (APIError (error_msg "HTTP response forbidden" reply_401)), w')
       /\ _token (w_client w') = PStr EmptyString
       /\ _refreshToken (w_client w') = PStr EmptyString
       /\ _http_sess (w_client w') = None.
Proof.
  intros w.
  assert (Hm : supported_method "GET") by (left; reflexivity).
  assert (Ht : holds_token (w_client w)) by (do 2 eexists; reflexivity).
  assert (H2 : status_is HTTP_SUCCESS_START HTTP_SUCCESS_END reply_401 = false)
    by reflexivity.
  split; [exact Hm|]. split; [exact Ht|]. split; [exact H2|].
  exact (http_request_non_2xx simple "GET" [Lit "user"] PNone true w
           reply_401 [] Hm (fun _ => Ht) eq_refl H2).
Defined.

(** The same request answered by a 500: [APIError] again, tokens kept. *)
Example http_request_500 :
  let r := reply 500 "oops" None in
  let run := http_request nvenergy "PATCH" [Lit "x"] PNone true
               (demo_world [r]) in
  fst run = Raise (APIError (error_msg "Invalid HTTP response" r))
  /\ _token (w_client (snd run)) = PStr "tok-1"
  /\ _refreshToken (w_client (snd run)) = PStr "ref-1".
Proof. cbv zeta. repeat split. Qed.

(** ** C10: what [getToken] leaves behind when it fails *)

(** Against C10 as first stated: a 401 answer to the token POST.  The
    tokens are empty, but the client holds a session handle again, the one
    made for the POST. *)
Lemma getToken_401_keeps_a_session :
  let run := getToken (demo_world [reply_401]) in
  fst run = Raise (AuthError (error_msg "Authentication Error" reply_401))
  /\ _token (w_client (snd run)) = PStr EmptyString
  /\ _refreshToken (w_client (snd run)) = PStr EmptyString
  /\ _http_sess (w_client (snd run))
     = Some (mkSession 1 [("X-Requested-With", "XMLHttpRequest")])
  /\ _http_sess (w_client (snd run)) <> None.
Proof.
  cbv zeta. repeat split. vm_compute. discriminate.
Qed.

(** Case analysis on the innermost scrutinee a run is stuck on. *)
Ltac split_run H :=
  repeat match type of H with
    | context [match ?x with _ => _ end] =>
        lazymatch x with
        | context [match _ with _ => _ end] => fail
        | _ => destruct x eqn:?
        end;
        cbn -[error_msg status_is HTTP_SUCCESS_START HTTP_SUCCESS_END
              HTTP_FORBIDDEN_START HTTP_FORBIDDEN_END String.append] in H
    end.

Lemma py_getitem_builtin v k e : py_getitem v k = Raise e -> builtin_exn e.
Proof.
  destruct v; simpl; try (intros [= <-]; split; reflexivity).
  destruct (dict_get d k); intros [= <-]; split; reflexivity.
Qed.

Lemma r_json_of_builtin r e : r_json_of r = Raise e -> builtin_exn e.
Proof.
  unfold r_json_of. destruct (json r); intros [= <-]; split; reflexivity.
Qed.

Lemma builtin_not_ours e :
  builtin_exn e ->
  isinstance_AuthError e = true \/ isinstance_APIError e = true -> False.
Proof. intros [H1 H2] [H|H]; congruence. Qed.

(** C10, amended. Every [getToken] call clears the access token, the
    refresh token and the session handle before it issues the token POST:
    the POST is the one operation of the call, it goes out on a session made
    for it, and that session is the handle the client holds afterwards.
    Whenever the call raises [AuthError] or [APIError], both tokens are
    empty; the session handle is not. *)
Theorem getToken_failure_state (w w' : World) (o : outcome unit) :
  getToken w = (o, w') ->
  (exists rq,
     w_requests w' = (w_requests w ++ [rq])%list
     /\ rq_method rq = "POST"
     /\ rq_session rq = sess_id (fresh_session w))
  /\ _http_sess (w_client w') = Some (fresh_session w)
  /\ w_sessions w' = S (w_sessions w)
  /\ forall e,
       o = Raise e ->
       isinstance_AuthError e = true \/ isinstance_APIError e = true ->
       _token (w_client w') = PStr EmptyString
       /\ _refreshToken (w_client w') = PStr EmptyString.
Proof.
  intros Hrun.
  destruct w as [c t rq rp n lg tm].
  unfold getToken, bind, clearToken, httpSess, self_client, session_send,
    _LOGGER_debug, emit, requests_Session, assign_client, lift, ret, raise
    in Hrun.
  cbn -[error_msg status_is HTTP_SUCCESS_START HTTP_SUCCESS_END
        HTTP_FORBIDDEN_START HTTP_FORBIDDEN_END String.append] in Hrun.
  split_run Hrun;
    inversion Hrun; subst; clear Hrun;
    (split; [eexists; repeat split|]);
    (split; [reflexivity|]);
    (split; [reflexivity|]);
    intros e' [= <-] He;
    try (split; reflexivity);
    exfalso;
    match goal with
    | H : py_getitem _ _ = Raise _ |- _ =>
        exact (builtin_not_ours _ (py_getitem_builtin _ _ _ H) He)
    | H : r_json_of _ = Raise _ |- _ =>
        exact (builtin_not_ours _ (r_json_of_builtin _ _ H) He)
    | _ => destruct He as [He|He]; discriminate He
    end.
Qed.

Lemma getToken_failure_state_witness :
  let w := demo_world [reply_401] in
  let e := AuthError (error_msg "Authentication Error" reply_401) in
  getToken w = (Raise e, snd (getToken w))
  /\ _token (w_client (snd (getToken w))) = PStr EmptyString
  /\ _refreshToken (w_client (snd (getToken w))) = PStr EmptyString
  /\ _http_sess (w_client (snd (getToken w))) = Some (fresh_session w)
  /\ _http_sess (w_client w) = Some demo_session
  /\ fresh_session w <> demo_session.
Proof.
  intros w e.
  assert (Hrun : getToken w = (Raise e, snd (getToken w))) by reflexivity.
  destruct (getToken_failure_state w (snd (getToken w)) (Raise e) Hrun)
    as (_ & Hs & _ & Htok).
  destruct (Htok e eq_refl (or_introl eq_refl)) as [H1 H2].
  split; [exact Hrun|]. split; [exact H1|]. split; [exact H2|].
  split; [exact Hs|]. split; [reflexivity|]. discriminate.
Defined.

(** ** C2: [refresh] field by field *)

(** Against C2 as first stated: a 200 answer that carries [connected] and
    nothing else.  The call raises [KeyError], [connected] has already been
    overwritten, and the other fields hold their old values. *)
Lemma refresh_half_updated :
  let w := demo_world [partial_reply] in
  let run := refresh simple no_float_of_str w in
  fst run = Raise (KeyError "setpoint_reason")
  /\ connected (w_thermostat w) = PBool false
  /\ connected (w_thermostat (snd run)) = PBool true
  /\ setpoint_reason (w_thermostat (snd run)) = setpoint_reason (w_thermostat w)
  /\ hvacMode (w_thermostat (snd run)) = hvacMode (w_thermostat w)
  /\ w_thermostat (snd run) <> w_thermostat w.
Proof.
  cbv zeta. repeat split. vm_compute. discriminate.
Qed.

(** A complete answer overwrites every live-state field. *)
Example refresh_full :
  let w := demo_world [full_reply] in
  let run := refresh simple no_float_of_str w in
  fst run = Return tt
  /\ w_thermostat (snd run)
     = {| _thermostat_id := PStr "t1"; _fan_mode := PStr "on";
          _fan_state := PStr "on"; _hvac_mode := PStr "heat";
          _hvac_state := PStr "heat"; _hold_mode := PStr "on";
          _cool_setpoint := PInt 75; _heat_setpoint := PInt 70;
          _setpoint_reason := PStr "hold";
          _current_temp := PFloat (713 # 10);
          _last_update := PFloat (2000 # 1); _connected := PBool true;
          _name := PStr "Hall"; _max_temp := 89 # 1; _min_temp := 50 # 1;
          _schedule_mode := PStr "on";
          _supported_modes := PList [PStr "COOL"; PStr "HEAT"];
          _away_details := PStr "2050-12-31T00:00:00+00:00";
          _preset_mode := PStr "away";
          _t_location_id := PStr "locA";
          _away_cool_setpoint := 89 # 1; _away_heat_setpoint := 50 # 1 |}.
Proof. cbv zeta. split; vm_compute; reflexivity. Qed.

Lemma http_request_time pkg method req_url body authenticated :
  preserves w_time (http_request pkg method req_url body authenticated).
Proof.
  assert (Hsend : forall sess m u b h,
             preserves w_time (session_send sess m u b h)).
  { intros sess m u b h w. unfold session_send.
    destruct (w_replies w); reflexivity. }
  assert (Hemit : forall l m a, preserves w_time (emit l m a))
    by (intros l m a w; reflexivity).
  assert (Hc : forall f, preserves w_time (assign_client f))
    by (intros f w; reflexivity).
  assert (Hs : preserves w_time requests_Session) by (intros w; reflexivity).
  unfold http_request, httpSess, clearToken, _LOGGER_debug.
  repeat first [frame_step | apply Hsend | apply Hemit | apply Hc | apply Hs].
Qed.

(** When [overwrite] gets through the live state, every field holds what
    the response gave for it, and the fields that are not live state are
    as they were. *)
Lemma live_state_overwritten (float_of_str : string -> option Q) (now : Q)
    (r_json : pyval) (t t' : TheSimpleThermostat) :
  overwrite (live_state float_of_str now) r_json t = (Return tt, t') ->
  py_getitem r_json "connected" = Return (connected t')
  /\ py_getitem r_json "setpoint_reason" = Return (setpoint_reason t')
  /\ then_ (nested "temperature" r_json)
       (fun v => then_ (py_float float_of_str v)
                   (fun x => Return (PFloat (py_round1 x))))
     = Return (current_temp t')
  /\ nested "hold_mode" r_json = Return (_hold_mode t')
  /\ nested "fan_mode" r_json = Return (fan_mode t')
  /\ nested "fan_state" r_json = Return (_fan_state t')
  /\ nested "hvac_mode" r_json = Return (hvacMode t')
  /\ nested "hvac_state" r_json = Return (hvacState t')
  /\ nested "cool_setpoint" r_json = Return (cool_setpoint t')
  /\ nested "heat_setpoint" r_json = Return (heat_setpoint t')
  /\ last_update t' = PFloat now
  /\ away_end r_json = Return (_away_details t')
  /\ away_preset r_json = Return (preset_mode t')
  /\ thermostat_id t' = thermostat_id t
  /\ name t' = name t
  /\ minTemp t' = minTemp t
  /\ maxTemp t' = maxTemp t
  /\ supportedModes t' = supportedModes t.
Proof.
  unfold live_state. cbn [overwrite extract store].
  intros H.
  repeat match type of H with
    | context [match ?x with _ => _ end] =>
        lazymatch x with
        | context [match _ with _ => _ end] => fail
        | _ => destruct x eqn:?
        end
    end;
    try discriminate H.
  injection H as <-.
  repeat split.
Qed.

Ltac split_goal :=
  repeat match goal with
    | |- context [match ?x with _ => _ end] =>
        lazymatch x with
        | context [match _ with _ => _ end] => fail
        | _ => destruct x eqn:?
        end;
        cbn [fst snd w_thermostat w_client w_requests w_replies w_sessions
             w_log w_time with_thermostat with_log]
    end.

(** C2, amended. [refresh] is not atomic.  When the GET fails, or its body
    is not JSON, the call fails and no cached field changes.  Otherwise the
    live-state fields are assigned one after another from the response, in
    the order of [live_state]; the call stops with the exception at the
    first field whose value cannot be read, the fields before it overwritten
    and the fields from it on as they were, and it returns with every field
    overwritten when none fails. *)
Theorem refresh_overwrites_in_order (pkg : package)
    (float_of_str : string -> option Q) (w : World) :
  match http_request pkg "GET" (state_url (w_thermostat w)) PNone true w with
  | (Raise e, w1) =>
      refresh pkg float_of_str w = (Raise e, w1)
      /\ w_thermostat w1 = w_thermostat w
  | (Return r, w1) =>
      match json r with
      | None =>
          refresh pkg float_of_str w = (Raise JSONDecodeError, w1)
          /\ w_thermostat w1 = w_thermostat w
      | Some r_json =>
          (fst (refresh pkg float_of_str w),
           w_thermostat (snd (refresh pkg float_of_str w)))
          = overwrite (live_state float_of_str (w_time w)) r_json
              (w_thermostat w)
      end
  end.
Proof.
  pose proof (http_request_thermostat pkg "GET" (state_url (w_thermostat w))
                PNone true w) as Ht.
  pose proof (http_request_time pkg "GET" (state_url (w_thermostat w))
                PNone true w) as Hnow.
  destruct (refresh pkg float_of_str w) as [o w'] eqn:Hrun.
  unfold refresh in Hrun.
  unfold bind at 1 in Hrun. unfold self at 1 in Hrun.
  unfold bind at 1 in Hrun.
  destruct (http_request pkg "GET" (state_url (w_thermostat w)) PNone true w)
    as [[r|e] w1]; simpl in Ht, Hnow.
  - unfold bind at 1 in Hrun. unfold lift at 1, r_json_of at 1 in Hrun.
    destruct (json r) as [r_json|].
    + rewrite <- Hrun, <- Ht, <- Hnow. clear Hrun Ht Hnow.
      destruct w1 as [c1 t1 rq1 rp1 n1 lg1 tm1].
      unfold live_state, nested, away_end, away_preset, then_.
      unfold bind, lift, self, assign, time_time, _LOGGER_debug, emit, ret.
      cbn [fst snd w_thermostat w_client w_requests w_replies w_sessions
           w_log w_time with_thermostat with_log overwrite extract store].
      split_goal; reflexivity.
    + inversion Hrun; subst. split; [reflexivity | exact Ht].
  - inversion Hrun; subst. split; [reflexivity | exact Ht].
Qed.

(** ** C3: [set_temp] and a failing PATCH *)

(** Whatever the PATCH does, a thermostat in Cool mode given a temperature
    in range ends with that temperature as its cached cool setpoint: the
    field is assigned before the request is sent. *)
Lemma set_temp_cool_stores_first (pkg : package) (temp : Q) (w : World) :
  Qltb temp (_min_temp (w_thermostat w))
  || Qltb (_max_temp (w_thermostat w)) temp = false ->
  py_eq_str (hvacMode (w_thermostat w)) HVACMode_COOL = true ->
  cool_setpoint (w_thermostat (snd (set_temp pkg temp w)))
  = PInt (py_int temp).
Proof.
  intros Hrange Hcool.
  unfold set_temp. unfold bind at 1. unfold self at 1. rewrite Hrange, Hcool.
  unfold bind at 1. unfold assign at 1. unfold bind at 1.
  match goal with
  | |- context [http_request pkg "PATCH" ?u ?b true ?w1] =>
      pose proof (http_request_thermostat pkg "PATCH" u b true w1) as Ht;
      destruct (http_request pkg "PATCH" u b true w1) as [[r|e] w2]
  end; simpl in Ht.
  - unfold bind, self, assign, ret.
    cbn [fst snd]. rewrite Ht. unfold hvacMode in *.
    cbn [w_thermostat with_thermostat upd_cool_setpoint _hvac_mode].
    rewrite Hcool. reflexivity.
  - cbn [snd]. rewrite Ht. reflexivity.
Qed.

(** C3 does not hold of the code.  A thermostat in Cool mode holding 72 is
    asked for 75 and the server answers 500: [set_temp] raises [APIError],
    and the cached cool setpoint is 75 all the same, in both packages. *)
Theorem set_temp_failed_patch_changes_cache :
  let w := demo_world [reply_500] in
  let run := set_temp simple (75 # 1) w in
  hvacMode (w_thermostat w) = PStr HVACMode_COOL
  /\ cool_setpoint (w_thermostat w) = PInt 72
  /\ fst run = Raise (APIError (error_msg "Invalid HTTP response" reply_500))
  /\ cool_setpoint (w_thermostat (snd run)) = PInt 75
  /\ fst (set_temp nvenergy (75 # 1) w) = fst run
  /\ cool_setpoint (w_thermostat (snd (set_temp nvenergy (75 # 1) w)))
     = PInt 75.
Proof.
  cbv zeta. repeat split.
Qed.

(** When the PATCH succeeds the setpoint is the requested one, as claimed. *)
Example set_temp_ok :
  let run := set_temp simple (75 # 1) (demo_world [ok_reply]) in
  fst run = Return tt
  /\ cool_setpoint (w_thermostat (snd run)) = PInt 75
  /\ map rq_method (w_requests (snd run)) = ["PATCH"]
  /\ map rq_json (w_requests (snd run)) = [PDict [("cool_setpoint", PInt 75)]].
Proof. cbv zeta. repeat split. Qed.

(** Case analysis on whatever a goal is stuck on, innermost first. *)
Ltac split_cases :=
  repeat match goal with
    | |- context [match ?x with _ => _ end] =>
        lazymatch x with
        | context [match _ with _ => _ end] => fail
        | _ => destruct x eqn:?
        end;
        cbn -[error_msg String.append]
    end.

Ltac either := first [left; reflexivity | right; reflexivity].

(** * Further properties of the client *)

(** ** One exchange *)

(** [http_request], once it is past its guards and the server answers:
    the exchange, then the verdict on the status. *)
Lemma http_request_exchange (pkg : package) (method : string)
    (req_url : fstr) (body : pyval) (authenticated : bool)
    (w : World) (r : Response) (rest : list Response) :
  supported_method method ->
  (authenticated = true -> holds_token (w_client w)) ->
  w_replies w = r :: rest ->
  http_request pkg method req_url body authenticated w
  = let w1 := exchanged method req_url body authenticated r rest w in
    if status_is HTTP_SUCCESS_START HTTP_SUCCESS_END r then (Return r, w1)
    else if status_is HTTP_FORBIDDEN_START HTTP_FORBIDDEN_END r then
      (Raise (APIError (error_msg "HTTP response forbidden" r)), cleared w1)
    else (Raise (APIError (error_msg "Invalid HTTP response" r)), w1).
Proof.
  intros Hmethod Htok Hrep.
  destruct w as [c t rq rp n lg tm]. simpl in Htok, Hrep. subst rp.
  assert (Hgate :
            (if authenticated
             then bind (lift (py_len (_token c)))
                    (fun n0 => ret (Nat.eqb n0 0))
             else ret false)
            = ret false).
  { destruct authenticated; [|reflexivity].
    destruct (Htok eq_refl) as (a & s & Ha). rewrite Ha. reflexivity. }
  assert (Hhdr :
            (if authenticated
             then bind (lift (py_str_add "Bearer " (_token c)))
                    (fun s => ret [("Authorization", s)])
             else ret [])
            = ret (bearer_headers authenticated c)).
  { unfold bearer_headers. destruct authenticated; [|reflexivity].
    destruct (Htok eq_refl) as (a & s & Ha). rewrite Ha. reflexivity. }
  unfold http_request.
  unfold bind at 1. unfold _LOGGER_debug at 1, emit at 1.
  unfold bind at 1. unfold self_client at 1. cbn [w_client with_log].
  unfold bind at 1. rewrite Hgate. unfold ret at 1.
  unfold bind at 1. rewrite Hhdr. unfold ret at 1.
  unfold exchanged, cleared, request_sent, session_in_use, fresh_session.
  cbn [w_client w_thermostat w_requests w_replies w_sessions w_log w_time].
  destruct Hmethod as [-> | [-> | [-> | ->]]];
    unfold bind, httpSess, self_client, session_send, _LOGGER_debug, emit,
      requests_Session, assign_client, clearToken, ret, raise;
    cbn -[error_msg status_is HTTP_SUCCESS_START HTTP_SUCCESS_END
          HTTP_FORBIDDEN_START HTTP_FORBIDDEN_END bearer_headers];
    destruct (_http_sess c) as [s0|];
    cbn -[error_msg status_is HTTP_SUCCESS_START HTTP_SUCCESS_END
          HTTP_FORBIDDEN_START HTTP_FORBIDDEN_END bearer_headers];
    destruct (status_is HTTP_SUCCESS_START HTTP_SUCCESS_END r);
    try reflexivity;
    destruct (status_is HTTP_FORBIDDEN_START HTTP_FORBIDDEN_END r);
    cbn -[error_msg bearer_headers];
    rewrite <- ?app_assoc; reflexivity.
Qed.

(** X1. A supported request that the server answers with a 2xx: the
    response is returned; exactly one operation went out, to the base URL
    followed by the path, with the body given, on the session in use, with
    the session's headers followed by [Authorization: Bearer <token>] when
    authenticated and by nothing otherwise; the session in use is the one
    the client holds afterwards, and the tokens and the thermostat are as
    before. *)
Theorem http_request_success (pkg : package) (method : string)
    (req_url : fstr) (body : pyval) (authenticated : bool)
    (w : World) (r : Response) (rest : list Response) :
  supported_method method ->
  (authenticated = true -> holds_token (w_client w)) ->
  w_replies w = r :: rest ->
  status_is HTTP_SUCCESS_START HTTP_SUCCESS_END r = true ->
  exists w',
    http_request pkg method req_url body authenticated w = (Return r, w')
    /\ w_requests w'
       = (w_requests w
          ++ [mkRequest method (Lit (_base_url (w_client w)) :: req_url)
                (sess_headers (session_in_use w)
                 ++ bearer_headers authenticated (w_client w))
                body (sess_id (session_in_use w))])%list
    /\ w_replies w' = rest
    /\ _http_sess (w_client w') = Some (session_in_use w)
    /\ _token (w_client w') = _token (w_client w)
    /\ _refreshToken (w_client w') = _refreshToken (w_client w)
    /\ w_thermostat w' = w_thermostat w.
Proof.
  intros Hm Ht Hrep H2xx.
  rewrite (http_request_exchange pkg method req_url body authenticated w r
             rest Hm Ht Hrep).
  cbv zeta. rewrite H2xx. eexists. split; [reflexivity|].
  unfold exchanged, request_sent, session_in_use. cbn.
  destruct (_http_sess (w_client w)) eqn:Hs; cbn; rewrite ?Hs; repeat split.
Qed.

Lemma http_request_success_witness :
  let w := demo_world [ok_reply] in
  exists w',
    http_request simple "GET" [Lit "user"] PNone true w = (Return ok_reply, w')
    /\ w_requests w'
       = [mkRequest "GET"
            [Lit "https://nve.ecofactor.com/ws/v1.0/"; Lit "user"]
            [("X-Requested-With", "XMLHttpRequest");
             ("Authorization", "Bearer tok-1")]
            PNone 0]
    /\ w_replies w' = []
    /\ _http_sess (w_client w') = Some demo_session
    /\ _token (w_client w') = PStr "tok-1"
    /\ _refreshToken (w_client w') = PStr "ref-1"
    /\ w_thermostat w' = demo_thermostat.
Proof.
  intros w.
  exact (http_request_success simple "GET" [Lit "user"] PNone true w ok_reply
           [] (or_introl eq_refl)
           (fun _ => ex_intro _ _ (ex_intro _ _ eq_refl)) eq_refl eq_refl).
Defined.



(** What one call of [http_request] can do to the requests, to the session
    handle and to the count of sessions, whatever its outcome. *)
Lemma http_request_footprint (pkg : package) (method : string)
    (req_url : fstr) (body : pyval) (authenticated : bool) (w : World) :
  let w' := snd (http_request pkg method req_url body authenticated w) in
  (w_requests w' = w_requests w
   \/ w_requests w'
      = (w_requests w
         ++ [request_sent method req_url body authenticated w])%list)
  /\ (_http_sess (w_client w') = None
      \/ _http_sess (w_client w') = Some (session_in_use w))
  /\ (w_sessions w' = w_sessions w
      \/ _http_sess (w_client w) = None
         /\ w_sessions w' = S (w_sessions w)).
Proof.
  cbv zeta.
  destruct w as [c t rq rp n lg tm].
  unfold http_request, bind, httpSess, self_client, session_send,
    _LOGGER_debug, emit, requests_Session, assign_client, clearToken, lift,
    ret, raise, request_sent, session_in_use, bearer_headers, fresh_session.
  cbn -[error_msg String.append].
  split_cases;
    repeat match goal with
      | H : String.eqb _ _ = true |- _ => apply String.eqb_eq in H; subst
      | H : py_len _ = _ |- _ => cbn in H; try discriminate H; clear H
      | H : py_str_add _ _ = _ |- _ =>
          cbn in H; try discriminate H; try injection H as <-
      end;
    (split; [either|]);
    (split; [first [either | right; assumption | left; assumption]|]);
    first [left; reflexivity | right; split; reflexivity
          | right; split; [assumption | reflexivity]].
Qed.

(** X3. Whatever its arguments, the world and the outcome, [http_request]
    performs at most one HTTP operation, and the one it performs is the
    request described by its arguments; it never touches the thermostat. *)
Theorem http_request_at_most_one (pkg : package) (method : string)
    (req_url : fstr) (body : pyval) (authenticated : bool) (w : World) :
  let w' := snd (http_request pkg method req_url body authenticated w) in
  (w_requests w' = w_requests w
   \/ w_requests w'
      = (w_requests w
         ++ [mkRequest method (Lit (_base_url (w_client w)) :: req_url)
               (sess_headers (session_in_use w)
                ++ bearer_headers authenticated (w_client w))
               body (sess_id (session_in_use w))])%list)
  /\ w_thermostat w' = w_thermostat w.
Proof.
  cbv zeta. split.
  - exact (proj1 (http_request_footprint pkg method req_url body
                    authenticated w)).
  - apply http_request_thermostat.
Qed.



(** X5. While the client holds a session, [http_request] never makes
    another one, whatever the outcome; the operation it sends, if any, goes
    out on the session held. *)
Theorem http_request_reuses_session (pkg : package) (method : string)
    (req_url : fstr) (body : pyval) (authenticated : bool) (w : World)
    (s : Session) :
  _http_sess (w_client w) = Some s ->
  let w' := snd (http_request pkg method req_url body authenticated w) in
  w_sessions w' = w_sessions w
  /\ (_http_sess (w_client w') = Some s \/ _http_sess (w_client w') = None)
  /\ forall rq, In rq (w_requests w') ->
       In rq (w_requests w) \/ rq_session rq = sess_id s.
Proof.
  intros Hs. cbv zeta.
  destruct (http_request_footprint pkg method req_url body authenticated w)
    as (Hrq & Hsess & Hn).
  cbv zeta in Hrq, Hsess, Hn.
  split; [|split].
  - destruct Hn as [H | [H _]]; [exact H | congruence].
  - destruct Hsess as [H | H].
    + right. exact H.
    + left. rewrite H. unfold session_in_use. rewrite Hs. reflexivity.
  - intros rq0 Hin. destruct Hrq as [H | H]; rewrite H in Hin.
    + left. exact Hin.
    + apply in_app_or in Hin. destruct Hin as [Hin | [<- | []]].
      * left. exact Hin.
      * right. unfold request_sent, session_in_use. rewrite Hs.
        reflexivity.
Qed.

Lemma http_request_reuses_session_witness :
  let w := demo_world [reply_500] in
  let w' := snd (http_request simple "GET" [Lit "user"] PNone true w) in
  _http_sess (w_client w) = Some demo_session
  /\ w_sessions w' = w_sessions w
  /\ (_http_sess (w_client w') = Some demo_session
      \/ _http_sess (w_client w') = None).
Proof.
  intros w w'.
  assert (Hs : _http_sess (w_client w) = Some demo_session) by reflexivity.
  destruct (http_request_reuses_session simple "GET" [Lit "user"] PNone true
              w demo_session Hs) as (H1 & H2 & _).
  split; [exact Hs|]. split; [exact H1 | exact H2].
Defined.

(** ** The token *)

Ltac run_getToken :=
  unfold getToken, bind, clearToken, httpSess, self_client, session_send,
    _LOGGER_debug, emit, requests_Session, assign_client, lift, ret, raise,
    token_request, digest_header, fresh_session;
  cbn -[error_msg status_is HTTP_SUCCESS_START HTTP_SUCCESS_END
        HTTP_FORBIDDEN_START HTTP_FORBIDDEN_END String.append py_getitem
        r_json_of].

(** X6. When the server answers the token POST with a 2xx whose body has
    [access_token], [user_id] and [refresh_token], [getToken] returns with
    the three stored in the client.  It sent one operation: a POST to the
    base URL followed by authenticate, carrying the DigestE header (with the
    realm Consumer) and the user name and encrypted password as body, on a
    session made for it, and no bearer token. *)
Theorem getToken_success (w : World) (r : Response) (rest : list Response)
    (r_json access user refresh : pyval) :
  w_replies w = r :: rest ->
  status_is HTTP_SUCCESS_START HTTP_SUCCESS_END r = true ->
  json r = Some r_json ->
  py_getitem r_json "access_token" = Return access ->
  py_getitem r_json "user_id" = Return user ->
  py_getitem r_json "refresh_token" = Return refresh ->
  exists w',
    getToken w = (Return tt, w')
    /\ _token (w_client w') = access
    /\ _userid (w_client w') = user
    /\ _refreshToken (w_client w') = refresh
    /\ _http_sess (w_client w') = Some (fresh_session w)
    /\ w_requests w' = (w_requests w ++ [token_request w])%list
    /\ w_replies w' = rest.
Proof.
  intros Hrep H2xx Hjson Ha Hu Hr.
  destruct w as [c t rq rp n lg tm]. simpl in Hrep. subst rp.
  run_getToken. rewrite H2xx. unfold r_json_of. rewrite Hjson.
  cbn -[py_getitem String.append]. rewrite Ha.
  cbn -[py_getitem String.append]. rewrite Hu.
  cbn -[py_getitem String.append]. rewrite Hr.
  cbn -[String.append].
  eexists. split; [reflexivity|]. cbn -[String.append]. repeat split.
Qed.

Lemma getToken_success_witness :
  exists w',
    getToken (demo_world [token_reply]) = (Return tt, w')
    /\ _token (w_client w') = PStr "tok-2"
    /\ _userid (w_client w') = PStr "u-2"
    /\ _refreshToken (w_client w') = PStr "ref-2"
    /\ _http_sess (w_client w')
       = Some (fresh_session (demo_world [token_reply]))
    /\ w_requests w' = [token_request (demo_world [token_reply])]
    /\ w_replies w' = [].
Proof.
  exact (getToken_success (demo_world [token_reply]) token_reply []
           _ _ _ _ eq_refl eq_refl eq_refl eq_refl eq_refl eq_refl).
Defined.

(** X7. When the 2xx answer to the token POST has an [access_token] but no
    readable [user_id], [getToken] raises the exception of that read with
    the new access token already stored, the refresh token empty and the
    user id of the previous login still in place. *)
Theorem getToken_partial_store (w : World) (r : Response)
    (rest : list Response) (r_json access : pyval) (e : exn) :
  w_replies w = r :: rest ->
  status_is HTTP_SUCCESS_START HTTP_SUCCESS_END r = true ->
  json r = Some r_json ->
  py_getitem r_json "access_token" = Return access ->
  py_getitem r_json "user_id" = Raise e ->
  exists w',
    getToken w = (Raise e, w')
    /\ _token (w_client w') = access
    /\ _refreshToken (w_client w') = PStr EmptyString
    /\ _userid (w_client w') = _userid (w_client w).
Proof.
  intros Hrep H2xx Hjson Ha Hu.
  destruct w as [c t rq rp n lg tm]. simpl in Hrep. subst rp.
  run_getToken. rewrite H2xx. unfold r_json_of. rewrite Hjson.
  cbn -[py_getitem String.append]. rewrite Ha.
  cbn -[py_getitem String.append]. rewrite Hu.
  cbn -[String.append].
  eexists. split; [reflexivity|]. cbn. repeat split.
Qed.

Lemma getToken_partial_store_witness :
  let r := reply 200 "{...}" (Some (PDict [("access_token", PStr "tok-2")])) in
  exists w',
    getToken (demo_world [r]) = (Raise (KeyError "user_id"), w')
    /\ _token (w_client w') = PStr "tok-2"
    /\ _refreshToken (w_client w') = PStr EmptyString
    /\ _userid (w_client w') = PStr "u-1".
Proof.
  intros r.
  exact (getToken_partial_store (demo_world [r]) r [] _ _ _
           eq_refl eq_refl eq_refl eq_refl eq_refl).
Defined.

(** The one operation of [getToken], whatever the server does. *)
Lemma getToken_request (w : World) :
  w_requests (snd (getToken w)) = (w_requests w ++ [token_request w])%list.
Proof.
  assert (Hemit : forall l m a, preserves w_requests (emit l m a))
    by (intros l m a w0; reflexivity).
  assert (Hc : forall f, preserves w_requests (assign_client f))
    by (intros f w0; reflexivity).
  destruct w as [c t rq rp n lg tm].
  unfold getToken.
  unfold bind at 1. unfold _LOGGER_debug at 1, emit at 1.
  unfold bind at 1. unfold clearToken, bind at 1 2, assign_client at 1 2 3.
  cbn [w_client w_log with_log with_client].
  unfold bind at 1. unfold self_client at 1.
  cbn [w_client with_client].
  unfold bind at 1. unfold httpSess at 1. unfold bind at 1.
  unfold self_client at 1.
  cbn [w_client with_client _http_sess upd_http_sess].
  unfold bind at 1. unfold requests_Session at 1.
  unfold bind at 1. unfold assign_client at 1. unfold ret at 1.
  cbn [w_client w_sessions with_sessions with_client sess_id sess_headers
       app].
  unfold bind at 1. unfold session_send at 1.
  cbn [w_requests w_replies with_requests with_replies with_client
       with_sessions with_log sess_id sess_headers app].
  unfold token_request, digest_header.
  cbn [w_client w_sessions w_requests _base_url _username _authinfo
       upd_http_sess upd_refreshToken upd_token].
  destruct rp as [|r rest].
  - reflexivity.
  - match goal with
    | |- w_requests (snd (?m ?w1)) = _ =>
        assert (Htail : preserves w_requests m)
    end.
    { unfold _LOGGER_debug.
      repeat first [frame_step | apply Hemit | apply Hc]. }
    rewrite (Htail _). reflexivity.
Qed.

(** X8. [authwithdetails] sends the token POST built from its arguments
    alone: user name, nonce, response and opaque value go into the DigestE
    header, whose realm is the constant Consumer whatever realm the client
    parsed, and user name and encrypted password make the body.  This holds
    whether or not the server answers. *)
Theorem authwithdetails_request (user encpass nonce resp opaque : string)
    (w : World) :
  w_requests (snd (authwithdetails user encpass nonce resp opaque w))
  = (w_requests w
     ++ [mkRequest "POST" [Lit (_base_url (w_client w) ++ "authenticate")]
           [("X-Requested-With", "XMLHttpRequest");
            ("Authorization", digest_header user nonce resp opaque)]
           (PDict [("username", PStr user); ("password", PStr encpass)])
           (w_sessions w)])%list.
Proof.
  destruct w as [c t rq rp n lg tm].
  unfold authwithdetails.
  unfold bind at 1 2 3 4 5. unfold assign_client at 1 2 3 4 5.
  cbn [w_client with_client].
  rewrite getToken_request. reflexivity.
Qed.

(** X9. Login, then use: after a [getToken] that stored a non-empty string
    as access token, the next authenticated [http_request] goes out on the
    session [getToken] made, and presents that very token as bearer. *)
Theorem getToken_then_request (pkg : package) (method : string)
    (req_url : fstr) (body : pyval) (w : World) (r r2 : Response)
    (rest : list Response) (r_json user refresh : pyval)
    (a : ascii) (tok : string) :
  supported_method method ->
  w_replies w = r :: r2 :: rest ->
  status_is HTTP_SUCCESS_START HTTP_SUCCESS_END r = true ->
  json r = Some r_json ->
  py_getitem r_json "access_token" = Return (PStr (String a tok)) ->
  py_getitem r_json "user_id" = Return user ->
  py_getitem r_json "refresh_token" = Return refresh ->
  w_requests
    (snd (bind getToken
            (fun _ => http_request pkg method req_url body true) w))
  = (w_requests w
     ++ [token_request w;
         mkRequest method (Lit (_base_url (w_client w)) :: req_url)
           [("X-Requested-With", "XMLHttpRequest");
            ("Authorization", ("Bearer " ++ String a tok)%string)]
           body (w_sessions w)])%list.
Proof.
  intros Hm Hrep H2xx Hjson Ha Hu Hr.
  destruct w as [c t rq rp n lg tm]. simpl in Hrep. subst rp.
  unfold bind at 1.
  assert (Hrun : exists w1,
             getToken (mkWorld c t rq (r :: r2 :: rest) n lg tm)
             = (Return tt, w1)
             /\ _token (w_client w1) = PStr (String a tok)
             /\ _http_sess (w_client w1) = Some (mkSession n
                  [("X-Requested-With", "XMLHttpRequest")])
             /\ _base_url (w_client w1) = _base_url c
             /\ w_requests w1
                = (rq ++ [token_request
                            (mkWorld c t rq (r :: r2 :: rest) n lg tm)])%list
             /\ w_replies w1 = r2 :: rest).
  { run_getToken. rewrite H2xx. unfold r_json_of. rewrite Hjson.
    cbn -[py_getitem String.append]. rewrite Ha.
    cbn -[py_getitem String.append]. rewrite Hu.
    cbn -[py_getitem String.append]. rewrite Hr.
    cbn -[String.append].
    eexists. split; [reflexivity|]. cbn -[String.append]. repeat split. }
  destruct Hrun as (w1 & -> & Htok & Hsess & Hbase & Hrq & Hrep).
  assert (Hheld : true = true -> holds_token (w_client w1))
    by (intros _; exists a, tok; exact Htok).
  rewrite (http_request_exchange pkg method req_url body true w1 r2 rest
             Hm Hheld Hrep).
  cbv zeta.
  assert (Hreq : w_requests
                   (exchanged method req_url body true r2 rest w1)
                 = (w_requests w1
                    ++ [mkRequest method (Lit (_base_url c) :: req_url)
                          [("X-Requested-With", "XMLHttpRequest");
                           ("Authorization",
                            ("Bearer " ++ String a tok)%string)]
                          body n])%list).
  { unfold exchanged, request_sent, session_in_use, bearer_headers.
    cbn [w_requests]. rewrite Hsess, Htok, Hbase. reflexivity. }
  destruct (status_is HTTP_SUCCESS_START HTTP_SUCCESS_END r2);
    [|destruct (status_is HTTP_FORBIDDEN_START HTTP_FORBIDDEN_END r2)];
    cbn [snd cleared with_client w_requests];
    rewrite Hreq, Hrq, <- app_assoc; reflexivity.
Qed.

Lemma getToken_then_request_witness :
  let w := demo_world [token_reply; ok_reply] in
  w_requests
    (snd (bind getToken
            (fun _ => http_request simple "GET" [Lit "user"] PNone true) w))
  = [token_request w;
     mkRequest "GET" [Lit "https://nve.ecofactor.com/ws/v1.0/"; Lit "user"]
       [("X-Requested-With", "XMLHttpRequest");
        ("Authorization", "Bearer tok-2")]
       PNone 1].
Proof.
  intros w.
  exact (getToken_then_request simple "GET" [Lit "user"] PNone w token_reply
           ok_reply [] _ _ _ _ _ (or_introl eq_refl) eq_refl eq_refl eq_refl
           eq_refl eq_refl eq_refl).
Defined.

(** * Further properties of the thermostat *)

(** An authenticated request without a token, as an equation. *)
Lemma http_request_no_token_run (pkg : package) (method : string)
    (req_url : fstr) (body : pyval) (w : World) :
  _token (w_client w) = PStr EmptyString ->
  http_request pkg method req_url body true w
  = (Raise no_token,
     with_log (w_log w ++ [request_logged method req_url body true]) w).
Proof.
  intros Htok.
  unfold http_request, bind, _LOGGER_debug, emit, self_client, lift, ret,
    raise.
  cbn [w_client with_log]. rewrite Htok. reflexivity.
Qed.

Lemma Qltb_ge (x y : Q) : Qltb x y = false <-> (y <= x)%Q.
Proof.
  unfold Qltb. rewrite negb_false_iff. apply Qle_bool_iff.
Qed.

Lemma in_range_test (temp : Q) (t : TheSimpleThermostat) :
  in_range temp t ->
  Qltb temp (_min_temp t) || Qltb (_max_temp t) temp = false.
Proof.
  intros [Hlo Hhi]. apply orb_false_iff. split; apply Qltb_ge; assumption.
Qed.

(** ** Arguments are checked before anything is done *)

(** X10. A mode [set_mode] does not know is refused with [TheSimpleError]
    and the world is left exactly as it was: nothing sent, nothing logged,
    nothing cached.  [HVACMode.AUTO] is known to the package [simple] and
    refused by the package [nvenergy]. *)
Theorem set_mode_rejects (pkg : package) (mode : string) (w : World) :
  accepted_mode pkg mode = false ->
  set_mode pkg mode w
  = (Raise (TheSimpleError [Lit "Invalid HVAC mode: "; Fmt (PStr mode)]), w).
Proof.
  unfold accepted_mode. intros H.
  apply orb_false_iff in H. destruct H as [H Hoff].
  apply orb_false_iff in H. destruct H as [H Hauto].
  apply orb_false_iff in H. destruct H as [Hcool Hheat].
  unfold set_mode, bind, raise. rewrite Hcool, Hheat, Hauto, Hoff.
  reflexivity.
Qed.

Lemma set_mode_rejects_witness :
  accepted_mode nvenergy HVACMode_AUTO = false
  /\ accepted_mode simple HVACMode_AUTO = true
  /\ set_mode nvenergy HVACMode_AUTO (demo_world [ok_reply])
     = (Raise (TheSimpleError [Lit "Invalid HVAC mode: ";
                               Fmt (PStr HVACMode_AUTO)]),
        demo_world [ok_reply]).
Proof.
  split; [reflexivity|]. split; [reflexivity|].
  exact (set_mode_rejects nvenergy HVACMode_AUTO (demo_world [ok_reply])
           eq_refl).
Defined.

(** X11. A fan mode other than [FAN_ON] and [FAN_AUTO], and a preset other
    than [PRESET_AWAY] and [PRESET_NONE], are refused with [TheSimpleError]
    and the world is left exactly as it was; for the preset this holds even
    when the thermostat is off, the check of the argument coming first. *)
Theorem fan_and_preset_reject (pkg : package)
    (float_of_str : string -> option Q) (fan preset : string) (w : World) :
  fan <> FAN_ON -> fan <> FAN_AUTO ->
  preset <> PRESET_AWAY -> preset <> PRESET_NONE ->
  set_fan_mode pkg fan w
  = (Raise (TheSimpleError [Lit "Invalid fan mode: "; Fmt (PStr fan)]), w)
  /\ set_preset_mode pkg float_of_str preset w
     = (Raise (TheSimpleError [Lit "Invalid HVAC mode: "; Fmt (PStr preset)]),
        w).
Proof.
  intros H1 H2 H3 H4.
  apply String.eqb_neq in H1, H2, H3, H4.
  split.
  - unfold set_fan_mode, bind, raise. rewrite H1, H2. reflexivity.
  - unfold set_preset_mode, raise. rewrite H3, H4. reflexivity.
Qed.

Lemma fan_and_preset_reject_witness :
  let w := with_thermostat off_thermostat (demo_world [ok_reply]) in
  set_fan_mode simple "low" w
  = (Raise (TheSimpleError [Lit "Invalid fan mode: "; Fmt (PStr "low")]), w)
  /\ set_preset_mode simple no_float_of_str "eco" w
     = (Raise (TheSimpleError [Lit "Invalid HVAC mode: "; Fmt (PStr "eco")]),
        w).
Proof.
  intros w.
  apply (fan_and_preset_reject simple no_float_of_str "low" "eco" w);
    discriminate.
Defined.

(** ** [set_fan_mode] and [set_mode] on the wire *)

(** X12. [set_fan_mode] updates the cache on success only: when it returns,
    the thermostat is the old one with the fan mode replaced by the
    argument; when it raises, for whatever reason, the thermostat is as it
    was. *)
Theorem set_fan_mode_on_success_only (pkg : package) (fan : string)
    (w w' : World) (o : outcome unit) :
  set_fan_mode pkg fan w = (o, w') ->
  w_thermostat w'
  = match o with
    | Return _ => upd_fan_mode (PStr fan) (w_thermostat w)
    | Raise _ => w_thermostat w
    end.
Proof.
  assert (Hsend : forall wire,
            bind (ret wire)
              (fun wire =>
                 bind self (fun t =>
                   bind (http_request pkg "PATCH" (state_url t)
                           (PDict [("fan_mode", PStr wire)]) true)
                     (fun _ => assign (upd_fan_mode (PStr fan))))) w
            = (o, w') ->
            w_thermostat w'
            = match o with
              | Return _ => upd_fan_mode (PStr fan) (w_thermostat w)
              | Raise _ => w_thermostat w
              end).
  { intros wire. unfold bind at 1. unfold ret at 1.
    unfold bind at 1. unfold self at 1. unfold bind at 1.
    pose proof (http_request_thermostat pkg "PATCH"
                  (state_url (w_thermostat w))
                  (PDict [("fan_mode", PStr wire)]) true w) as Ht.
    destruct (http_request pkg "PATCH" (state_url (w_thermostat w))
                (PDict [("fan_mode", PStr wire)]) true w) as [[r|e] w1];
      simpl in Ht.
    - unfold assign. intros [= <- <-]. cbn [w_thermostat with_thermostat].
      rewrite Ht. reflexivity.
    - intros [= <- <-]. exact Ht. }
  unfold set_fan_mode.
  destruct (String.eqb fan FAN_ON); [apply Hsend|].
  destruct (String.eqb fan FAN_AUTO); [apply Hsend|].
  unfold bind, raise. intros [= <- <-]. reflexivity.
Qed.

Lemma set_fan_mode_on_success_only_witness :
  let w := demo_world [ok_reply] in
  set_fan_mode simple FAN_ON w = (Return tt, snd (set_fan_mode simple FAN_ON w))
  /\ fan_mode (w_thermostat (snd (set_fan_mode simple FAN_ON w))) = PStr "on"
  /\ set_fan_mode simple FAN_ON (demo_world [reply_500])
     = (Raise (APIError (error_msg "Invalid HTTP response" reply_500)),
        snd (set_fan_mode simple FAN_ON (demo_world [reply_500])))
  /\ w_thermostat (snd (set_fan_mode simple FAN_ON (demo_world [reply_500])))
     = demo_thermostat.
Proof.
  intros w.
  assert (H1 : set_fan_mode simple FAN_ON w
               = (Return tt, snd (set_fan_mode simple FAN_ON w)))
    by reflexivity.
  assert (H2 : set_fan_mode simple FAN_ON (demo_world [reply_500])
               = (Raise (APIError (error_msg "Invalid HTTP response"
                                     reply_500)),
                  snd (set_fan_mode simple FAN_ON (demo_world [reply_500]))))
    by reflexivity.
  split; [exact H1|]. split.
  - rewrite (set_fan_mode_on_success_only simple FAN_ON w _ _ H1).
    reflexivity.
  - split; [exact H2|].
    exact (set_fan_mode_on_success_only simple FAN_ON _ _ _ H2).
Defined.

(** X13. For a mode [set_mode] knows, with a token held and the server
    answering, exactly one operation goes out: an authenticated PATCH of
    [thermostat/<id>/state] whose body is [{"hvac_mode": mode}], the mode
    going on the wire under the name the caller gave. *)
Theorem set_mode_request (pkg : package) (mode : string) (w : World)
    (r : Response) (rest : list Response) :
  accepted_mode pkg mode = true ->
  holds_token (w_client w) ->
  w_replies w = r :: rest ->
  w_requests (snd (set_mode pkg mode w))
  = (w_requests w
     ++ [mkRequest "PATCH"
           [Lit (_base_url (w_client w)); Lit "thermostat/";
            Fmt (thermostat_id (w_thermostat w)); Lit "/state"]
           (sess_headers (session_in_use w)
            ++ bearer_headers true (w_client w))
           (PDict [("hvac_mode", PStr mode)])
           (sess_id (session_in_use w))])%list.
Proof.
  intros Hacc Htok Hrep.
  assert (Hwire :
            exists k,
              set_mode pkg mode w
              = bind (http_request pkg "PATCH" (state_url (w_thermostat w))
                        (PDict [("hvac_mode", PStr mode)]) true) k w
              /\ forall x, preserves w_requests (k x)).
  { exists (fun _ => ret tt). split; [|intros x w0; reflexivity].
    unfold set_mode, accepted_mode in *.
    destruct (String.eqb_spec mode HVACMode_COOL) as [->|_]; [reflexivity|].
    destruct (String.eqb_spec mode HVACMode_HEAT) as [->|_]; [reflexivity|].
    destruct pkg.
    - destruct (String.eqb_spec mode HVACMode_AUTO) as [->|_]; [reflexivity|].
      destruct (String.eqb_spec mode HVACMode_OFF) as [->|_]; [reflexivity|].
      discriminate Hacc.
    - destruct (String.eqb_spec mode HVACMode_OFF) as [->|_]; [reflexivity|].
      discriminate Hacc. }
  destruct Hwire as (k & -> & Hk).
  unfold bind.
  rewrite (http_request_exchange pkg "PATCH" (state_url (w_thermostat w))
             (PDict [("hvac_mode", PStr mode)]) true w r rest
             (or_intror (or_introl eq_refl)) (fun _ => Htok) Hrep).
  cbv zeta.
  destruct (status_is HTTP_SUCCESS_START HTTP_SUCCESS_END r);
    [rewrite Hk
    |destruct (status_is HTTP_FORBIDDEN_START HTTP_FORBIDDEN_END r)];
    reflexivity.
Qed.

Lemma set_mode_request_witness :
  let w := demo_world [ok_reply] in
  w_requests (snd (set_mode simple HVACMode_AUTO w))
  = [mkRequest "PATCH"
       [Lit "https://nve.ecofactor.com/ws/v1.0/"; Lit "thermostat/";
        Fmt (PStr "t1"); Lit "/state"]
       [("X-Requested-With", "XMLHttpRequest");
        ("Authorization", "Bearer tok-1")]
       (PDict [("hvac_mode", PStr "auto")]) 0].
Proof.
  intros w.
  exact (set_mode_request simple HVACMode_AUTO w ok_reply [] eq_refl
           (ex_intro _ _ (ex_intro _ _ eq_refl)) eq_refl).
Defined.

(** ** [set_temp] in each mode *)

(** X14. With a temperature in range, [set_temp] does nothing when the
    cached mode is Off, and raises [TheSimpleError] when the cached mode is
    none of Cool, Heat and Off (an auto mode, or no mode yet); in both cases
    the world is left exactly as it was: no request, no change of a
    setpoint. *)
Theorem set_temp_other_modes (pkg : package) (temp : Q) (w : World) :
  in_range temp (w_thermostat w) ->
  py_eq_str (hvacMode (w_thermostat w)) HVACMode_COOL = false ->
  py_eq_str (hvacMode (w_thermostat w)) HVACMode_HEAT = false ->
  set_temp pkg temp w
  = (if py_eq_str (hvacMode (w_thermostat w)) HVACMode_OFF
     then Return tt
     else Raise (TheSimpleError
                   [Lit "set_temp: Unable to determine current HVAC Mode: ";
                    Fmt (hvacMode (w_thermostat w))]),
     w).
Proof.
  intros Hin Hcool Hheat.
  unfold set_temp, bind, self.
  rewrite (in_range_test _ _ Hin), Hcool, Hheat.
  destruct (py_eq_str (hvacMode (w_thermostat w)) HVACMode_OFF); reflexivity.
Qed.

Lemma set_temp_other_modes_witness :
  let w_off := with_thermostat off_thermostat (demo_world [ok_reply]) in
  let w_auto :=
    with_thermostat (upd_hvac_mode (PStr "auto") demo_thermostat)
      (demo_world [ok_reply]) in
  set_temp simple (70 # 1) w_off = (Return tt, w_off)
  /\ set_temp simple (70 # 1) w_auto
     = (Raise (TheSimpleError
                 [Lit "set_temp: Unable to determine current HVAC Mode: ";
                  Fmt (PStr "auto")]), w_auto).
Proof.
  intros w_off w_auto.
  assert (Hoff : in_range (70 # 1) (w_thermostat w_off))
    by (split; discriminate).
  assert (Hauto : in_range (70 # 1) (w_thermostat w_auto))
    by (split; discriminate).
  split.
  - exact (set_temp_other_modes simple (70 # 1) w_off Hoff eq_refl eq_refl).
  - exact (set_temp_other_modes simple (70 # 1) w_auto Hauto eq_refl eq_refl).
Defined.

(** X15. In Cool or Heat mode, with a temperature in range, a token held
    and a 2xx answer, [set_temp] returns; it sent one authenticated PATCH of
    [thermostat/<id>/state] whose body is the setpoint of the current mode
    alone, as the integer [int(temp)]; and the thermostat is the old one with
    that one setpoint replaced, the setpoint of the other mode untouched. *)
Theorem set_temp_success (pkg : package) (temp : Q) (w : World)
    (cool : bool) (r : Response) (rest : list Response) :
  in_range temp (w_thermostat w) ->
  hvacMode (w_thermostat w)
  = PStr (if cool then HVACMode_COOL else HVACMode_HEAT) ->
  holds_token (w_client w) ->
  w_replies w = r :: rest ->
  status_is HTTP_SUCCESS_START HTTP_SUCCESS_END r = true ->
  exists w',
    set_temp pkg temp w = (Return tt, w')
    /\ w_thermostat w' = with_setpoint cool (py_int temp) (w_thermostat w)
    /\ w_requests w'
       = (w_requests w
          ++ [mkRequest "PATCH"
                [Lit (_base_url (w_client w)); Lit "thermostat/";
                 Fmt (thermostat_id (w_thermostat w)); Lit "/state"]
                (sess_headers (session_in_use w)
                 ++ bearer_headers true (w_client w))
                (PDict [(if cool then "cool_setpoint" else "heat_setpoint",
                         PInt (py_int temp))])
                (sess_id (session_in_use w))])%list.
Proof.
  intros Hin Hmode Htok Hrep H2xx.
  unfold set_temp. unfold bind at 1. unfold self at 1.
  rewrite (in_range_test _ _ Hin).
  cbn [orb]. cbv zeta. rewrite Hmode.
  destruct w as [c t rq rp n lg tm]. simpl in Hrep, Htok. subst rp.
  destruct cool; cbn [py_eq_str String.eqb Ascii.eqb Bool.eqb HVACMode_COOL
                      HVACMode_HEAT];
    unfold bind at 1; unfold assign at 1;
    cbn [w_thermostat with_thermostat];
    unfold bind at 1;
    match goal with
    | |- context [http_request pkg "PATCH" ?u ?b true ?w1] =>
        rewrite (http_request_exchange pkg "PATCH" u b true w1 r rest
                   (or_intror (or_introl eq_refl)) (fun _ => Htok) eq_refl)
    end;
    cbv zeta; rewrite H2xx;
    unfold bind, self, assign, ret, exchanged, hvacMode;
    cbn [w_thermostat with_thermostat upd_cool_setpoint upd_heat_setpoint
         _hvac_mode];
    unfold hvacMode in Hmode; cbn [w_thermostat] in Hmode; rewrite Hmode;
    cbn [py_eq_str String.eqb Ascii.eqb Bool.eqb HVACMode_COOL
         HVACMode_HEAT];
    (eexists; split; [reflexivity|]);
    split; destruct t; reflexivity.
Qed.

Lemma set_temp_success_witness :
  let w := demo_world [ok_reply] in
  exists w',
    set_temp simple (759 # 10) w = (Return tt, w')
    /\ w_thermostat w' = upd_cool_setpoint (PInt 75) demo_thermostat
    /\ heat_setpoint (w_thermostat w') = PInt 68
    /\ w_requests w'
       = [mkRequest "PATCH"
            [Lit "https://nve.ecofactor.com/ws/v1.0/"; Lit "thermostat/";
             Fmt (PStr "t1"); Lit "/state"]
            [("X-Requested-With", "XMLHttpRequest");
             ("Authorization", "Bearer tok-1")]
            (PDict [("cool_setpoint", PInt 75)]) 0].
Proof.
  intros w.
  assert (Hin : in_range (759 # 10) (w_thermostat w))
    by (split; discriminate).
  destruct (set_temp_success simple (759 # 10) w true ok_reply [] Hin
              eq_refl (ex_intro _ _ (ex_intro _ _ eq_refl)) eq_refl eq_refl)
    as (w' & Hrun & Ht & Hrq).
  exists w'. split; [exact Hrun|]. split; [exact Ht|].
  split; [rewrite Ht; reflexivity | exact Hrq].
Defined.

(** [int(temp)] lies between zero and [temp], less than one away. *)
Lemma py_int_bounds (temp : Q) :
  (0 <= temp)%Q ->
  (inject_Z (py_int temp) <= temp /\ temp < inject_Z (py_int temp) + 1)%Q.
Proof.
  destruct temp as [n d]. unfold py_int, Qle, Qlt. simpl.
  intros Hn. rewrite Z.mul_1_r in Hn.
  pose proof (Z.quot_div_nonneg n (Zpos d) Hn (Pos2Z.is_pos d)) as Hq.
  rewrite Hq.
  pose proof (Z.mul_div_le n (Zpos d) (Pos2Z.is_pos d)) as Hlo.
  pose proof (Z.mul_succ_div_gt n (Zpos d) (Pos2Z.is_pos d)) as Hhi.
  split; nia.
Qed.

(** X16. The integer [set_temp] caches for a non-negative temperature in
    range never exceeds [maxTemp], but it may fall below [minTemp]: it is
    only known to be more than [minTemp - 1].  This is the value in the
    cache whether or not the PATCH succeeds. *)
Theorem set_temp_cached_bounds (pkg : package) (temp : Q) (w : World) :
  in_range temp (w_thermostat w) ->
  (0 <= temp)%Q ->
  py_eq_str (hvacMode (w_thermostat w)) HVACMode_COOL = true ->
  exists n,
    cool_setpoint (w_thermostat (snd (set_temp pkg temp w))) = PInt n
    /\ (inject_Z n <= maxTemp (w_thermostat w))%Q
    /\ (minTemp (w_thermostat w) - 1 < inject_Z n)%Q.
Proof.
  intros Hin Hpos Hcool.
  exists (py_int temp). split.
  - apply set_temp_cool_stores_first; [apply in_range_test; exact Hin|].
    exact Hcool.
  - destruct Hin as [Hlo Hhi]. destruct (py_int_bounds temp Hpos) as [H1 H2].
    unfold minTemp, maxTemp in *. split.
    + eapply Qle_trans; eassumption.
    + apply Qlt_minus_iff.
      assert (H : (_min_temp (w_thermostat w) < inject_Z (py_int temp) + 1)%Q)
        by (eapply Qle_lt_trans; eassumption).
      apply Qlt_minus_iff in H.
      setoid_replace (inject_Z (py_int temp)
                      + - (_min_temp (w_thermostat w) - 1))%Q
        with (inject_Z (py_int temp) + 1
              + - _min_temp (w_thermostat w))%Q by ring.
      exact H.
Qed.

Lemma set_temp_cached_bounds_witness :
  let t := upd_min_temp (505 # 10) demo_thermostat in
  let w := with_thermostat t (demo_world [ok_reply]) in
  cool_setpoint (w_thermostat (snd (set_temp simple (507 # 10) w))) = PInt 50
  /\ (inject_Z 50 < minTemp t)%Q
  /\ exists n,
       cool_setpoint (w_thermostat (snd (set_temp simple (507 # 10) w)))
       = PInt n
       /\ (inject_Z n <= maxTemp t)%Q
       /\ (minTemp t - 1 < inject_Z n)%Q.
Proof.
  intros t w.
  assert (Hin : in_range (507 # 10) (w_thermostat w))
    by (split; discriminate).
  assert (Hpos : (0 <= 507 # 10)%Q) by discriminate.
  split; [reflexivity|]. split; [reflexivity|].
  exact (set_temp_cached_bounds simple (507 # 10) w Hin Hpos eq_refl).
Defined.

(** ** Who writes which field *)

Lemma preserves_through {X A : Type} (f : TheSimpleThermostat -> X)
    (m : M A) :
  preserves w_thermostat m -> preserves (fun w => f (w_thermostat w)) m.
Proof. intros H w. cbv beta. rewrite H. reflexivity. Qed.

Lemma http_request_fields {X : Type} (f : TheSimpleThermostat -> X)
    pkg method req_url body authenticated :
  preserves (fun w => f (w_thermostat w))
    (http_request pkg method req_url body authenticated).
Proof. apply preserves_through. apply http_request_thermostat. Qed.

(** X17. The three readers write disjoint sets of fields, whatever the
    server answers and whether they return or raise: [refresh] leaves the
    identity, the capabilities (name, schedule mode, temperature range,
    supported modes) and the away setpoints as they were; [get_metadata]
    leaves the live state and the away setpoints as they were;
    [get_away_settings] leaves everything but the two away setpoints as it
    was. *)
Theorem readers_write_their_own_fields (pkg : package)
    (float_of_str : string -> option Q) :
  preserves static_fields (refresh pkg float_of_str)
  /\ preserves non_metadata_fields (get_metadata pkg float_of_str)
  /\ preserves non_away_fields (get_away_settings pkg float_of_str).
Proof.
  split; [|split].
  - unfold refresh, _LOGGER_debug, static_fields.
    repeat first
      [ frame_step
      | apply (http_request_fields
                 (fun t => (_thermostat_id t, _t_location_id t, _name t,
                            _schedule_mode t, _min_temp t, _max_temp t,
                            _supported_modes t, _away_cool_setpoint t,
                            _away_heat_setpoint t)))
      | intros ?w; reflexivity ].
  - unfold get_metadata, _LOGGER_debug, non_metadata_fields.
    repeat first
      [ frame_step
      | apply (http_request_fields
                 (fun t =>
                    (_thermostat_id t, _t_location_id t,
                     (_connected t, _setpoint_reason t, _current_temp t,
                      _hold_mode t, _fan_mode t, _fan_state t, _hvac_mode t,
                      _hvac_state t),
                     (_cool_setpoint t, _heat_setpoint t, _last_update t,
                      _away_details t, _preset_mode t),
                     _away_cool_setpoint t, _away_heat_setpoint t)))
      | intros ?w; reflexivity ].
  - unfold get_away_settings, non_away_fields.
    repeat first
      [ frame_step
      | apply (http_request_fields
                 (fun t =>
                    (_thermostat_id t, _t_location_id t,
                     (_connected t, _setpoint_reason t, _current_temp t,
                      _hold_mode t, _fan_mode t, _fan_state t, _hvac_mode t,
                      _hvac_state t),
                     (_cool_setpoint t, _heat_setpoint t, _last_update t,
                      _away_details t, _preset_mode t),
                     (_name t, _schedule_mode t, _min_temp t, _max_temp t,
                      _supported_modes t))))
      | intros ?w; reflexivity ].
Qed.

(** ** Presets *)

Lemma get_away_settings_preset pkg float_of_str :
  preserves (fun w => _preset_mode (w_thermostat w))
    (get_away_settings pkg float_of_str).
Proof.
  unfold get_away_settings.
  repeat first
    [ frame_step
    | apply (http_request_fields _preset_mode)
    | intros ?w; reflexivity ].
Qed.

(** X18. [set_preset_mode] changes the cached preset on success only:
    whenever it raises, at the check of the argument, while reading the away
    settings or at the PUT or DELETE, the cached preset is the one from
    before the call. *)
Theorem set_preset_mode_failure_keeps_preset (pkg : package)
    (float_of_str : string -> option Q) (preset : string) (w w' : World)
    (e : exn) :
  set_preset_mode pkg float_of_str preset w = (Raise e, w') ->
  preset_mode (w_thermostat w') = preset_mode (w_thermostat w).
Proof.
  unfold set_preset_mode, preset_mode.
  destruct (negb (String.eqb preset PRESET_AWAY
                  || String.eqb preset PRESET_NONE)).
  { unfold raise. intros [= <- <-]. reflexivity. }
  unfold bind at 1. unfold self at 1.
  destruct (py_eq_str (_hvac_mode (w_thermostat w)) "off").
  { unfold bind, _LOGGER_warning, emit, assign. intros H. discriminate H. }
  unfold bind at 1.
  pose proof (get_away_settings_preset pkg float_of_str w) as H1.
  destruct (get_away_settings pkg float_of_str w) as [[u|e1] w1];
    cbv beta in H1; simpl in H1.
  2: { intros [= <- <-]. exact H1. }
  unfold bind at 1. unfold self at 1.
  destruct (String.eqb preset PRESET_AWAY);
    [|destruct (String.eqb preset PRESET_NONE)].
  - unfold bind at 1.
    match goal with
    | |- context [http_request pkg ?m ?u ?b true w1] =>
        pose proof (http_request_fields _preset_mode pkg m u b true w1) as H2;
        destruct (http_request pkg m u b true w1) as [[r|e2] w2]
    end; cbv beta in H2; simpl in H2.
    + unfold assign. intros H. discriminate H.
    + intros [= <- <-]. rewrite H2. exact H1.
  - unfold bind at 1.
    match goal with
    | |- context [http_request pkg ?m ?u ?b true w1] =>
        pose proof (http_request_fields _preset_mode pkg m u b true w1) as H2;
        destruct (http_request pkg m u b true w1) as [[r|e2] w2]
    end; cbv beta in H2; simpl in H2.
    + unfold assign. intros H. discriminate H.
    + intros [= <- <-]. rewrite H2. exact H1.
  - unfold ret. intros H. discriminate H.
Qed.

Lemma set_preset_mode_failure_keeps_preset_witness :
  let w := demo_world [away_settings_reply; reply_500] in
  let run := set_preset_mode simple no_float_of_str PRESET_AWAY w in
  run = (Raise (APIError (error_msg "Invalid HTTP response" reply_500)),
         snd run)
  /\ map rq_method (w_requests (snd run)) = ["GET"; "PUT"]
  /\ preset_mode (w_thermostat (snd run)) = PStr PRESET_NONE.
Proof.
  intros w run.
  assert (Hrun : run
                 = (Raise (APIError (error_msg "Invalid HTTP response"
                                       reply_500)), snd run))
    by (vm_compute; reflexivity).
  split; [exact Hrun|]. split; [vm_compute; reflexivity|].
  rewrite (set_preset_mode_failure_keeps_preset simple no_float_of_str
             PRESET_AWAY w (snd run) _ Hrun).
  reflexivity.
Defined.



(** ** After a refresh *)

(** [refresh] on a decoded answer, as the run of [overwrite]. *)
Lemma refresh_run (pkg : package) (float_of_str : string -> option Q)
    (w w1 : World) (r : Response) (r_json : pyval) :
  http_request pkg "GET" (state_url (w_thermostat w)) PNone true w
  = (Return r, w1) ->
  json r = Some r_json ->
  (fst (refresh pkg float_of_str w),
   w_thermostat (snd (refresh pkg float_of_str w)))
  = overwrite (live_state float_of_str (w_time w)) r_json (w_thermostat w).
Proof.
  intros Hreq Hjson.
  pose proof (http_request_thermostat pkg "GET" (state_url (w_thermostat w))
                PNone true w) as Ht.
  pose proof (http_request_time pkg "GET" (state_url (w_thermostat w))
                PNone true w) as Hnow.
  rewrite Hreq in Ht, Hnow. simpl in Ht, Hnow.
  destruct (refresh pkg float_of_str w) as [o w'] eqn:Hrun.
  unfold refresh in Hrun.
  unfold bind at 1 in Hrun. unfold self at 1 in Hrun.
  unfold bind at 1 in Hrun. rewrite Hreq in Hrun.
  unfold bind at 1 in Hrun. unfold lift at 1, r_json_of at 1 in Hrun.
  rewrite Hjson in Hrun.
  rewrite <- Hrun, <- Ht, <- Hnow. clear Hrun Ht Hnow Hreq.
  destruct w1 as [c1 t1 rq1 rp1 n1 lg1 tm1].
  unfold live_state, nested, away_end, away_preset, then_.
  unfold bind, lift, self, assign, time_time, _LOGGER_debug, emit, ret.
  cbn [fst snd w_thermostat w_client w_requests w_replies w_sessions
       w_log w_time with_thermostat with_log overwrite extract store].
  split_goal; reflexivity.
Qed.

(** A [refresh] that returns got through all of the live state. *)
Lemma refresh_returns (pkg : package) (float_of_str : string -> option Q)
    (w w' : World) :
  refresh pkg float_of_str w = (Return tt, w') ->
  exists r_json,
    overwrite (live_state float_of_str (w_time w)) r_json (w_thermostat w)
    = (Return tt, w_thermostat w').
Proof.
  intros Hrun.
  destruct (http_request pkg "GET" (state_url (w_thermostat w)) PNone true w)
    as [[r|e] w1] eqn:Hreq.
  - destruct (json r) as [r_json|] eqn:Hjson.
    + exists r_json.
      rewrite <- (refresh_run pkg float_of_str w w1 r r_json Hreq Hjson).
      rewrite Hrun. reflexivity.
    + exfalso. unfold refresh, bind, self in Hrun. rewrite Hreq in Hrun.
      unfold lift, r_json_of in Hrun. rewrite Hjson in Hrun.
      discriminate Hrun.
  - exfalso. unfold refresh, bind, self in Hrun. rewrite Hreq in Hrun.
    discriminate Hrun.
Qed.

Lemma py_round1_tenths (x : Q) : Qden (py_round1 x) = 10%positive.
Proof.
  destruct x as [n d]. unfold py_round1.
  destruct (2 * ((10 * n) mod Zpos d) ?= Zpos d);
    [destruct (Z.odd (10 * n / Zpos d))| |]; reflexivity.
Qed.

(** X20. After a [refresh] that returns, the cached preset is Away or None,
    and None only with no away details cached; the cached current
    temperature is a float on a tenth; and the time of the last update is
    the clock reading of the call. *)
Theorem refresh_result (pkg : package) (float_of_str : string -> option Q)
    (w w' : World) :
  refresh pkg float_of_str w = (Return tt, w') ->
  (preset_mode (w_thermostat w') = PStr PRESET_AWAY
   \/ preset_mode (w_thermostat w') = PStr PRESET_NONE
      /\ _away_details (w_thermostat w') = PNone)
  /\ (exists q, current_temp (w_thermostat w') = PFloat q
                /\ Qden q = 10%positive)
  /\ last_update (w_thermostat w') = PFloat (w_time w).
Proof.
  intros Hrun.
  destruct (refresh_returns pkg float_of_str w w' Hrun) as [r_json Hover].
  destruct (live_state_overwritten float_of_str (w_time w) r_json
              (w_thermostat w) (w_thermostat w') Hover)
    as (_ & _ & Htemp & _ & _ & _ & _ & _ & _ & _ & Hlast & Hend & Hpre & _).
  split; [|split].
  - unfold away_end, away_preset, then_ in Hend, Hpre.
    destruct (py_getitem r_json "away_details") as [a|e];
      [|discriminate Hpre].
    destruct (py_contains "end_ts" a) as [[|]|e]; [| |discriminate Hpre].
    + left. injection Hpre as <-. reflexivity.
    + right. injection Hpre as <-. injection Hend as <-.
      split; reflexivity.
  - unfold then_ in Htemp.
    destruct (nested "temperature" r_json) as [v|e]; [|discriminate Htemp].
    destruct (py_float float_of_str v) as [x|e]; [|discriminate Htemp].
    injection Htemp as <-.
    exists (py_round1 x). split; [reflexivity | apply py_round1_tenths].
  - exact Hlast.
Qed.

Lemma refresh_result_witness :
  let w := demo_world [full_reply] in
  let w' := snd (refresh simple no_float_of_str w) in
  refresh simple no_float_of_str w = (Return tt, w')
  /\ (preset_mode (w_thermostat w') = PStr PRESET_AWAY
      \/ preset_mode (w_thermostat w') = PStr PRESET_NONE
         /\ _away_details (w_thermostat w') = PNone)
  /\ (exists q, current_temp (w_thermostat w') = PFloat q
                /\ Qden q = 10%positive)
  /\ last_update (w_thermostat w') = PFloat (w_time w).
Proof.
  intros w w'.
  assert (Hrun : refresh simple no_float_of_str w = (Return tt, w'))
    by (vm_compute; reflexivity).
  split; [exact Hrun|].
  exact (refresh_result simple no_float_of_str w w' Hrun).
Defined.

(** ** Without a token *)

(** X21. With no token held, each operation that talks to the server on
    behalf of the thermostat fails at once with [AuthError]: [refresh],
    [get_metadata], [get_away_settings], [set_fan_mode] and [set_mode] (for
    arguments they accept) send nothing and leave the thermostat, the
    client and the pending answers as they were. *)
Theorem operations_need_a_token (pkg : package)
    (float_of_str : string -> option Q) (fan mode : string) (w : World) :
  _token (w_client w) = PStr EmptyString ->
  fan = FAN_ON \/ fan = FAN_AUTO ->
  accepted_mode pkg mode = true ->
  let unchanged (run : outcome unit * World) :=
    fst run = Raise no_token
    /\ w_requests (snd run) = w_requests w
    /\ w_replies (snd run) = w_replies w
    /\ w_client (snd run) = w_client w
    /\ w_thermostat (snd run) = w_thermostat w in
  unchanged (refresh pkg float_of_str w)
  /\ unchanged (get_metadata pkg float_of_str w)
  /\ unchanged (get_away_settings pkg float_of_str w)
  /\ unchanged (set_fan_mode pkg fan w)
  /\ unchanged (set_mode pkg mode w).
Proof.
  intros Htok Hfan Hmode. cbv zeta.
  repeat split;
    try (unfold refresh, get_metadata, get_away_settings, bind, self;
         rewrite (http_request_no_token_run pkg _ _ _ w Htok); reflexivity).
  all: try (destruct Hfan as [-> | ->];
            unfold set_fan_mode, bind, self, ret;
            cbn [String.eqb Ascii.eqb Bool.eqb FAN_ON FAN_AUTO];
            rewrite (http_request_no_token_run pkg _ _ _ w Htok);
            reflexivity).
  all: unfold accepted_mode in Hmode; unfold set_mode;
    destruct (String.eqb mode HVACMode_COOL);
    [|destruct (String.eqb mode HVACMode_HEAT);
      [|destruct pkg;
        [destruct (String.eqb mode HVACMode_AUTO);
         [|destruct (String.eqb mode HVACMode_OFF); [|discriminate Hmode]]
        |destruct (String.eqb mode HVACMode_OFF); [|discriminate Hmode]]]];
    unfold bind, self, ret;
    rewrite (http_request_no_token_run _ _ _ _ w Htok); reflexivity.
Qed.

Lemma operations_need_a_token_witness :
  let w := with_client (upd_token (PStr EmptyString) demo_client)
             (demo_world [ok_reply]) in
  fst (refresh simple no_float_of_str w) = Raise no_token
  /\ w_requests (snd (refresh simple no_float_of_str w)) = []
  /\ fst (set_mode simple HVACMode_HEAT w) = Raise no_token
  /\ w_requests (snd (set_mode simple HVACMode_HEAT w)) = [].
Proof.
  intros w.
  destruct (operations_need_a_token simple no_float_of_str FAN_ON
              HVACMode_HEAT w eq_refl (or_introl eq_refl) eq_refl)
    as ((H1 & H2 & _) & _ & _ & _ & (H3 & H4 & _)).
  split; [exact H1|]. split; [exact H2|]. split; [exact H3 | exact H4].
Defined.

(** * The retry loop of the entity *)

(** ** What [refresh] and [getToken] leave of the world *)

(** Past its request, [refresh] touches the thermostat and the log only. *)
Lemma refresh_after_request {X : Type} (proj : World -> X)
    (pkg : package) (float_of_str : string -> option Q) (w : World) :
  (forall f, preserves proj (assign f)) ->
  (forall level msg args, preserves proj (emit level msg args)) ->
  proj (snd (refresh pkg float_of_str w))
  = proj (snd (http_request pkg "GET" (state_url (w_thermostat w)) PNone
                 true w)).
Proof.
  intros Hassign Hemit.
  unfold refresh. unfold bind at 1. unfold self at 1. unfold bind at 1.
  destruct (http_request pkg "GET" (state_url (w_thermostat w)) PNone true w)
    as [[r|e] w1]; [|reflexivity].
  cbn [snd].
  match goal with
  | |- proj (snd (?m w1)) = _ => assert (Htail : preserves proj m)
  end.
  { unfold _LOGGER_debug.
    repeat first [frame_step | apply Hassign | apply Hemit]. }
  apply Htail.
Qed.

Lemma refresh_raises (pkg : package) (float_of_str : string -> option Q)
    (w w1 : World) (e : exn) :
  http_request pkg "GET" (state_url (w_thermostat w)) PNone true w
  = (Raise e, w1) ->
  refresh pkg float_of_str w = (Raise e, w1).
Proof.
  intros H. unfold refresh, bind, self. rewrite H. reflexivity.
Qed.

(** A [refresh] whose request is answered with a body that decodes: the
    outcome and the thermostat are those of [overwrite], the rest of the
    world is as the request left it. *)
Lemma refresh_decoded (pkg : package) (float_of_str : string -> option Q)
    (w w1 : World) (r : Response) (r_json : pyval) (o : outcome unit)
    (t' : TheSimpleThermostat) :
  http_request pkg "GET" (state_url (w_thermostat w)) PNone true w
  = (Return r, w1) ->
  json r = Some r_json ->
  overwrite (live_state float_of_str (w_time w)) r_json (w_thermostat w)
  = (o, t') ->
  exists w2,
    refresh pkg float_of_str w = (o, w2)
    /\ w_thermostat w2 = t'
    /\ w_client w2 = w_client w1
    /\ w_requests w2 = w_requests w1
    /\ w_replies w2 = w_replies w1.
Proof.
  intros Hreq Hjson Hover.
  pose proof (refresh_run pkg float_of_str w w1 r r_json Hreq Hjson) as Hrun.
  rewrite Hover in Hrun.
  pose proof (refresh_after_request w_client pkg float_of_str w
                (fun f w0 => eq_refl) (fun l m a w0 => eq_refl)) as Hc.
  pose proof (refresh_after_request w_requests pkg float_of_str w
                (fun f w0 => eq_refl) (fun l m a w0 => eq_refl)) as Hrq.
  pose proof (refresh_after_request w_replies pkg float_of_str w
                (fun f w0 => eq_refl) (fun l m a w0 => eq_refl)) as Hrp.
  rewrite Hreq in Hc, Hrq, Hrp. cbn [snd] in Hc, Hrq, Hrp.
  destruct (refresh pkg float_of_str w) as [o2 w2].
  cbn [fst snd] in *. injection Hrun as Ho Ht. subst o2.
  exists w2. repeat split; assumption.
Qed.

(** The state read answered by a 2xx whose body decodes. *)
Lemma refresh_answered (pkg : package) (float_of_str : string -> option Q)
    (w : World) (r : Response) (rest : list Response) (r_json : pyval)
    (o : outcome unit) (t' : TheSimpleThermostat) :
  holds_token (w_client w) ->
  w_replies w = r :: rest ->
  status_is HTTP_SUCCESS_START HTTP_SUCCESS_END r = true ->
  json r = Some r_json ->
  overwrite (live_state float_of_str (w_time w)) r_json (w_thermostat w)
  = (o, t') ->
  exists w2,
    refresh pkg float_of_str w = (o, w2)
    /\ w_thermostat w2 = t'
    /\ _token (w_client w2) = _token (w_client w)
    /\ w_requests w2
       = (w_requests w
          ++ [request_sent "GET" (state_url (w_thermostat w)) PNone true
                w])%list
    /\ w_replies w2 = rest.
Proof.
  intros Htok Hrep H2xx Hjson Hover.
  pose proof (http_request_exchange pkg "GET" (state_url (w_thermostat w))
                PNone true w r rest (or_introl eq_refl) (fun _ => Htok) Hrep)
    as Hreq.
  cbv zeta in Hreq. rewrite H2xx in Hreq.
  destruct (refresh_decoded pkg float_of_str w _ r r_json o t' Hreq Hjson
              Hover) as (w2 & Hrun & Ht & Hc & Hrq & Hrp).
  exists w2. split; [exact Hrun|]. split; [exact Ht|].
  rewrite Hc, Hrq, Hrp. unfold exchanged.
  cbn [w_client w_requests w_replies].
  destruct (_http_sess (w_client w)); repeat split.
Qed.

(** The state read answered by a 401. *)
Lemma refresh_forbidden (pkg : package) (float_of_str : string -> option Q)
    (w : World) (r : Response) (rest : list Response) :
  holds_token (w_client w) ->
  w_replies w = r :: rest ->
  status_is HTTP_SUCCESS_START HTTP_SUCCESS_END r = false ->
  status_is HTTP_FORBIDDEN_START HTTP_FORBIDDEN_END r = true ->
  exists w1,
    refresh pkg float_of_str w
    = (Raise (APIError (error_msg "HTTP response forbidden" r)), w1)
    /\ _token (w_client w1) = PStr EmptyString
    /\ _base_url (w_client w1) = _base_url (w_client w)
    /\ w_thermostat w1 = w_thermostat w
    /\ w_time w1 = w_time w
    /\ w_requests w1
       = (w_requests w
          ++ [request_sent "GET" (state_url (w_thermostat w)) PNone true
                w])%list
    /\ w_replies w1 = rest.
Proof.
  intros Htok Hrep H2xx H401.
  pose proof (http_request_exchange pkg "GET" (state_url (w_thermostat w))
                PNone true w r rest (or_introl eq_refl) (fun _ => Htok) Hrep)
    as Hreq.
  cbv zeta in Hreq. rewrite H2xx, H401 in Hreq.
  eexists. split; [exact (refresh_raises pkg float_of_str w _ _ Hreq)|].
  unfold cleared, exchanged.
  cbn [w_client w_thermostat w_time w_requests w_replies with_client].
  destruct (_http_sess (w_client w)); repeat split.
Qed.

Lemma getToken_time : preserves w_time getToken.
Proof.
  assert (Hsend : forall sess m u b h,
             preserves w_time (session_send sess m u b h)).
  { intros sess m u b h w. unfold session_send.
    destruct (w_replies w); reflexivity. }
  assert (Hemit : forall l m a, preserves w_time (emit l m a))
    by (intros l m a w; reflexivity).
  assert (Hc : forall f, preserves w_time (assign_client f))
    by (intros f w; reflexivity).
  assert (Hs : preserves w_time requests_Session) by (intros w; reflexivity).
  unfold getToken, httpSess, clearToken, _LOGGER_debug.
  repeat first [frame_step | apply Hsend | apply Hemit | apply Hc | apply Hs].
Qed.

(** A [getToken] that the server answers with the three values. *)
Lemma getToken_stores (w : World) (r : Response) (rest : list Response)
    (r_json access user refresh : pyval) :
  w_replies w = r :: rest ->
  status_is HTTP_SUCCESS_START HTTP_SUCCESS_END r = true ->
  json r = Some r_json ->
  py_getitem r_json "access_token" = Return access ->
  py_getitem r_json "user_id" = Return user ->
  py_getitem r_json "refresh_token" = Return refresh ->
  exists w',
    getToken w = (Return tt, w')
    /\ _token (w_client w') = access
    /\ _userid (w_client w') = user
    /\ _refreshToken (w_client w') = refresh
    /\ _http_sess (w_client w') = Some (fresh_session w)
    /\ _base_url (w_client w') = _base_url (w_client w)
    /\ w_requests w' = (w_requests w ++ [token_request w])%list
    /\ w_replies w' = rest
    /\ w_thermostat w' = w_thermostat w
    /\ w_time w' = w_time w.
Proof.
  intros Hrep H2xx Hjson Ha Hu Hr.
  destruct w as [c t rq rp n lg tm]. simpl in Hrep. subst rp.
  run_getToken. rewrite H2xx. unfold r_json_of. rewrite Hjson.
  cbn -[py_getitem String.append]. rewrite Ha.
  cbn -[py_getitem String.append]. rewrite Hu.
  cbn -[py_getitem String.append]. rewrite Hr.
  cbn -[String.append].
  eexists. split; [reflexivity|]. cbn -[String.append]. repeat split.
Qed.

(** ** Three refusals *)

Lemma carries_on_state_read (w w1 : World) :
  carries_on w w1 -> state_read w1 = state_read w.
Proof.
  intros (Ht & _ & Hb & Htok & Hs).
  unfold state_read, request_sent, session_in_use, bearer_headers.
  rewrite Ht, Hb, Htok, Hs. reflexivity.
Qed.

Lemma carries_on_token (w w1 : World) :
  carries_on w w1 -> holds_token (w_client w) -> holds_token (w_client w1).
Proof.
  intros (_ & _ & _ & Htok & _) (a & s & Ha). exists a, s.
  rewrite Htok. exact Ha.
Qed.

Lemma carries_on_trans (w w1 w2 : World) :
  carries_on w w1 -> carries_on w1 w2 -> carries_on w w2.
Proof.
  intros (Ht & Hn & Hb & Htok & Hs) (Ht' & Hn' & Hb' & Htok' & Hs').
  unfold carries_on.
  rewrite Ht', Hn', Hb', Htok', Hs'. unfold session_in_use at 1.
  rewrite Hs. repeat split; assumption.
Qed.

(** One turn of the loop of [simple] on a refused state read. *)
Lemma update_loop_refused (float_of_str : string -> option Q)
    (str : exn -> fstr) (retries : nat) (w : World) (r : Response)
    (rest : list Response) :
  holds_token (w_client w) ->
  w_replies w = r :: rest ->
  refused r ->
  exists w1,
    update_loop simple float_of_str str (S retries) w
    = update_loop simple float_of_str str retries w1
    /\ carries_on w w1
    /\ w_replies w1 = rest
    /\ w_requests w1 = (w_requests w ++ [state_read w])%list.
Proof.
  intros Htok Hrep [H2xx H401].
  pose proof (http_request_exchange simple "GET" (state_url (w_thermostat w))
                PNone true w r rest (or_introl eq_refl) (fun _ => Htok) Hrep)
    as Hreq.
  cbv zeta in Hreq. rewrite H2xx, H401 in Hreq.
  pose proof (refresh_raises simple float_of_str w _ _ Hreq) as Hrefresh.
  cbn [update_loop]. unfold bind at 1. unfold simple_pass.
  rewrite Hrefresh.
  cbn [isinstance_AuthError isinstance_APIError].
  unfold bind, _LOGGER_warning, _LOGGER_debug, emit, ret.
  eexists. split; [reflexivity|].
  unfold carries_on, exchanged, state_read, session_in_use.
  cbn [w_thermostat w_time w_client w_replies w_requests with_log].
  destruct (_http_sess (w_client w)) eqn:Hs; cbn; rewrite ?Hs;
    repeat split.
Qed.

(** X22. Three answers in a row that are neither a success nor a 401 use
    up the retries of the package [simple]: [async_update] raises
    [SimpleThermostatError], having sent the same state read three times
    and nothing else; it never asked for a new token, and the token and the
    thermostat are as before. *)
Theorem async_update_gives_up (float_of_str : string -> option Q)
    (str : exn -> fstr) (w : World) (r1 r2 r3 : Response)
    (rest : list Response) :
  holds_token (w_client w) ->
  w_replies w = r1 :: r2 :: r3 :: rest ->
  refused r1 -> refused r2 -> refused r3 ->
  exists w',
    async_update simple float_of_str str w
    = (Failed (SimpleThermostatError "Refresh failed after three attempts."),
       w')
    /\ w_requests w'
       = (w_requests w ++ [state_read w; state_read w; state_read w])%list
    /\ w_replies w' = rest
    /\ w_thermostat w' = w_thermostat w
    /\ _token (w_client w') = _token (w_client w).
Proof.
  intros Htok Hrep H1 H2 H3.
  unfold async_update. unfold bind at 1.
  unfold _LOGGER_debug at 1, emit at 1.
  set (w0 := with_log _ w).
  destruct (update_loop_refused float_of_str str 2 w0 r1 (r2 :: r3 :: rest)
              Htok Hrep H1) as (w1 & -> & C1 & Hrep1 & Hrq1).
  destruct (update_loop_refused float_of_str str 1 w1 r2 (r3 :: rest)
              (carries_on_token w0 w1 C1 Htok) Hrep1 H2)
    as (w2 & -> & C2 & Hrep2 & Hrq2).
  destruct (update_loop_refused float_of_str str 0 w2 r3 rest
              (carries_on_token w1 w2 C2 (carries_on_token w0 w1 C1 Htok))
              Hrep2 H3)
    as (w3 & -> & C3 & Hrep3 & Hrq3).
  cbn [update_loop]. unfold ret.
  exists w3. split; [reflexivity|].
  pose proof (carries_on_trans w0 w1 w2 C1 C2) as C02.
  pose proof (carries_on_trans w0 w2 w3 C02 C3) as C03.
  destruct C03 as (Ht & _ & _ & Htk & _).
  split; [|split; [exact Hrep3 | split; [exact Ht | exact Htk]]].
  rewrite Hrq3, Hrq2, Hrq1.
  rewrite (carries_on_state_read w1 w2 C2), (carries_on_state_read w0 w1 C1).
  rewrite <- !app_assoc. reflexivity.
Qed.

Lemma async_update_gives_up_witness :
  let w := demo_world [reply_500; reply_500; reply_500] in
  exists w',
    async_update simple no_float_of_str str_demo w
    = (Failed (SimpleThermostatError "Refresh failed after three attempts."),
       w')
    /\ w_requests w' = [state_read w; state_read w; state_read w]
    /\ w_replies w' = []
    /\ w_thermostat w' = demo_thermostat
    /\ _token (w_client w') = PStr "tok-1".
Proof.
  intros w.
  assert (H : refused reply_500) by (split; reflexivity).
  exact (async_update_gives_up no_float_of_str str_demo w reply_500 reply_500
           reply_500 [] (ex_intro _ _ (ex_intro _ _ eq_refl)) eq_refl H H H).
Defined.

(** ** One 401 *)

Lemma refresh_without_token (pkg : package)
    (float_of_str : string -> option Q) (w : World) :
  _token (w_client w) = PStr EmptyString ->
  refresh pkg float_of_str w
  = (Raise no_token,
     with_log (w_log w
               ++ [request_logged "GET" (state_url (w_thermostat w)) PNone
                     true]) w).
Proof.
  intros Htok. apply refresh_raises.
  exact (http_request_no_token_run pkg "GET" _ PNone w Htok).
Qed.

(** From the world a 401 left behind (no token, answers pending) to the
    end of the loop: [getToken], then a state read that succeeds. *)
Lemma relogin_then_read (pkg : package) (float_of_str : string -> option Q)
    (w : World) (rtok rstate : Response) (rest : list Response)
    (jt user rtoken js : pyval) (a : ascii) (tok : string)
    (t' : TheSimpleThermostat) (k : World -> World) :
  (forall w0, w_requests (k w0) = w_requests w0
              /\ w_replies (k w0) = w_replies w0
              /\ w_client (k w0) = w_client w0
              /\ w_thermostat (k w0) = w_thermostat w0
              /\ w_time (k w0) = w_time w0) ->
  w_replies w = rtok :: rstate :: rest ->
  status_is HTTP_SUCCESS_START HTTP_SUCCESS_END rtok = true ->
  json rtok = Some jt ->
  py_getitem jt "access_token" = Return (PStr (String a tok)) ->
  py_getitem jt "user_id" = Return user ->
  py_getitem jt "refresh_token" = Return rtoken ->
  status_is HTTP_SUCCESS_START HTTP_SUCCESS_END rstate = true ->
  json rstate = Some js ->
  overwrite (live_state float_of_str (w_time w)) js (w_thermostat w)
  = (Return tt, t') ->
  exists w1 w2 post,
    getToken w = (Return tt, w1)
    /\ refresh pkg float_of_str (k w1) = (Return tt, w2)
    /\ w_thermostat w2 = t'
    /\ _token (w_client w2) = PStr (String a tok)
    /\ w_replies w2 = rest
    /\ rq_method post = "POST"
    /\ rq_url post = [Lit (_base_url (w_client w) ++ "authenticate")]
    /\ w_requests w2
       = (w_requests w
          ++ [post;
              mkRequest "GET"
                (Lit (_base_url (w_client w)) :: state_url (w_thermostat w))
                [("X-Requested-With", "XMLHttpRequest");
                 ("Authorization", ("Bearer " ++ String a tok)%string)]
                PNone (rq_session post)])%list.
Proof.
  intros Hk Hrep H2 Hjt Ha Hu Hr H3 Hjs Hover.
  destruct (getToken_stores w rtok (rstate :: rest) jt _ _ _ Hrep H2 Hjt Ha
              Hu Hr)
    as (w1 & Hrun & Htok & _ & _ & Hsess & Hbase & Hrq & Hrep1 & Ht & Hnow).
  destruct (Hk w1) as (Kq & Kp & Kc & Kt & Kn).
  assert (Hheld : holds_token (w_client (k w1))).
  { exists a, tok. rewrite Kc. exact Htok. }
  assert (Hrepk : w_replies (k w1) = rstate :: rest)
    by (rewrite Kp; exact Hrep1).
  assert (Hoverk : overwrite (live_state float_of_str (w_time (k w1))) js
                     (w_thermostat (k w1)) = (Return tt, t')).
  { rewrite Kn, Kt, Hnow, Ht. exact Hover. }
  destruct (refresh_answered pkg float_of_str (k w1) rstate rest js
              (Return tt) t' Hheld Hrepk H3 Hjs Hoverk)
    as (w2 & Hrun2 & Ht2 & Htok2 & Hrq2 & Hrep2).
  exists w1, w2, (token_request w).
  split; [exact Hrun|]. split; [exact Hrun2|]. split; [exact Ht2|].
  split; [rewrite Htok2, Kc; exact Htok|]. split; [exact Hrep2|].
  split; [reflexivity|]. split; [reflexivity|].
  rewrite Hrq2, Kq, Hrq, <- app_assoc.
  unfold request_sent, session_in_use, bearer_headers.
  rewrite Kc, Kt, Hsess, Htok, Hbase, Ht. reflexivity.
Qed.

(** X23. One 401 on the state read is recovered from, in both packages:
    when the server then grants a token and answers the next state read
    with a complete body, [async_update] returns with the thermostat
    refreshed from that body and the new token stored.  It sent three
    operations: the state read that was refused, one token POST, and one
    state read presenting the new token on the session of that POST. *)
Theorem async_update_recovers (pkg : package)
    (float_of_str : string -> option Q) (str : exn -> fstr) (w : World)
    (r401 rtok rstate : Response) (rest : list Response)
    (jt user rtoken js : pyval) (a : ascii) (tok : string)
    (t' : TheSimpleThermostat) :
  holds_token (w_client w) ->
  w_replies w = r401 :: rtok :: rstate :: rest ->
  status_is HTTP_SUCCESS_START HTTP_SUCCESS_END r401 = false ->
  status_is HTTP_FORBIDDEN_START HTTP_FORBIDDEN_END r401 = true ->
  status_is HTTP_SUCCESS_START HTTP_SUCCESS_END rtok = true ->
  json rtok = Some jt ->
  py_getitem jt "access_token" = Return (PStr (String a tok)) ->
  py_getitem jt "user_id" = Return user ->
  py_getitem jt "refresh_token" = Return rtoken ->
  status_is HTTP_SUCCESS_START HTTP_SUCCESS_END rstate = true ->
  json rstate = Some js ->
  overwrite (live_state float_of_str (w_time w)) js (w_thermostat w)
  = (Return tt, t') ->
  exists w' post,
    async_update pkg float_of_str str w = (Done, w')
    /\ w_thermostat w' = t'
    /\ _token (w_client w') = PStr (String a tok)
    /\ w_replies w' = rest
    /\ rq_method post = "POST"
    /\ rq_url post = [Lit (_base_url (w_client w) ++ "authenticate")]
    /\ w_requests w'
       = (w_requests w
          ++ [state_read w; post;
              mkRequest "GET"
                (Lit (_base_url (w_client w)) :: state_url (w_thermostat w))
                [("X-Requested-With", "XMLHttpRequest");
                 ("Authorization", ("Bearer " ++ String a tok)%string)]
                PNone (rq_session post)])%list.
Proof.
  intros Htok Hrep H1 H401 H2 Hjt Ha Hu Hr H3 Hjs Hover.
  unfold async_update. unfold bind at 1.
  unfold _LOGGER_debug at 1, emit at 1.
  set (w0 := with_log _ w).
  destruct (refresh_forbidden pkg float_of_str w0 r401 (rtok :: rstate :: rest)
              Htok Hrep H1 H401)
    as (w1 & Hrun1 & Htok1 & Hbase1 & Ht1 & Hnow1 & Hrq1 & Hrep1).
  destruct pkg.
  - (* simple: the refusal, then the missing token, then the read *)
    cbn [update_loop]. unfold bind at 1. unfold simple_pass at 1.
    rewrite Hrun1. cbn [isinstance_AuthError isinstance_APIError].
    unfold bind at 1. unfold _LOGGER_warning at 1, emit at 1.
    unfold ret at 1.
    unfold bind at 1. unfold _LOGGER_debug at 1, emit at 1.
    set (wa := with_log _ (with_log _ w1)).
    assert (Htoka : _token (w_client wa) = PStr EmptyString) by exact Htok1.
    unfold bind at 1. unfold simple_pass at 1.
    rewrite (refresh_without_token simple float_of_str wa Htoka).
    cbn [isinstance_AuthError no_token].
    unfold bind at 1. unfold _LOGGER_warning at 1, emit at 1.
    unfold bind at 1. unfold _LOGGER_debug at 1, emit at 1.
    set (wb := with_log _ (with_log _ (with_log _ wa))).
    set (k := fun w0 : World =>
                with_log (w_log w0
                          ++ [mkLogRecord "DEBUG"
                                "Retrying... (%d attempts left)"
                                [[Fmt (PInt (Z.of_nat 1))]]]) w0).
    assert (Hk : forall w0,
               w_requests (k w0) = w_requests w0
               /\ w_replies (k w0) = w_replies w0
               /\ w_client (k w0) = w_client w0
               /\ w_thermostat (k w0) = w_thermostat w0
               /\ w_time (k w0) = w_time w0)
      by (intros w2; repeat split).
    assert (Hoverb : overwrite (live_state float_of_str (w_time wb)) js
                       (w_thermostat wb) = (Return tt, t')).
    { change (w_time wb) with (w_time w1).
      change (w_thermostat wb) with (w_thermostat w1).
      rewrite Hnow1, Ht1. exact Hover. }
    destruct (relogin_then_read simple float_of_str wb rtok rstate rest jt
                user rtoken js a tok t' k Hk Hrep1 H2 Hjt Ha Hu Hr H3 Hjs
                Hoverb)
      as (wc & wd & post & Hrunc & Hrund & Htd & Htokd & Hrepd & Hm & Hu'
          & Hrqd).
    rewrite Hrunc.
    unfold bind at 1. unfold _LOGGER_debug at 1, emit at 1.
    change (with_log _ wc) with (k wc).
    unfold bind at 1. unfold simple_pass at 1. rewrite Hrund.
    unfold bind, _LOGGER_debug, emit, ret.
    eexists. exists post. split; [reflexivity|].
    cbn [w_thermostat w_client w_replies w_requests with_log].
    split; [exact Htd|]. split; [exact Htokd|]. split; [exact Hrepd|].
    split; [exact Hm|].
    split; [rewrite Hu'; change (w_client wb) with (w_client w1);
            rewrite Hbase1; reflexivity|].
    rewrite Hrqd.
    change (w_requests wb) with (w_requests w1).
    change (w_client wb) with (w_client w1).
    change (w_thermostat wb) with (w_thermostat w1).
    rewrite Hrq1, Hbase1, Ht1, <- app_assoc. reflexivity.
  - (* nvenergy: the refusal is answered by getToken at once *)
    cbn [update_loop]. unfold bind at 1. unfold nve_pass at 1.
    rewrite Hrun1.
    unfold bind at 1. unfold _LOGGER_warning at 1, emit at 1.
    unfold bind at 1. unfold _LOGGER_debug at 1, emit at 1.
    set (wb := with_log _ (with_log _ w1)).
    assert (Hk : forall w0 : World,
               w_requests w0 = w_requests w0
               /\ w_replies w0 = w_replies w0
               /\ w_client w0 = w_client w0
               /\ w_thermostat w0 = w_thermostat w0
               /\ w_time w0 = w_time w0)
      by (intros w2; repeat split).
    assert (Hoverb : overwrite (live_state float_of_str (w_time wb)) js
                       (w_thermostat wb) = (Return tt, t')).
    { change (w_time wb) with (w_time w1).
      change (w_thermostat wb) with (w_thermostat w1).
      rewrite Hnow1, Ht1. exact Hover. }
    destruct (relogin_then_read nvenergy float_of_str wb rtok rstate rest jt
                user rtoken js a tok t' (fun w0 => w0) Hk Hrep1 H2 Hjt Ha
                Hu Hr H3 Hjs Hoverb)
      as (wc & wd & post & Hrunc & Hrund & Htd & Htokd & Hrepd & Hm & Hu'
          & Hrqd).
    unfold bind at 1. rewrite Hrunc.
    unfold ret at 1. unfold bind at 1. unfold ret at 1.
    unfold bind at 1. unfold nve_pass at 1. rewrite Hrund.
    unfold ret.
    eexists. exists post. split; [reflexivity|].
    split; [exact Htd|]. split; [exact Htokd|]. split; [exact Hrepd|].
    split; [exact Hm|].
    split; [rewrite Hu'; change (w_client wb) with (w_client w1);
            rewrite Hbase1; reflexivity|].
    rewrite Hrqd.
    change (w_requests wb) with (w_requests w1).
    change (w_client wb) with (w_client w1).
    change (w_thermostat wb) with (w_thermostat w1).
    rewrite Hrq1, Hbase1, Ht1, <- app_assoc. reflexivity.
Qed.

Lemma async_update_recovers_witness :
  let w := demo_world [reply_401; token_reply; full_reply] in
  exists w' post,
    async_update simple no_float_of_str str_demo w = (Done, w')
    /\ hvacMode (w_thermostat w') = PStr "heat"
    /\ _token (w_client w') = PStr "tok-2"
    /\ w_replies w' = []
    /\ rq_method post = "POST"
    /\ w_requests w'
       = [state_read w; post;
          mkRequest "GET"
            (Lit (_base_url (w_client w)) :: state_url (w_thermostat w))
            [("X-Requested-With", "XMLHttpRequest");
             ("Authorization", "Bearer tok-2")]
            PNone (rq_session post)].
Proof.
  intros w.
  assert (Hover :
            overwrite (live_state no_float_of_str (w_time w))
              (PDict
                 [("connected", PBool true);
                  ("setpoint_reason", PStr "hold");
                  ("away_details",
                   PDict [("end_ts", PStr "2050-12-31T00:00:00+00:00")]);
                  ("best_known_current_state_thermostat_data",
                   PDict [("temperature", PFloat (7126 # 100));
                          ("hold_mode", PStr "on");
                          ("fan_mode", PStr "on");
                          ("fan_state", PStr "on");
                          ("hvac_mode", PStr "heat");
                          ("hvac_state", PStr "heat");
                          ("cool_setpoint", PInt 75);
                          ("heat_setpoint", PInt 70)])])
              (w_thermostat w)
            = (Return tt,
               snd (overwrite (live_state no_float_of_str (w_time w))
                      (PDict
                         [("connected", PBool true);
                          ("setpoint_reason", PStr "hold");
                          ("away_details",
                           PDict [("end_ts",
                                   PStr "2050-12-31T00:00:00+00:00")]);
                          ("best_known_current_state_thermostat_data",
                           PDict [("temperature", PFloat (7126 # 100));
                                  ("hold_mode", PStr "on");
                                  ("fan_mode", PStr "on");
                                  ("fan_state", PStr "on");
                                  ("hvac_mode", PStr "heat");
                                  ("hvac_state", PStr "heat");
                                  ("cool_setpoint", PInt 75);
                                  ("heat_setpoint", PInt 70)])])
                      (w_thermostat w))))
    by (vm_compute; reflexivity).
  destruct (async_update_recovers simple no_float_of_str str_demo w
              reply_401 token_reply full_reply [] _ _ _ _ _ _ _
              (ex_intro _ _ (ex_intro _ _ eq_refl)) eq_refl eq_refl eq_refl
              eq_refl eq_refl eq_refl eq_refl eq_refl eq_refl eq_refl Hover)
    as (w' & post & H1 & H2 & H3 & H4 & H5 & _ & H7).
  exists w', post. split; [exact H1|]. split.
  - rewrite H2. vm_compute. reflexivity.
  - split; [exact H3|]. split; [exact H4|]. split; [exact H5 | exact H7].
Defined.

(** ** An answer that cannot be read *)

Lemma py_float_builtin float_of_str v e :
  py_float float_of_str v = Raise e -> builtin_exn e.
Proof.
  destruct v; simpl; try (intros [= <-]; split; reflexivity).
  destruct (float_of_str s); intros [= <-]; split; reflexivity.
Qed.

Lemma py_contains_builtin k v e :
  py_contains k v = Raise e -> builtin_exn e.
Proof.
  destruct v; simpl; intros [= <-]; split; reflexivity.
Qed.

(** What stops [overwrite] on the live state is an exception of the
    language, never one of the library. *)
Lemma overwrite_builtin (float_of_str : string -> option Q) (now : Q)
    (r_json : pyval) (t t2 : TheSimpleThermostat) (e : exn) :
  overwrite (live_state float_of_str now) r_json t = (Raise e, t2) ->
  builtin_exn e.
Proof.
  unfold live_state. cbn [overwrite extract store].
  unfold nested, away_end, away_preset, then_.
  intros H.
  repeat match type of H with
    | context [match ?x with _ => _ end] =>
        lazymatch x with
        | context [match _ with _ => _ end] => fail
        | _ => destruct x eqn:?
        end
    end;
    try discriminate H;
    injection H as <- <-;
    eauto using py_getitem_builtin, py_float_builtin, py_contains_builtin.
Qed.

(** X24. In the package [simple] an answer that cannot be read through is
    not retried: when the state read is answered with a 2xx whose body
    decodes but lacks a value [refresh] consumes, [async_update] raises
    [SimpleThermostatError] after that single request, two retries unused,
    and the thermostat stays as the interrupted [refresh] left it. *)
Theorem async_update_malformed (float_of_str : string -> option Q)
    (str : exn -> fstr) (w : World) (r : Response) (rest : list Response)
    (r_json : pyval) (e : exn) (t2 : TheSimpleThermostat) :
  holds_token (w_client w) ->
  w_replies w = r :: rest ->
  status_is HTTP_SUCCESS_START HTTP_SUCCESS_END r = true ->
  json r = Some r_json ->
  overwrite (live_state float_of_str (w_time w)) r_json (w_thermostat w)
  = (Raise e, t2) ->
  exists w',
    async_update simple float_of_str str w
    = (Failed (SimpleThermostatError "Refresh failed after three attempts."),
       w')
    /\ w_requests w' = (w_requests w ++ [state_read w])%list
    /\ w_replies w' = rest
    /\ w_thermostat w' = t2.
Proof.
  intros Htok Hrep H2xx Hjson Hover.
  destruct (overwrite_builtin _ _ _ _ _ _ Hover) as [Hauth Hapi].
  unfold async_update. unfold bind at 1.
  unfold _LOGGER_debug at 1, emit at 1.
  set (w0 := with_log _ w).
  destruct (refresh_answered simple float_of_str w0 r rest r_json (Raise e)
              t2 Htok Hrep H2xx Hjson Hover)
    as (w1 & Hrun & Ht & _ & Hrq & Hrp).
  cbn [update_loop]. unfold bind at 1. unfold simple_pass at 1.
  rewrite Hrun, Hauth, Hapi.
  destruct (isinstance_TheSimpleError e);
    unfold bind, _LOGGER_error, emit, ret;
    (eexists; split; [reflexivity|]);
    cbn [w_requests w_replies w_thermostat with_log];
    (split; [exact Hrq | split; [exact Hrp | exact Ht]]).
Qed.

Lemma async_update_malformed_witness :
  let w := demo_world [partial_reply; full_reply; full_reply] in
  exists w',
    async_update simple no_float_of_str str_demo w
    = (Failed (SimpleThermostatError "Refresh failed after three attempts."),
       w')
    /\ w_requests w' = [state_read w]
    /\ w_replies w' = [full_reply; full_reply]
    /\ w_thermostat w' = upd_connected (PBool true) demo_thermostat.
Proof.
  intros w.
  exact (async_update_malformed no_float_of_str str_demo w partial_reply
           [full_reply; full_reply] (PDict [("connected", PBool true)])
           (KeyError "setpoint_reason")
           (upd_connected (PBool true) demo_thermostat)
           (ex_intro _ _ (ex_intro _ _ eq_refl)) eq_refl eq_refl eq_refl
           eq_refl).
Defined.

(** * How much each operation can send *)

Lemma sends_quiet {A : Type} (m : M A) :
  preserves w_requests m -> sends_at_most 0 m.
Proof.
  intros H w. exists []. rewrite H, app_nil_r. split; [reflexivity|].
  apply Nat.le_refl.
Qed.

Lemma sends_weaken {A : Type} (n n' : nat) (m : M A) :
  (n <= n')%nat -> sends_at_most n m -> sends_at_most n' m.
Proof.
  intros Hle H w. destruct (H w) as (l & Hl & Hn).
  exists l. split; [exact Hl|]. eapply Nat.le_trans; eassumption.
Qed.

Lemma sends_bind {A B : Type} (a b : nat) (m : M A) (k : A -> M B) :
  sends_at_most a m -> (forall x, sends_at_most b (k x)) ->
  sends_at_most (a + b) (bind m k).
Proof.
  intros Hm Hk w. unfold bind.
  destruct (Hm w) as (l1 & Hl1 & Hn1).
  destruct (m w) as [[x|e] w1]; cbn [snd] in *.
  - destruct (Hk x w1) as (l2 & Hl2 & Hn2).
    exists (l1 ++ l2)%list. rewrite Hl2, Hl1, app_assoc.
    split; [reflexivity|]. rewrite length_app.
    apply Nat.add_le_mono; assumption.
  - exists l1. split; [exact Hl1|].
    eapply Nat.le_trans; [exact Hn1 | apply Nat.le_add_r].
Qed.

Lemma sends_one_then_quiet {A B : Type} (n : nat) (m : M A) (k : A -> M B) :
  sends_at_most n m -> (forall x, preserves w_requests (k x)) ->
  sends_at_most n (bind m k).
Proof.
  intros Hm Hk. rewrite <- (Nat.add_0_r n).
  apply sends_bind; [exact Hm|]. intros x. apply sends_quiet. apply Hk.
Qed.

Lemma sends_quiet_then {A B : Type} (n : nat) (m : M A) (k : A -> M B) :
  preserves w_requests m -> (forall x, sends_at_most n (k x)) ->
  sends_at_most n (bind m k).
Proof.
  intros Hm Hk. change n with (0 + n)%nat.
  apply sends_bind; [apply sends_quiet; exact Hm | exact Hk].
Qed.

Lemma assign_requests f : preserves w_requests (assign f).
Proof. intros w. reflexivity. Qed.

Lemma assign_client_requests f : preserves w_requests (assign_client f).
Proof. intros w. reflexivity. Qed.

Lemma emit_requests level msg args :
  preserves w_requests (emit level msg args).
Proof. intros w. reflexivity. Qed.

(** Steps that send nothing. *)
Ltac quiet :=
  unfold _LOGGER_debug, _LOGGER_warning, _LOGGER_error;
  repeat first
    [ frame_step
    | apply assign_requests
    | apply assign_client_requests
    | apply emit_requests ].

Lemma http_request_sends pkg method req_url body authenticated :
  sends_at_most 1 (http_request pkg method req_url body authenticated).
Proof.
  intros w.
  destruct (proj1 (http_request_footprint pkg method req_url body
                     authenticated w)) as [H | H].
  - exists []. rewrite H, app_nil_r. split; [reflexivity|].
    apply Nat.le_0_l.
  - eexists. split; [exact H|]. apply Nat.le_refl.
Qed.

Lemma getToken_sends : sends_at_most 1 getToken.
Proof.
  intros w. eexists. split; [apply getToken_request|]. apply Nat.le_refl.
Qed.

Lemma refresh_sends pkg float_of_str :
  sends_at_most 1 (refresh pkg float_of_str).
Proof.
  unfold refresh.
  apply sends_quiet_then; [quiet|]. intros t.
  apply sends_one_then_quiet; [apply http_request_sends|].
  intros r. quiet.
Qed.

Lemma get_metadata_sends pkg float_of_str :
  sends_at_most 1 (get_metadata pkg float_of_str).
Proof.
  unfold get_metadata.
  apply sends_quiet_then; [quiet|]. intros t.
  apply sends_one_then_quiet; [apply http_request_sends|].
  intros r. quiet.
Qed.

Lemma get_away_settings_sends pkg float_of_str :
  sends_at_most 1 (get_away_settings pkg float_of_str).
Proof.
  unfold get_away_settings.
  apply sends_quiet_then; [quiet|]. intros t.
  apply sends_one_then_quiet; [apply http_request_sends|].
  intros r. quiet.
Qed.

(** X25. The traffic of each operation is bounded, whatever the server
    answers and whether the operation returns or raises: [refresh],
    [get_metadata], [get_away_settings], [set_fan_mode], [set_mode] and
    [set_temp] perform at most one HTTP operation; [set_preset_mode] and
    the construction of a thermostat at most two. *)
Theorem traffic_bounds (pkg : package) (float_of_str : string -> option Q) :
  sends_at_most 1 (refresh pkg float_of_str)
  /\ sends_at_most 1 (get_metadata pkg float_of_str)
  /\ sends_at_most 1 (get_away_settings pkg float_of_str)
  /\ (forall fan, sends_at_most 1 (set_fan_mode pkg fan))
  /\ (forall mode, sends_at_most 1 (set_mode pkg mode))
  /\ (forall temp, sends_at_most 1 (set_temp pkg temp))
  /\ (forall preset,
        sends_at_most 2 (set_preset_mode pkg float_of_str preset))
  /\ (forall id, sends_at_most 2 (createThermostat pkg float_of_str id)).
Proof.
  split; [apply refresh_sends|]. split; [apply get_metadata_sends|].
  split; [apply get_away_settings_sends|].
  split; [|split; [|split; [|split]]].
  - intros fan. unfold set_fan_mode.
    apply sends_quiet_then; [quiet|]. intros wire.
    apply sends_quiet_then; [quiet|]. intros t.
    apply sends_one_then_quiet; [apply http_request_sends|].
    intros r. quiet.
  - intros mode. unfold set_mode.
    apply sends_quiet_then; [quiet|]. intros wire.
    apply sends_quiet_then; [quiet|]. intros t.
    apply sends_one_then_quiet; [apply http_request_sends|].
    intros r. quiet.
  - intros temp. unfold set_temp.
    apply sends_quiet_then; [quiet|]. intros t.
    assert (Hafter : forall d,
               sends_at_most 1
                 (bind (http_request pkg "PATCH" (state_url t) (PDict d)
                          true)
                    (fun _ =>
                       bind self (fun t' =>
                         if py_eq_str (hvacMode t') HVACMode_COOL
                         then assign (upd_cool_setpoint (PInt (py_int temp)))
                         else if py_eq_str (hvacMode t') HVACMode_HEAT
                              then assign (upd_heat_setpoint
                                             (PInt (py_int temp)))
                              else ret tt)))).
    { intros d. apply sends_one_then_quiet; [apply http_request_sends|].
      intros r. quiet. }
    destruct (Qltb temp (_min_temp t) || Qltb (_max_temp t) temp).
    { apply (sends_weaken 0); [apply Nat.le_0_l|]. apply sends_quiet. quiet. }
    cbv zeta.
    destruct (py_eq_str (hvacMode t) HVACMode_COOL).
    { apply sends_quiet_then; [quiet|]. intros _. apply Hafter. }
    destruct (py_eq_str (hvacMode t) HVACMode_HEAT).
    { apply sends_quiet_then; [quiet|]. intros _. apply Hafter. }
    apply (sends_weaken 0); [apply Nat.le_0_l|]. apply sends_quiet. quiet.
  - intros preset. unfold set_preset_mode.
    destruct (negb (String.eqb preset PRESET_AWAY
                    || String.eqb preset PRESET_NONE)).
    { apply (sends_weaken 0); [apply Nat.le_0_l|]. apply sends_quiet. quiet. }
    apply sends_quiet_then; [quiet|]. intros t.
    destruct (py_eq_str (_hvac_mode t) "off").
    { apply (sends_weaken 0); [apply Nat.le_0_l|]. apply sends_quiet. quiet. }
    apply (sends_bind 1 1); [apply get_away_settings_sends|]. intros _.
    apply sends_quiet_then; [quiet|]. intros t1.
    destruct (String.eqb preset PRESET_AWAY);
      [|destruct (String.eqb preset PRESET_NONE)].
    + apply sends_one_then_quiet; [apply http_request_sends|].
      intros r. quiet.
    + apply sends_one_then_quiet; [apply http_request_sends|].
      intros r. quiet.
    + apply (sends_weaken 0); [apply Nat.le_0_l|]. apply sends_quiet. quiet.
  - intros id. unfold createThermostat.
    apply sends_quiet_then; [unfold get_location_id; quiet|]. intros loc.
    apply sends_quiet_then; [intros w; reflexivity|]. intros _.
    apply (sends_bind 1 1); [apply get_metadata_sends|]. intros _.
    apply refresh_sends.
Qed.

(** ** The retry loop *)

Lemma update_loop_sends pkg float_of_str str retries :
  sends_at_most (2 * retries)
    (update_loop pkg float_of_str str retries).
Proof.
  induction retries as [|n IH].
  - apply sends_quiet. intros w. reflexivity.
  - replace (2 * S n)%nat with (2 + 2 * n)%nat by lia.
    cbn [update_loop].
    apply sends_bind.
    + destruct pkg.
      * (* simple *)
        intros w. unfold simple_pass.
        destruct (refresh_sends simple float_of_str w) as (l1 & Hl1 & Hn1).
        destruct (refresh simple float_of_str w) as [[u|e] w1];
          cbn [snd] in Hl1.
        { exists l1. split; [exact Hl1 | lia]. }
        destruct (isinstance_AuthError e).
        { unfold bind, _LOGGER_warning, _LOGGER_debug, emit.
          set (w2 := with_log _ (with_log _ w1)).
          destruct (getToken_sends w2) as (l2 & Hl2 & Hn2).
          destruct (getToken w2) as [[u|e2] w3]; cbn [snd] in Hl2.
          - exists (l1 ++ l2)%list. cbn [snd].
            rewrite Hl2. change (w_requests w2) with (w_requests w1).
            rewrite Hl1, app_assoc. split; [reflexivity|].
            rewrite length_app. lia.
          - exists (l1 ++ l2)%list.
            destruct (isinstance_AuthError e2);
              unfold _LOGGER_error, emit, ret; cbn [snd w_requests with_log];
              rewrite Hl2; change (w_requests w2) with (w_requests w1);
              rewrite Hl1, app_assoc; (split; [reflexivity|]);
              rewrite length_app; lia. }
        exists l1.
        destruct (isinstance_APIError e);
          [|destruct (isinstance_TheSimpleError e)];
          unfold bind, _LOGGER_warning, _LOGGER_error, emit, ret;
          cbn [snd w_requests with_log]; (split; [exact Hl1 | lia]).
      * (* nvenergy *)
        intros w. unfold nve_pass.
        destruct (refresh_sends nvenergy float_of_str w) as (l1 & Hl1 & Hn1).
        destruct (refresh nvenergy float_of_str w) as [[u|e] w1];
          cbn [snd] in Hl1.
        { exists l1. split; [exact Hl1 | lia]. }
        unfold bind at 1 2. unfold _LOGGER_warning, _LOGGER_debug, emit.
        set (w2 := with_log _ (with_log _ w1)).
        unfold bind, ret.
        destruct (getToken_sends w2) as (l2 & Hl2 & Hn2).
        destruct (getToken w2) as [[u|e2] w3]; cbn [snd] in *;
          exists (l1 ++ l2)%list; rewrite Hl2;
          change (w_requests w2) with (w_requests w1);
          rewrite Hl1, app_assoc; (split; [reflexivity|]);
          rewrite length_app; lia.
    + intros [success|].
      * apply (sends_weaken 0); [apply Nat.le_0_l|]. apply sends_quiet.
        intros w. reflexivity.
      * apply sends_quiet_then; [destruct pkg; quiet|]. intros _. exact IH.
Qed.

(** X26. Whatever the server does, one [async_update] performs at most six
    HTTP operations, in either package: three passes, each a state read and
    at most one token POST. *)
Theorem async_update_bounded (pkg : package)
    (float_of_str : string -> option Q) (str : exn -> fstr) (w : World) :
  exists sent,
    w_requests (snd (async_update pkg float_of_str str w))
    = (w_requests w ++ sent)%list
    /\ (List.length sent <= 6)%nat.
Proof.
  unfold async_update. unfold bind, _LOGGER_debug at 1, emit at 1.
  set (w0 := with_log _ w).
  destruct (update_loop_sends pkg float_of_str str 3 w0) as (l & Hl & Hn).
  exists l.
  destruct (update_loop pkg float_of_str str 3 w0) as [[[|]|e] w'];
    cbn [snd] in *; (split; [exact Hl | exact Hn]).
Qed.

(** ** A login that is refused *)

Lemma getToken_refused (w : World) (r : Response) (rest : list Response) :
  w_replies w = r :: rest ->
  status_is HTTP_SUCCESS_START HTTP_SUCCESS_END r = false ->
  status_is HTTP_FORBIDDEN_START HTTP_FORBIDDEN_END r = true ->
  exists w',
    getToken w = (Raise (AuthError (error_msg "Authentication Error" r)), w')
    /\ _token (w_client w') = PStr EmptyString
    /\ w_requests w' = (w_requests w ++ [token_request w])%list
    /\ w_replies w' = rest
    /\ w_thermostat w' = w_thermostat w.
Proof.
  intros Hrep H2xx H401.
  destruct w as [c t rq rp n lg tm]. simpl in Hrep. subst rp.
  run_getToken. rewrite H2xx, H401.
  eexists. split; [reflexivity|]. cbn -[String.append]. repeat split.
Qed.

(** X27. When the state read is answered 401 and the token POST that
    follows is answered 401 as well, [async_update] stops after these two
    operations with the access token gone and the thermostat untouched.  The two
    packages report it differently: [simple] raises its own
    [SimpleThermostatError], while [nvenergy] lets the [AuthError] of
    [getToken] through. *)
Theorem async_update_login_refused (pkg : package)
    (float_of_str : string -> option Q) (str : exn -> fstr) (w : World)
    (r401 rtok : Response) (rest : list Response) :
  holds_token (w_client w) ->
  w_replies w = r401 :: rtok :: rest ->
  status_is HTTP_SUCCESS_START HTTP_SUCCESS_END r401 = false ->
  status_is HTTP_FORBIDDEN_START HTTP_FORBIDDEN_END r401 = true ->
  status_is HTTP_SUCCESS_START HTTP_SUCCESS_END rtok = false ->
  status_is HTTP_FORBIDDEN_START HTTP_FORBIDDEN_END rtok = true ->
  exists w' post,
    async_update pkg float_of_str str w
    = (Failed
         match pkg with
         | simple =>
             SimpleThermostatError "Refresh failed after three attempts."
         | nvenergy =>
             Passed (AuthError (error_msg "Authentication Error" rtok))
         end, w')
    /\ w_requests w' = (w_requests w ++ [state_read w; post])%list
    /\ rq_method post = "POST"
    /\ w_replies w' = rest
    /\ _token (w_client w') = PStr EmptyString
    /\ w_thermostat w' = w_thermostat w.
Proof.
  intros Htok Hrep H1 H401 H2 H402.
  unfold async_update. unfold bind at 1.
  unfold _LOGGER_debug at 1, emit at 1.
  set (w0 := with_log _ w).
  destruct (refresh_forbidden pkg float_of_str w0 r401 (rtok :: rest)
              Htok Hrep H1 H401)
    as (w1 & Hrun1 & Htok1 & Hbase1 & Ht1 & Hnow1 & Hrq1 & Hrep1).
  destruct pkg.
  - cbn [update_loop]. unfold bind at 1. unfold simple_pass at 1.
    rewrite Hrun1. cbn [isinstance_AuthError isinstance_APIError].
    unfold bind at 1. unfold _LOGGER_warning at 1, emit at 1.
    unfold ret at 1.
    unfold bind at 1. unfold _LOGGER_debug at 1, emit at 1.
    set (wa := with_log _ (with_log _ w1)).
    assert (Htoka : _token (w_client wa) = PStr EmptyString) by exact Htok1.
    unfold bind at 1. unfold simple_pass at 1.
    rewrite (refresh_without_token simple float_of_str wa Htoka).
    cbn [isinstance_AuthError no_token].
    unfold bind at 1. unfold _LOGGER_warning at 1, emit at 1.
    unfold bind at 1. unfold _LOGGER_debug at 1, emit at 1.
    set (wb := with_log _ (with_log _ (with_log _ wa))).
    destruct (getToken_refused wb rtok rest Hrep1 H2 H402)
      as (wc & Hrunc & Htokc & Hrqc & Hrepc & Htc).
    rewrite Hrunc. cbn [isinstance_AuthError].
    unfold bind, _LOGGER_error, emit, ret.
    eexists. exists (token_request wb). split; [reflexivity|].
    cbn [w_requests w_replies w_client w_thermostat with_log].
    split.
    { rewrite Hrqc. change (w_requests wb) with (w_requests w1).
      rewrite Hrq1, <- app_assoc. reflexivity. }
    split; [reflexivity|]. split; [exact Hrepc|]. split; [exact Htokc|].
    rewrite Htc. exact Ht1.
  - cbn [update_loop]. unfold bind at 1. unfold nve_pass at 1.
    rewrite Hrun1.
    unfold bind at 1. unfold _LOGGER_warning at 1, emit at 1.
    unfold bind at 1. unfold _LOGGER_debug at 1, emit at 1.
    set (wb := with_log _ (with_log _ w1)).
    destruct (getToken_refused wb rtok rest Hrep1 H2 H402)
      as (wc & Hrunc & Htokc & Hrqc & Hrepc & Htc).
    unfold bind at 1. rewrite Hrunc.
    eexists. exists (token_request wb). split; [reflexivity|].
    split.
    { rewrite Hrqc. change (w_requests wb) with (w_requests w1).
      rewrite Hrq1, <- app_assoc. reflexivity. }
    split; [reflexivity|]. split; [exact Hrepc|]. split; [exact Htokc|].
    rewrite Htc. exact Ht1.
Qed.

Lemma async_update_login_refused_witness :
  let w := demo_world [reply_401; reply_401] in
  (exists w',
     async_update simple no_float_of_str str_demo w
     = (Failed (SimpleThermostatError "Refresh failed after three attempts."),
        w')
     /\ map rq_method (w_requests w') = ["GET"; "POST"])
  /\ (exists w',
        async_update nvenergy no_float_of_str str_demo w
        = (Failed (Passed (AuthError
                             (error_msg "Authentication Error" reply_401))),
           w')
        /\ map rq_method (w_requests w') = ["GET"; "POST"]).
Proof.
  intros w.
  assert (Ht : holds_token (w_client w)) by (do 2 eexists; reflexivity).
  split.
  - destruct (async_update_login_refused simple no_float_of_str str_demo w
                reply_401 reply_401 [] Ht eq_refl eq_refl eq_refl eq_refl
                eq_refl) as (w' & post & H1 & H2 & H3 & _).
    exists w'. split; [exact H1|]. rewrite H2.
    change (w_requests w) with (@nil Request). cbn [app map].
    rewrite H3. reflexivity.
  - destruct (async_update_login_refused nvenergy no_float_of_str str_demo w
                reply_401 reply_401 [] Ht eq_refl eq_refl eq_refl eq_refl
                eq_refl) as (w' & post & H1 & H2 & H3 & _).
    exists w'. split; [exact H1|]. rewrite H2.
    change (w_requests w) with (@nil Request). cbn [app map].
    rewrite H3. reflexivity.
Defined.

(** * The challenge *)

Lemma prefix_app (l s : string) : prefix l (l ++ s) = true.
Proof.
  induction l as [|a l IH]; simpl.
  - destruct s; reflexivity.
  - destruct (ascii_dec a a) as [_|H]; [exact IH | contradiction].
Qed.

Lemma drop_app (l s : string) : drop (String.length l) (l ++ s) = s.
Proof.
  induction l as [|a l IH]; simpl; [destruct s; reflexivity | exact IH].
Qed.

Lemma take_app (l s : string) : take (String.length l) (l ++ s) = l.
Proof.
  induction l as [|a l IH]; simpl; [destruct s; reflexivity|].
  rewrite IH. reflexivity.
Qed.

Lemma literal_app (l s : string) : literal l (l ++ s) = Some s.
Proof. unfold literal. rewrite prefix_app, drop_app. reflexivity. Qed.

Lemma ascii_word_ascii (b : Z) : ascii_word b = true -> (b <? 128) = true.
Proof.
  unfold ascii_word. intros H. apply Z.ltb_lt.
  repeat (apply orb_true_iff in H; destruct H as [H|H]);
    try (apply andb_true_iff in H; destruct H as [H1 H2];
         apply Z.leb_le in H1, H2; lia).
  apply Z.eqb_eq in H. lia.
Qed.

Lemma length_app_string (l s : string) :
  String.length (l ++ s) = (String.length l + String.length s)%nat.
Proof.
  induction l as [|a l IH]; simpl; [reflexivity | rewrite IH; reflexivity].
Qed.

(** The run of word characters at the head of an ASCII word that a quote
    follows is the word. *)
Lemma word_run_word (unicode_alnum : Z -> bool) (g rest : string)
    (fuel : nat) :
  ascii_words g = true ->
  (String.length g < fuel)%nat ->
  word_run unicode_alnum fuel (g ++ dquote ++ rest) = String.length g.
Proof.
  revert fuel. induction g as [|a g IH]; intros fuel Hw Hfuel.
  - destruct fuel; [inversion Hfuel | reflexivity].
  - destruct fuel as [|fuel]; [inversion Hfuel|].
    simpl in Hw. apply andb_true_iff in Hw. destruct Hw as [Ha Hw].
    cbn [word_run append code_point].
    fold (byte_of a). cbv zeta.
    rewrite (ascii_word_ascii _ Ha).
    unfold word_char. rewrite (ascii_word_ascii _ Ha), Ha.
    cbn [drop Nat.add String.length].
    rewrite IH; [reflexivity | exact Hw | simpl in Hfuel; lia].
Qed.

Lemma group_word (unicode_alnum : Z -> bool) (g rest : string) :
  word g ->
  group unicode_alnum (g ++ dquote ++ rest) = Some (g, dquote ++ rest).
Proof.
  intros [Hne Hw]. unfold group.
  rewrite (word_run_word unicode_alnum g rest _ Hw).
  - destruct g as [|a g]; [contradiction|].
    cbn [String.length Nat.eqb].
    change (S (String.length g)) with (String.length (String a g)).
    rewrite take_app, drop_app. reflexivity.
  - rewrite length_app_string. simpl. lia.
Qed.

(** The pattern reads back what the server wrote. *)
Lemma match_challenge_round_trip (unicode_alnum : Z -> bool)
    (realm nonce opaque tail : string) :
  word realm -> word nonce -> word opaque ->
  match_challenge unicode_alnum (challenge realm nonce opaque tail)
  = Some (realm, nonce, opaque).
Proof.
  intros Hr Hn Ho. unfold match_challenge, challenge.
  rewrite literal_app.
  change (lit_nonce ++ nonce ++ lit_opaque ++ opaque ++ dquote ++ tail)
    with (dquote
          ++ ((", nonce=" ++ dquote) ++ nonce ++ lit_opaque ++ opaque
              ++ dquote ++ tail)).
  rewrite (group_word _ _ _ Hr).
  change (dquote
          ++ ((", nonce=" ++ dquote) ++ nonce ++ lit_opaque ++ opaque
              ++ dquote ++ tail))
    with (lit_nonce ++ nonce ++ lit_opaque ++ opaque ++ dquote ++ tail).
  rewrite literal_app.
  change (lit_opaque ++ opaque ++ dquote ++ tail)
    with (dquote ++ ((", opaque=" ++ dquote) ++ opaque ++ dquote ++ tail)).
  rewrite (group_word _ _ _ Hn).
  change (dquote ++ ((", opaque=" ++ dquote) ++ opaque ++ dquote ++ tail))
    with (lit_opaque ++ opaque ++ dquote ++ tail).
  rewrite literal_app.
  rewrite (group_word _ _ _ Ho).
  rewrite literal_app. reflexivity.
Qed.

(** X28. [getNonce] reads back the challenge the server wrote: when the
    unauthenticated GET of [authenticate/nonce] is answered by a 2xx whose
    [WWW-Authenticate] is the challenge [DigestE] with quoted realm R,
    nonce N and opaque O, non-empty words of [0-9A-Za-z_], followed by
    anything, the client ends with exactly R, N and O as realm, nonce and
    opaque.  The request carries no [Authorization] header. *)
Theorem getNonce_round_trip (pkg : package) (unicode_alnum : Z -> bool)
    (w : World) (r : Response) (rest : list Response) (r_json : pyval)
    (realm nonce opaque tail : string) :
  w_replies w = r :: rest ->
  status_is HTTP_SUCCESS_START HTTP_SUCCESS_END r = true ->
  json r = Some r_json ->
  py_getitem r_json "WWW-Authenticate"
  = Return (PStr (challenge realm nonce opaque tail)) ->
  word realm -> word nonce -> word opaque ->
  exists w',
    getNonce pkg unicode_alnum w = (Return tt, w')
    /\ _realm (w_client w') = realm
    /\ _nonce (w_client w') = nonce
    /\ _opaque (w_client w') = opaque
    /\ w_requests w'
       = (w_requests w
          ++ [mkRequest "GET"
                [Lit (_base_url (w_client w)); Lit "authenticate/nonce"]
                (sess_headers (session_in_use w)) PNone
                (sess_id (session_in_use w))])%list.
Proof.
  intros Hrep H2xx Hjson Hwww Hr Hn Ho.
  unfold getNonce. cbv zeta. unfold bind at 1.
  rewrite (http_request_exchange pkg "GET" [Lit "authenticate/nonce"] PNone
             false w r rest (or_introl eq_refl)
             (fun H => False_ind _ (Bool.diff_false_true H)) Hrep).
  cbv zeta. rewrite H2xx.
  unfold bind at 1. unfold lift at 1, r_json_of. rewrite Hjson.
  unfold bind at 1. unfold lift at 1. rewrite Hwww.
  unfold bind at 1. unfold lift at 1.
  rewrite (match_challenge_round_trip unicode_alnum _ _ _ tail Hr Hn Ho).
  unfold bind, assign_client, exchanged, request_sent, bearer_headers.
  eexists. split; [reflexivity|].
  cbn [w_client w_requests with_client upd_realm upd_nonce upd_opaque
       _realm _nonce _opaque].
  rewrite app_nil_r. repeat split.
Qed.

Lemma getNonce_round_trip_witness :
  let www := challenge "Utility" "n0nce_7" "0paque_9" EmptyString in
  exists w',
    getNonce simple no_unicode_alnum (demo_world [nonce_reply www])
    = (Return tt, w')
    /\ _realm (w_client w') = "Utility"
    /\ _nonce (w_client w') = "n0nce_7"
    /\ _opaque (w_client w') = "0paque_9"
    /\ map rq_headers (w_requests w')
       = [[("X-Requested-With", "XMLHttpRequest")]].
Proof.
  intros www.
  assert (Hw : forall s, s <> EmptyString -> ascii_words s = true -> word s)
    by (intros s H1 H2; split; assumption).
  destruct (getNonce_round_trip simple no_unicode_alnum
              (demo_world [nonce_reply www]) (nonce_reply www) []
              (PDict [("WWW-Authenticate", PStr www)])
              "Utility" "n0nce_7" "0paque_9" EmptyString
              eq_refl eq_refl eq_refl eq_refl
              (Hw "Utility" ltac:(discriminate) eq_refl)
              (Hw "n0nce_7" ltac:(discriminate) eq_refl)
              (Hw "0paque_9" ltac:(discriminate) eq_refl))
    as (w' & H1 & H2 & H3 & H4 & H5).
  exists w'. split; [exact H1|]. split; [exact H2|]. split; [exact H3|].
  split; [exact H4|]. rewrite H5. reflexivity.
Defined.

(** X29. A challenge that does not begin with [DigestE realm=] and a
    quote is refused whole: [getNonce] raises [TheSimpleError] carrying the
    raw string, and the realm, nonce and opaque value of the client are those
    from before the call. *)
Theorem getNonce_rejects (pkg : package) (unicode_alnum : Z -> bool)
    (w : World) (r : Response) (rest : list Response) (r_json : pyval)
    (www_auth : string) :
  w_replies w = r :: rest ->
  status_is HTTP_SUCCESS_START HTTP_SUCCESS_END r = true ->
  json r = Some r_json ->
  py_getitem r_json "WWW-Authenticate" = Return (PStr www_auth) ->
  prefix lit_realm www_auth = false ->
  exists w',
    getNonce pkg unicode_alnum w
    = (Raise (TheSimpleError [Lit "Unable to parse nonce response: ";
                              Fmt (PStr www_auth)]), w')
    /\ _realm (w_client w') = _realm (w_client w)
    /\ _nonce (w_client w') = _nonce (w_client w)
    /\ _opaque (w_client w') = _opaque (w_client w).
Proof.
  intros Hrep H2xx Hjson Hwww Hpre.
  unfold getNonce. cbv zeta. unfold bind at 1.
  rewrite (http_request_exchange pkg "GET" [Lit "authenticate/nonce"] PNone
             false w r rest (or_introl eq_refl)
             (fun H => False_ind _ (Bool.diff_false_true H)) Hrep).
  cbv zeta. rewrite H2xx.
  unfold bind at 1. unfold lift at 1, r_json_of. rewrite Hjson.
  unfold bind at 1. unfold lift at 1. rewrite Hwww.
  unfold bind at 1. unfold lift at 1.
  unfold match_challenge, literal. rewrite Hpre.
  unfold raise, exchanged.
  eexists. split; [reflexivity|]. cbn [w_client].
  destruct (_http_sess (w_client w)); repeat split.
Qed.

Lemma getNonce_rejects_witness :
  let www := "Digest realm=Consumer, nonce=abc123, opaque=xyz789" in
  exists w',
    getNonce simple no_unicode_alnum (demo_world [nonce_reply www])
    = (Raise (TheSimpleError [Lit "Unable to parse nonce response: ";
                              Fmt (PStr www)]), w')
    /\ _realm (w_client w') = "Consumer"
    /\ _nonce (w_client w') = "abc123"
    /\ _opaque (w_client w') = "xyz789".
Proof.
  intros www.
  exact (getNonce_rejects simple no_unicode_alnum
           (demo_world [nonce_reply www]) (nonce_reply www) []
           (PDict [("WWW-Authenticate", PStr www)]) www
           eq_refl eq_refl eq_refl eq_refl eq_refl).
Defined.

(** * The shape of the digest *)

Lemma be_bytes_length (k : nat) (x : Z) : List.length (SHA1.be_bytes k x) = k.
Proof.
  induction k as [|k IH]; simpl; [reflexivity | rewrite IH; reflexivity].
Qed.

Lemma be_bytes_range (k : nat) (x : Z) :
  Forall (fun b => 0 <= b < 256) (SHA1.be_bytes k x).
Proof.
  induction k as [|k IH]; cbn [SHA1.be_bytes]; constructor; [|exact IH].
  apply Z.mod_pos_bound. lia.
Qed.

Lemma digest_length (msg : list Z) : List.length (SHA1.digest msg) = 20%nat.
Proof.
  unfold SHA1.digest. cbv zeta.
  destruct (SHA1.blocks _ _ _) as [[[[h0 h1] h2] h3] h4].
  rewrite !length_app, !be_bytes_length. reflexivity.
Qed.

Lemma digest_range (msg : list Z) :
  Forall (fun b => 0 <= b < 256) (SHA1.digest msg).
Proof.
  unfold SHA1.digest. cbv zeta.
  destruct (SHA1.blocks _ _ _) as [[[[h0 h1] h2] h3] h4].
  repeat (apply Forall_app; split); apply be_bytes_range.
Qed.

Lemma hex_digit_lower (x : Z) : 0 <= x < 16 -> lower_hex (SHA1.hex_digit x).
Proof.
  intros H.
  assert (Hx : x = 0 \/ x = 1 \/ x = 2 \/ x = 3 \/ x = 4 \/ x = 5 \/ x = 6
               \/ x = 7 \/ x = 8 \/ x = 9 \/ x = 10 \/ x = 11 \/ x = 12
               \/ x = 13 \/ x = 14 \/ x = 15) by lia.
  unfold lower_hex.
  repeat (destruct Hx as [->|Hx]; [vm_compute; tauto|]).
  subst x. vm_compute. tauto.
Qed.

Lemma hex_length (bs : list Z) :
  String.length (SHA1.hex bs) = (2 * List.length bs)%nat.
Proof. induction bs as [|b bs IH]; simpl; [reflexivity | rewrite IH; lia]. Qed.

Lemma hex_lower (bs : list Z) :
  Forall (fun b => 0 <= b < 256) bs ->
  Forall lower_hex (list_ascii_of_string (SHA1.hex bs)).
Proof.
  induction 1 as [|b bs Hb _ IH]; cbn [SHA1.hex list_ascii_of_string].
  - constructor.
  - constructor; [|constructor; [|exact IH]]; apply hex_digit_lower.
    + split; [apply Z.div_pos; lia | apply Z.div_lt_upper_bound; lia].
    + apply Z.mod_pos_bound. lia.
Qed.

(** X30. Whatever the user name, password hash, realm and nonce, the
    response [buildResponse] computes is 40 characters long and each of them
    is one of [0123456789abcdef]: what is sent as [response] of the digest
    header never needs quoting. *)
Theorem buildResponse_shape (username password realm nonce : string) :
  String.length (buildResponse username password realm nonce) = 40%nat
  /\ Forall lower_hex
       (list_ascii_of_string (buildResponse username password realm nonce)).
Proof.
  unfold buildResponse, sha1_hexdigest. cbv zeta. split.
  - rewrite hex_length, digest_length. reflexivity.
  - apply hex_lower, digest_range.
Qed.
